(** * nipype interfaces: dcm2nii / dcm2niix stdout scrapers and MRtrix
      output-name generators

    Shallow embedding of
      - [nipype/interfaces/dcm2nii.py]  (classes [Dcm2nii], [Dcm2niix]);
      - [nipype/interfaces/mrtrix/preprocess.py] (the output-name helpers).

    Python [str] values are modelled as [string], a character being its
    code point (the strings of code points below 256); a Python exception
    is an explicit [Raise] outcome of the [result] type; the instance inputs that a
    method reads ([self.inputs.*]) and the process working directory
    ([os.getcwd()]) are explicit arguments. *)

From Stdlib Require Import String Ascii List Bool Arith Lia.
Import ListNotations.
Open Scope list_scope.
Open Scope string_scope.

(** ** Outcomes of Python code that can raise *)

Inductive exn : Type :=
| AttributeError   (* attribute access on [None] *)
| ValueError       (* wrong number of values to unpack, bad basename *)
| IndexError       (* [l[0]] on an empty sequence *)
| TypeError.

Inductive result (A : Type) : Type :=
| Ok (a : A)
| Raise (e : exn).
Arguments Ok {A} a.
Arguments Raise {A} e.

Definition bind {A B : Type} (r : result A) (k : A -> result B) : result B :=
  match r with
  | Ok a => k a
  | Raise e => Raise e
  end.

Notation "'do' x <- r ; k" := (bind r (fun x => k))
  (at level 10, x name, r at level 100, k at level 200).

(** ** Python [str] primitives *)

Module PyStr.

(** [s.startswith(p)] *)
Fixpoint startswith (p s : string) : bool :=
  match p, s with
  | EmptyString, _ => true
  | String _ _, EmptyString => false
  | String a p', String b s' => Ascii.eqb a b && startswith p' s'
  end.

(** [s[n:]] for [0 <= n] *)
Fixpoint drop (n : nat) (s : string) : string :=
  match n, s with
  | O, _ => s
  | S _, EmptyString => EmptyString
  | S n', String _ s' => drop n' s'
  end.

(** [s[:n]] for [0 <= n] *)
Fixpoint take (n : nat) (s : string) : string :=
  match n, s with
  | O, _ => EmptyString
  | S _, EmptyString => EmptyString
  | S n', String a s' => String a (take n' s')
  end.

(** [sub in s] *)
Fixpoint contains (sub s : string) : bool :=
  startswith sub s ||
  match s with
  | EmptyString => false
  | String _ s' => contains sub s'
  end.

(** [s.split(c)] for a one-character separator: never the empty list. *)
Fixpoint split (c : ascii) (s : string) : list string :=
  match s with
  | EmptyString => [EmptyString]
  | String a s' =>
      if Ascii.eqb a c then EmptyString :: split c s'
      else match split c s' with
           | [] => [String a EmptyString]
           | w :: ws => String a w :: ws
           end
  end.

(** [s.rfind(c) + 1]: one past the last occurrence of [c], [0] if none. *)
Fixpoint rfind1 (c : ascii) (s : string) : nat :=
  match s with
  | EmptyString => 0
  | String a s' =>
      match rfind1 c s' with
      | O => if Ascii.eqb a c then 1 else 0
      | S i => S (S i)
      end
  end.

(** [s.endswith(c)] for a one-character [c] *)
Fixpoint endswith_char (c : ascii) (s : string) : bool :=
  match s with
  | EmptyString => false
  | String a EmptyString => Ascii.eqb a c
  | String _ s' => endswith_char c s'
  end.

(** [s.rstrip(c)] for a one-character [c] *)
Fixpoint rstrip (c : ascii) (s : string) : string :=
  match s with
  | EmptyString => EmptyString
  | String a s' =>
      match rstrip c s' with
      | EmptyString => if Ascii.eqb a c then EmptyString else String a EmptyString
      | r => String a r
      end
  end.

(** [s == c * len(s)]: every character of [s] is [c]. *)
Fixpoint all_char (c : ascii) (s : string) : bool :=
  match s with
  | EmptyString => true
  | String a s' => Ascii.eqb a c && all_char c s'
  end.

(** truth value of a string: non-empty *)
Definition truthy (s : string) : bool :=
  match s with
  | EmptyString => false
  | String _ _ => true
  end.

(** truth value of a variable that holds [None] or a string: the string,
    when it is one and is not empty *)
Definition truthy_opt (v : option string) : option string :=
  match v with
  | Some s => if truthy s then Some s else None
  | None => None
  end.

(** [not l] for a list *)
Definition is_nil {A : Type} (l : list A) : bool :=
  match l with
  | [] => true
  | _ :: _ => false
  end.

(** [x in l] for a list of strings *)
Definition mem (x : string) (l : list string) : bool :=
  existsb (String.eqb x) l.

(** [argstr % val] for a template with at most one ["%s"] and a string
    value; a template without any ["%s"] is returned unchanged here (the
    callers below only format templates that contain one). *)
Fixpoint percent_s (argstr val : string) : string :=
  match argstr with
  | EmptyString => EmptyString
  | String a rest =>
      if startswith "%s" argstr then val ++ drop 2 argstr
      else String a (percent_s rest val)
  end.

End PyStr.

(** ** The fragment of Python's [re] that the scrapers use

    A pattern is a sequence of items; each item is one atom, a greedy [*] or
    [+] of one atom, or a parenthesis of a (non-nested) capture group.
    Matching is leftmost with greedy backtracking, as [re.search] does. *)

Module Re.

Inductive atom : Type :=
| Chr (c : ascii)   (* a literal character *)
| Dot               (* [.] : any character except a newline *)
| NonSpace.         (* [\S] : any character that is not whitespace *)

Inductive item : Type :=
| One (a : atom)
| Star (a : atom)
| Plus (a : atom)
| GroupOpen
| GroupClose.

Definition regex : Type := list item.

Definition newline : ascii := "010"%char.

(** The code points that [\s] matches in a [str] pattern, among those
    below 256: [\t], [\n], [\v], [\f], [\r] (9 to 13), the four
    information separators (28 to 31), the space (32), NEXT LINE (133)
    and the no-break space (160). *)
Definition whitespace_codes : list nat :=
  [9; 10; 11; 12; 13; 28; 29; 30; 31; 32; 133; 160].

Definition is_space (c : ascii) : bool :=
  existsb (Nat.eqb (nat_of_ascii c)) whitespace_codes.

Definition atom_matches (a : atom) (c : ascii) : bool :=
  match a with
  | Chr c' => Ascii.eqb c c'
  | Dot => negb (Ascii.eqb c newline)
  | NonSpace => negb (is_space c)
  end.

(** A successful match of a pattern at the head of a string: the number of
    characters consumed, and the offset at which each parenthesis was
    crossed (in pattern order). *)
Definition hit : Type := (nat * list nat)%type.

Definition shift (m : hit) : hit := (S (fst m), map S (snd m)).
Definition mark (m : hit) : hit := (fst m, 0 :: snd m).

(** Greedy repetition: take one more character if possible and try the
    rest of the pattern; fall back to stopping here. *)
Fixpoint star_greedy (a : atom) (k : string -> option hit) (s : string)
  : option hit :=
  match s with
  | EmptyString => k EmptyString
  | String c s' =>
      if atom_matches a c then
        match star_greedy a k s' with
        | Some m => Some (shift m)
        | None => k s
        end
      else k s
  end.

Fixpoint match_here (r : regex) (s : string) : option hit :=
  match r with
  | [] => Some (0, [])
  | One a :: r' =>
      match s with
      | EmptyString => None
      | String c s' =>
          if atom_matches a c then option_map shift (match_here r' s') else None
      end
  | Star a :: r' => star_greedy a (match_here r') s
  | Plus a :: r' =>
      match s with
      | EmptyString => None
      | String c s' =>
          if atom_matches a c
          then option_map shift (star_greedy a (match_here r') s')
          else None
      end
  | GroupOpen :: r' => option_map mark (match_here r' s)
  | GroupClose :: r' => option_map mark (match_here r' s)
  end.

(** A match object: the searched string, where the match starts, and the
    hit relative to that start. *)
Record match_obj : Type := MatchObj {
  m_string : string;
  m_start : nat;
  m_hit : hit
}.

Fixpoint search_from (r : regex) (s : string) : option (nat * hit) :=
  match match_here r s with
  | Some m => Some (0, m)
  | None =>
      match s with
      | EmptyString => None
      | String _ s' =>
          option_map (fun p => (S (fst p), snd p)) (search_from r s')
      end
  end.

(** [re.search(r, s)]: [None] when no position matches. *)
Definition search (r : regex) (s : string) : option match_obj :=
  option_map (fun p => MatchObj s (fst p) (snd p)) (search_from r s).

(** [m.group(0)] *)
Definition group0 (m : match_obj) : string :=
  PyStr.take (fst (m_hit m)) (PyStr.drop (m_start m) (m_string m)).

(** [m.groups()[0]], the text of the first capture group *)
Definition group1 (m : match_obj) : string :=
  match snd (m_hit m) with
  | o :: c :: _ =>
      PyStr.take (c - o) (PyStr.drop (m_start m + o) (m_string m))
  | _ => EmptyString
  end.

Definition lit (s : string) : regex :=
  map (fun c => One (Chr c)) (list_ascii_of_string s).

End Re.

(** ** [os.path] on POSIX ([posixpath]) *)

Module PosixPath.

Definition sep : ascii := "/"%char.

Definition isabs (p : string) : bool := PyStr.startswith "/" p.

(** [os.path.join(a, b)] *)
Definition join (a b : string) : string :=
  if PyStr.startswith "/" b then b
  else if negb (PyStr.truthy a) || PyStr.endswith_char sep a then a ++ b
  else a ++ "/" ++ b.

(** the [initial_slashes] of [normpath]: POSIX keeps exactly two leading
    slashes, and folds three or more into one *)
Definition initial_slashes (p : string) : nat :=
  if PyStr.startswith "/" p then
    if PyStr.startswith "//" p && negb (PyStr.startswith "///" p)
    then 2 else 1
  else 0.

(** one turn of the [for comp in comps] loop of [normpath] *)
Definition norm_step (initial : nat) (new_comps : list string) (comp : string)
  : list string :=
  if String.eqb comp "" || String.eqb comp "." then new_comps
  else if negb (String.eqb comp "..")
          || (Nat.eqb initial 0 && PyStr.is_nil new_comps)
          || (negb (PyStr.is_nil new_comps) && String.eqb (last new_comps "") "..")
  then (new_comps ++ [comp])%list
  else removelast new_comps.

Fixpoint slashes (n : nat) : string :=
  match n with
  | O => ""
  | S n' => String sep (slashes n')
  end.

(** [os.path.normpath(path)] *)
Definition normpath (path : string) : string :=
  if negb (PyStr.truthy path) then "."
  else
    let initial := initial_slashes path in
    let comps := fold_left (norm_step initial) (PyStr.split sep path) [] in
    let path' := slashes initial ++ String.concat "/" comps in
    if PyStr.truthy path' then path' else ".".

(** [os.path.abspath(path)], with [os.getcwd()] passed as [cwd] *)
Definition abspath (cwd path : string) : string :=
  normpath (if isabs path then path else join cwd path).

(** [os.path.split(p)] *)
Definition split (p : string) : string * string :=
  let i := PyStr.rfind1 sep p in
  let head := PyStr.take i p in
  let tail := PyStr.drop i p in
  let head' :=
    if PyStr.truthy head && negb (PyStr.all_char sep head)
    then PyStr.rstrip sep head else head in
  (head', tail).

Definition dirname (p : string) : string := fst (split p).
Definition basename (p : string) : string := snd (split p).

(** [os.path.splitext(p)]: the extension starts at the last dot of the last
    component, unless that component has only leading dots before it. *)
Definition splitext (p : string) : string * string :=
  let s1 := PyStr.rfind1 sep p in          (* sepIndex + 1 *)
  let d1 := PyStr.rfind1 "."%char p in     (* dotIndex + 1 *)
  if Nat.ltb s1 d1 then
    if negb (PyStr.all_char "."%char (PyStr.take (d1 - 1 - s1) (PyStr.drop s1 p)))
    then (PyStr.take (d1 - 1) p, PyStr.drop (d1 - 1) p)
    else (p, "")
  else (p, "").

End PosixPath.

(** ** [nipype.utils.filemanip] *)

Module Filemanip.

(** Modelled from the spec: [split_filename] of [nipype.utils.filemanip] is
    not among the embedded sources.  The spec describes it as the utility
    that "splits a path into directory/basename/extension"; it is modelled
    as the directory of the path, and the last component split at its
    extension. *)
Definition split_filename (fname : string) : string * string * string :=
  let pth := PosixPath.dirname fname in
  let '(name, ext) := PosixPath.splitext (PosixPath.basename fname) in
  (pth, name, ext).

(** Modelled from the spec: [fname_presuffix] of [nipype.utils.filemanip] is
    not among the embedded sources.  The spec describes it as the utility
    that "reconstructs a sibling filename with a new suffix/extension": the
    base name gets [prefix] and [suffix], keeps its extension only when
    [use_ext], and is placed in [newpath] when one is given. *)
Definition fname_presuffix (cwd fname prefix suffix : string)
           (newpath : option string) (use_ext : bool) : string :=
  let '(pth, name, ext) := split_filename fname in
  let ext' := if use_ext then ext else "" in
  let pth' := match newpath with
              | Some d => if PyStr.truthy d then PosixPath.abspath cwd d else pth
              | None => pth
              end in
  PosixPath.join pth' (prefix ++ name ++ suffix ++ ext').

End Filemanip.

(** ** [nipype.interfaces.base]: traits and the generic argument formatter *)

Module Base.

(** what a trait declaration contributes to formatting *)
Record trait_spec : Type := TraitSpec {
  argstr : string;
  is_bool : bool      (* [traits.Bool] *)
}.

Inductive value : Type :=
| VBool (b : bool)
| VStr (s : string)
| VList (l : list string).

(** Python truth value of an input value *)
Definition truth (v : value) : bool :=
  match v with
  | VBool b => b
  | VStr s => PyStr.truthy s
  | VList l => negb (PyStr.is_nil l)
  end.

Definition str_of (v : value) : string :=
  match v with
  | VBool true => "True"
  | VBool false => "False"
  | VStr s => s
  | VList l => String.concat " " l
  end.

Definition set_argstr (spec : trait_spec) (a : string) : trait_spec :=
  TraitSpec a (is_bool spec).

(** Modelled from the spec: [CommandLine._format_arg] of
    [nipype.interfaces.base] is not among the embedded sources.  The spec
    (4.1) has it emit, for each defined field, "its associated
    flag/positional token according to a declared ... format template", and
    names the y/n transform of the converters as what keeps a boolean flag
    from being omitted: a boolean trait whose template has no format
    directive yields its flag when true and nothing ([None]) when false;
    any other value is substituted into the template. *)
Definition CommandLine_format_arg (spec : trait_spec) (val : value)
  : option string :=
  if is_bool spec && negb (PyStr.contains "%" (argstr spec)) then
    if truth val then Some (argstr spec) else None
  else Some (PyStr.percent_s (argstr spec) (str_of val)).

End Base.

(** ** [class Dcm2nii] *)

Module Dcm2nii.
Import Base.

(** [Dcm2niiInputSpec]: the declared traits, by field name *)
Definition input_spec (opt : string) : option trait_spec :=
  if String.eqb opt "source_dir" then Some (TraitSpec "%s" false)
  else if String.eqb opt "source_names" then Some (TraitSpec "%s" false)
  else if String.eqb opt "gzip_output" then Some (TraitSpec "-g" true)
  else if String.eqb opt "nii_output" then Some (TraitSpec "-n" true)
  else if String.eqb opt "anonymize" then Some (TraitSpec "-a" true)
  else if String.eqb opt "id_in_filename" then Some (TraitSpec "-i" true)
  else if String.eqb opt "reorient" then Some (TraitSpec "-r" true)
  else if String.eqb opt "reorient_and_crop" then Some (TraitSpec "-x" true)
  else if String.eqb opt "output_dir" then Some (TraitSpec "-o %s" false)
  else if String.eqb opt "config_file" then Some (TraitSpec "-b %s" false)
  else if String.eqb opt "convert_all_pars" then Some (TraitSpec "-v" true)
  else if String.eqb opt "args" then Some (TraitSpec "%s" false)
  else None.

(** the field names tested by [_format_arg] *)
Definition yn_fields : list string :=
  ["gzip_output"; "nii_output"; "anonymize"; "id_in_filename"; "reorient";
   "reorient_and_crop"; "convert_all_pars"].

(** [Dcm2nii._format_arg] *)
Definition _format_arg (opt : string) (spec : trait_spec) (val : value)
  : option string :=
  if PyStr.mem opt yn_fields then
    if truth val
    then CommandLine_format_arg (set_argstr spec (argstr spec ++ " y")) val
    else CommandLine_format_arg (set_argstr spec (argstr spec ++ " n"))
                                (VBool true)
  else CommandLine_format_arg spec val.

(** [Dcm2nii._gen_filename('output_dir')] is [os.getcwd()] *)
Definition _gen_filename_output_dir (cwd : string) : string := cwd.

(** the local variables of [_parse_stdout] that live across lines *)
Record state : Type := State {
  files : list string;
  reoriented_files : list string;
  reoriented_and_cropped_files : list string;
  bvecs : list string;
  bvals : list string;
  skip : bool;
  last_added_file : option string
}.

Definition init : state := State [] [] [] [] [] false None.

Definition add_file (st : state) (f : string) : state :=
  State (files st ++ [f]) (reoriented_files st)
        (reoriented_and_cropped_files st) (bvecs st) (bvals st)
        (skip st) (Some f).

Definition add_reoriented (st : state) (f : string) : state :=
  State (files st) (reoriented_files st ++ [f])
        (reoriented_and_cropped_files st) (bvecs st) (bvals st)
        true (last_added_file st).

Definition add_cropped (st : state) (f : string) : state :=
  State (files st) (reoriented_files st)
        (reoriented_and_cropped_files st ++ [f]) (bvecs st) (bvals st)
        true (last_added_file st).

Definition add_gradients (st : state) (bvec bval : string) : state :=
  State (files st) (reoriented_files st)
        (reoriented_and_cropped_files st) (bvecs st ++ [bvec])
        (bvals st ++ [bval]) (skip st) (last_added_file st).

Definition clear_skip (st : state) : state :=
  State (files st) (reoriented_files st)
        (reoriented_and_cropped_files st) (bvecs st) (bvals st)
        false (last_added_file st).

(** the recognition pattern: [-->] and a group of [.] repeated,
    ['-->( .* )'] without the blanks *)
Definition re_arrow : Re.regex :=
  (Re.lit "-->" ++ [Re.GroupOpen; Re.Star Re.Dot; Re.GroupClose])%list.

(** the extraction pattern: [.] repeated, [-->], a blank and a group of
    [.] repeated, ['.*-->  ( .* )'] with one blank only, after the arrow *)
Definition re_arrow_path : Re.regex :=
  ([Re.Star Re.Dot] ++ Re.lit "--> "
     ++ [Re.GroupOpen; Re.Star Re.Dot; Re.GroupClose])%list.

(** the first [if/elif] chain of the loop body: the value of [file] after
    it, and the state with the gradient files it may have appended *)
Definition classify (cwd : string) (output_dir : option string)
           (st : state) (line : string) : result (state * option string) :=
  if PyStr.startswith "Saving " line then
    Ok (st, Some (PyStr.drop (String.length "Saving ") line))
  else if PyStr.startswith "GZip..." line then
    let output_dir' := match output_dir with
                       | Some d => d
                       | None => _gen_filename_output_dir cwd
                       end in
    Ok (st, Some (PosixPath.abspath cwd
                    (PosixPath.join output_dir'
                       (PyStr.drop (String.length "GZip...") line))))
  else if PyStr.startswith "Number of diffusion directions " line then
    match PyStr.truthy_opt (last_added_file st) with
    | Some f =>
        let '(base, filename, ext) := Filemanip.split_filename f in
        Ok (add_gradients st (PosixPath.join base (filename ++ ".bvec"))
                             (PosixPath.join base (filename ++ ".bval")),
            None)
    | None => Ok (st, None)
    end
  else
    match Re.search re_arrow line with
    | Some _ =>
        match Re.search re_arrow_path line with
        | Some m => Ok (st, Some (Re.group1 m))
        | None => Raise AttributeError    (* [None.groups()] *)
        end
    | None => Ok (st, None)
    end.

(** one turn of [for line in stdout.split("\n")] *)
Definition loop_body (cwd : string) (output_dir : option string)
           (st : state) (line : string) : result state :=
  if negb (skip st) then
    do p <- classify cwd output_dir st line;
    let '(st1, file) := p in
    match PyStr.truthy_opt file with
    | Some f => Ok (add_file st1 f)                           (* continue *)
    | None =>
        if PyStr.startswith "Reorienting as " line then
          Ok (add_reoriented st1
                (PyStr.drop (String.length "Reorienting as ") line))
        else if PyStr.startswith "Cropping NIfTI/Analyze image " line then
          let '(base, filename) :=
            PosixPath.split
              (PyStr.drop (String.length "Cropping NIfTI/Analyze image ") line) in
          Ok (add_cropped st1 (PosixPath.join base ("c" ++ filename)))
        else Ok (clear_skip st1)
    end
  else Ok (clear_skip st).

Fixpoint loop (cwd : string) (output_dir : option string)
         (st : state) (lines : list string) : result state :=
  match lines with
  | [] => Ok st
  | line :: rest =>
      do st' <- loop_body cwd output_dir st line;
      loop cwd output_dir st' rest
  end.

(** the 5-tuple returned by [_parse_stdout] *)
Definition outputs : Type :=
  (list string * list string * list string * list string * list string)%type.

Definition returned (st : state) : outputs :=
  (files st, reoriented_files st, reoriented_and_cropped_files st,
   bvecs st, bvals st).

(** [Dcm2nii._parse_stdout] *)
Definition _parse_stdout (cwd : string) (output_dir : option string)
           (stdout : string) : result outputs :=
  do st <- loop cwd output_dir init (PyStr.split Re.newline stdout);
  Ok (returned st).

End Dcm2nii.

(** ** [class Dcm2niix] *)

Module Dcm2niix.
Import Base.

(** [compress = traits.Enum('i', ['y','i','n'])] *)
Inductive compress_mode : Type := Cy | Ci | Cn.

Definition compress_is_n (c : compress_mode) : bool :=
  match c with
  | Cn => true
  | _ => false
  end.

(** the inputs that [_parse_stdout] and [_run_interface] read *)
Record inputs : Type := Inputs {
  output_dir : option string;     (* [None]: not defined *)
  compress : compress_mode;
  bids_format : bool
}.

(** [Dcm2niixInputSpec]: the declared traits, by field name *)
Definition input_spec (opt : string) : option trait_spec :=
  if String.eqb opt "source_names" then Some (TraitSpec "%s" false)
  else if String.eqb opt "source_dir" then Some (TraitSpec "%s" false)
  else if String.eqb opt "out_filename" then Some (TraitSpec "-f %s" false)
  else if String.eqb opt "output_dir" then Some (TraitSpec "-o %s" false)
  else if String.eqb opt "bids_format" then Some (TraitSpec "-b" true)
  else if String.eqb opt "compress" then Some (TraitSpec "-z %s" false)
  else if String.eqb opt "merge_imgs" then Some (TraitSpec "-m" true)
  else if String.eqb opt "single_file" then Some (TraitSpec "-s" true)
  else if String.eqb opt "verbose" then Some (TraitSpec "-v" true)
  else if String.eqb opt "crop" then Some (TraitSpec "-x" true)
  else if String.eqb opt "has_private" then Some (TraitSpec "-t" true)
  else None.

(** the field names tested by [_format_arg] *)
Definition yn_fields : list string :=
  ["bids_format"; "merge_imgs"; "single_file"; "verbose"; "crop";
   "has_private"].

(** [Dcm2niix._format_arg]; [val[0]] is the first item of a list or the
    first character of a string, and raises on an empty one *)
Definition _format_arg (opt : string) (spec : trait_spec) (val : value)
  : result (option string) :=
  let '(spec, val) :=
    if PyStr.mem opt yn_fields then
      if truth val then (set_argstr spec (argstr spec ++ " y"), val)
      else (set_argstr spec (argstr spec ++ " n"), VBool true)
    else (spec, val) in
  if String.eqb opt "source_names" then
    match val with
    | VList (v0 :: _) => Ok (Some (PyStr.percent_s (argstr spec) v0))
    | VStr (String c _) =>
        Ok (Some (PyStr.percent_s (argstr spec) (String c EmptyString)))
    | VList [] | VStr EmptyString => Raise IndexError
    | VBool _ => Raise TypeError
    end
  else Ok (CommandLine_format_arg spec val).

(** [Dcm2niix._gen_filename('output_dir')] is [os.getcwd()] *)
Definition _gen_filename_output_dir (cwd : string) : string := cwd.

(** the local variables of [_parse_stdout] that live across lines *)
Record state : Type := State {
  files : list string;
  bvecs : list string;
  bvals : list string;
  bids : list string;
  skip : bool;
  find_b : bool
}.

Definition init : state := State [] [] [] [] false false.

(** ['\S+/\S+'] *)
Definition re_path : Re.regex :=
  [Re.Plus Re.NonSpace; Re.One (Re.Chr "/"%char); Re.Plus Re.NonSpace].

Definition set_find_b (st : state) (b : bool) : state :=
  State (files st) (bvecs st) (bvals st) (bids st) (skip st) b.

Definition clear_skip (st : state) : state :=
  State (files st) (bvecs st) (bvals st) (bids st) false (find_b st).

Definition add_gradients (st : state) (bvec bval : string) : state :=
  State (files st) (bvecs st ++ [bvec]) (bvals st ++ [bval]) (bids st)
        (skip st) false.

Definition add_file (st : state) (f : string) : state :=
  State (files st ++ [f]) (bvecs st) (bvals st) (bids st)
        (skip st) (find_b st).

Definition add_bids (st : state) (f : string) : state :=
  State (files st) (bvecs st) (bvals st) (bids st ++ [f])
        (skip st) (find_b st).

(** the [if/elif/else] chain of the loop body: the value of [out_file]
    after it, and the state it leaves *)
Definition classify (cwd : string) (inp : inputs) (st : state)
           (line : string) : result (state * option string) :=
  if PyStr.startswith "Convert " line then
    match Re.search re_path line with
    | None => Raise AttributeError      (* [None.group(0)] *)
    | Some m =>
        let fname := Re.group0 m in
        let output_dir' := match output_dir inp with
                           | Some d => d
                           | None => _gen_filename_output_dir cwd
                           end in
        let out_file :=
          PosixPath.abspath cwd (PosixPath.join output_dir' fname) in
        if find_b st
        then Ok (add_gradients st (out_file ++ ".bvec") (out_file ++ ".bval"),
                 Some out_file)
        else Ok (st, Some out_file)
    end
  else if PyStr.contains "DTI gradients" line
          || PyStr.contains "DTI gradient directions" line then
    Ok (set_find_b st true, None)
  else Ok (st, None).

(** one turn of [for line in stdout.split("\n")] *)
Definition loop_body (cwd : string) (inp : inputs) (st : state)
           (line : string) : result state :=
  if negb (skip st) then
    do p <- classify cwd inp st line;
    let '(st1, out_file) := p in
    match PyStr.truthy_opt out_file with
    | Some f =>
        let st2 := if compress_is_n (compress inp)
                   then add_file st1 (f ++ ".nii")
                   else add_file st1 (f ++ ".nii.gz") in
        Ok (if bids_format inp then add_bids st2 (f ++ ".json") else st2)
    | None => Ok (clear_skip st1)
    end
  else Ok (clear_skip st).

Fixpoint loop (cwd : string) (inp : inputs) (st : state)
         (lines : list string) : result state :=
  match lines with
  | [] => Ok st
  | line :: rest =>
      do st' <- loop_body cwd inp st line;
      loop cwd inp st' rest
  end.

(** what [_parse_stdout] returns: a tuple of three or of four lists *)
Inductive outputs : Type :=
| Tuple3 (files bvecs bvals : list string)
| Tuple4 (files bvecs bvals bids : list string).

Definition returned (st : state) : outputs :=
  if PyStr.is_nil (bids st)
  then Tuple3 (files st) (bvecs st) (bvals st)
  else Tuple4 (files st) (bvecs st) (bvals st) (bids st).

(** [Dcm2niix._parse_stdout] *)
Definition _parse_stdout (cwd : string) (inp : inputs) (stdout : string)
  : result outputs :=
  do st <- loop cwd inp init (PyStr.split Re.newline stdout);
  Ok (returned st).

(** the attributes that [_run_interface] assigns *)
Record attrs : Type := Attrs {
  a_output_files : list string;
  a_bvecs : list string;
  a_bvals : list string;
  a_bids : option (list string)   (* [None]: attribute not assigned *)
}.

(** [Dcm2niix._run_interface], from the point where the command has run
    and [new_runtime.stdout] is known; a tuple assignment whose sides
    differ in length raises [ValueError] *)
Definition _run_interface (cwd : string) (inp : inputs) (stdout : string)
  : result attrs :=
  do r <- _parse_stdout cwd inp stdout;
  if bids_format inp then
    match r with
    | Tuple4 f bv bl bd => Ok (Attrs f bv bl (Some bd))
    | Tuple3 _ _ _ => Raise ValueError
    end
  else
    match r with
    | Tuple3 f bv bl => Ok (Attrs f bv bl None)
    | Tuple4 _ _ _ _ => Raise ValueError
    end.

(** [Dcm2niix._list_outputs]: the entries it sets, by key and in order;
    [self.bids] is read only when BIDS sidecars are on, and reading it
    before [_run_interface] has assigned it raises *)
Definition _list_outputs (inp : inputs) (a : attrs)
  : result (list (string * list string)) :=
  let outputs := [("converted_files", a_output_files a);
                  ("bvecs", a_bvecs a);
                  ("bvals", a_bvals a)] in
  if bids_format inp then
    match a_bids a with
    | Some b => Ok (outputs ++ [("bids", b)])%list
    | None => Raise AttributeError
    end
  else Ok outputs.

End Dcm2niix.

(** ** [nipype/interfaces/mrtrix/preprocess.py]: names of the outputs *)

Module Mrtrix.

(** [extension = traits.Enum("mif", "nii", "float", ...)] of [MRConvert] *)
Inductive extension_t : Type :=
| Emif | Enii | Efloat | Echar | Eshort | Eint | Elong | Edouble.

Definition extension_str (e : extension_t) : string :=
  match e with
  | Emif => "mif" | Enii => "nii" | Efloat => "float" | Echar => "char"
  | Eshort => "short" | Eint => "int" | Elong => "long"
  | Edouble => "double"
  end.

(** the inputs that the name generators read; [None] is an undefined
    input.  [in_files] is the multi-path input ([in_files], and
    [in_file] of [DWI2Tensor]), with [[]] for the undefined one: a
    multi-path input holds a list with at least one path or is undefined.
    [out_filename] is called [out_file] in [DWIDenoise] and
    [DWIBiasCorrect]. *)
Record inputs : Type := Inputs {
  in_file : option string;
  in_files : list string;
  out_filename : option string;
  extension : extension_t
}.

(** the [name] component of [split_filename(fname)] *)
Definition name_of (fname : string) : string :=
  let '(_, name, _) := Filemanip.split_filename fname in name.

(** a mandatory single-file input; a path operation on an undefined value
    raises *)
Definition the_in_file (inp : inputs) : result string :=
  match in_file inp with
  | Some f => Ok f
  | None => Raise TypeError
  end.

(** [self.inputs.in_files[0]]; the undefined value cannot be indexed *)
Definition first_in_file (inp : inputs) : result string :=
  match in_files inp with
  | f :: _ => Ok f
  | [] => Raise TypeError
  end.

(** [_gen_fname], the same method in [DWIDenoise] and [DWIBiasCorrect] *)
Definition _gen_fname (getcwd basename : string) (cwd suffix : option string)
           (change_ext : bool) (ext : string) : result string :=
  if String.eqb basename "" then Raise ValueError
  else
    let cwd' := match cwd with
                | Some d => d
                | None => getcwd
                end in
    let suffix1 :=
      if change_ext then
        match PyStr.truthy_opt suffix with
        | Some s => Some (s ++ ext)
        | None => Some ext
        end
      else suffix in
    let suffix2 := match suffix1 with
                   | Some s => s
                   | None => ""
                   end in
    Ok (Filemanip.fname_presuffix getcwd basename "" suffix2 (Some cwd') false).

(** [_gen_outfilename] of [DWIDenoise] and [DWIBiasCorrect], which differ
    in the suffix only *)
Definition gen_outfilename_suffixed (suffix getcwd : string) (inp : inputs)
  : result string :=
  do out_file <-
    match out_filename inp, in_file inp with
    | None, Some f => _gen_fname getcwd f None (Some suffix) true ".mif"
    | Some o, _ => Ok o
    | None, None => Raise TypeError      (* [abspath] of an undefined value *)
    end;
  Ok (PosixPath.abspath getcwd out_file).

Module DWIDenoise.
Definition _gen_outfilename := gen_outfilename_suffixed "_denoised".
(** the [out_file] entry of [_list_outputs] *)
Definition _list_outputs (getcwd : string) (inp : inputs) : result string :=
  _gen_outfilename getcwd inp.
(** the [out_noisemap] entry of [_list_outputs]: set only when the input
    [out_noisemap] is defined and not empty ([None] otherwise), and then
    generated from the input file, not from the given value *)
Definition _list_outputs_out_noisemap (getcwd : string) (inp : inputs)
           (out_noisemap : option string) : result (option string) :=
  match PyStr.truthy_opt out_noisemap with
  | Some _ =>
      do f <- the_in_file inp;
      do n <- _gen_fname getcwd f None (Some "_noisemap") true ".mif";
      Ok (Some n)
  | None => Ok None
  end.

End DWIDenoise.

Module DWIBiasCorrect.
Definition _gen_outfilename := gen_outfilename_suffixed "_biascorr".
Definition _list_outputs (getcwd : string) (inp : inputs) : result string :=
  _gen_outfilename getcwd inp.
(** the [out_bias] entry of [_list_outputs]: set only when the input
    [out_bias] is defined and not empty, and then generated from the input
    file, not from the given value *)
Definition _list_outputs_out_bias (getcwd : string) (inp : inputs)
           (out_bias : option string) : result (option string) :=
  match PyStr.truthy_opt out_bias with
  | Some _ =>
      do f <- the_in_file inp;
      do n <- _gen_fname getcwd f None (Some "_biasfield") true ".mif";
      Ok (Some n)
  | None => Ok None
  end.

End DWIBiasCorrect.

Module MRConvert.
Definition _gen_outfilename (inp : inputs) : result string :=
  do f <- the_in_file inp;
  let name := name_of f in
  match out_filename inp with
  | Some o => Ok o
  | None => Ok (name ++ "_mrconvert." ++ extension_str (extension inp))
  end.
Definition _list_outputs (getcwd : string) (inp : inputs) : result string :=
  do o <- _gen_outfilename inp;
  Ok (PosixPath.abspath getcwd o).
End MRConvert.

Module DWI2Tensor.
Definition _gen_outfilename (inp : inputs) : result string :=
  do f <- first_in_file inp;
  Ok (name_of f ++ "_tensor.mif").
Definition _list_outputs (getcwd : string) (inp : inputs) : result string :=
  match out_filename inp with
  | None => do o <- _gen_outfilename inp; Ok (PosixPath.abspath getcwd o)
  | Some o => Ok (PosixPath.abspath getcwd o)
  end.
End DWI2Tensor.

Module Tensor2Vector.
Definition _gen_outfilename (inp : inputs) : result string :=
  do f <- the_in_file inp;
  Ok (name_of f ++ "_vector.mif").
Definition _list_outputs (getcwd : string) (inp : inputs) : result string :=
  do o <- _gen_outfilename inp;
  Ok (PosixPath.abspath getcwd o).
End Tensor2Vector.

Module Tensor2FractionalAnisotropy.
Definition _gen_outfilename (inp : inputs) : result string :=
  do f <- the_in_file inp;
  Ok (name_of f ++ "_FA.mif").
Definition _list_outputs (getcwd : string) (inp : inputs) : result string :=
  match out_filename inp with
  | None => do o <- _gen_outfilename inp; Ok (PosixPath.abspath getcwd o)
  | Some o => Ok (PosixPath.abspath getcwd o)
  end.
End Tensor2FractionalAnisotropy.

Module Tensor2ApparentDiffusion.
Definition _gen_outfilename (inp : inputs) : result string :=
  do f <- the_in_file inp;
  Ok (name_of f ++ "_ADC.mif").
Definition _list_outputs (getcwd : string) (inp : inputs) : result string :=
  do o <- _gen_outfilename inp;
  Ok (PosixPath.abspath getcwd o).
End Tensor2ApparentDiffusion.

Module MRMultiply.
Definition _gen_outfilename (inp : inputs) : result string :=
  do f <- first_in_file inp;
  Ok (name_of f ++ "_MRMult.mif").
Definition _list_outputs (getcwd : string) (inp : inputs) : result string :=
  do o <- _gen_outfilename inp;
  Ok (PosixPath.abspath getcwd o).
End MRMultiply.

Module GenerateWhiteMatterMask.
Definition _gen_outfilename (inp : inputs) : result string :=
  do f <- the_in_file inp;
  Ok (name_of f ++ "_WMProb.mif").
Definition _list_outputs (getcwd : string) (inp : inputs) : result string :=
  do o <- _gen_outfilename inp;
  Ok (PosixPath.abspath getcwd o).
End GenerateWhiteMatterMask.

Module Erode.
Definition _gen_outfilename (inp : inputs) : result string :=
  do f <- the_in_file inp;
  Ok (name_of f ++ "_erode.mif").
Definition _list_outputs (getcwd : string) (inp : inputs) : result string :=
  do o <- _gen_outfilename inp;
  Ok (PosixPath.abspath getcwd o).
End Erode.

Module Threshold.
Definition _gen_outfilename (inp : inputs) : result string :=
  do f <- the_in_file inp;
  Ok (name_of f ++ "_thresh.mif").
Definition _list_outputs (getcwd : string) (inp : inputs) : result string :=
  do o <- _gen_outfilename inp;
  Ok (PosixPath.abspath getcwd o).
End Threshold.

Module MedianFilter3D.
Definition _gen_outfilename (inp : inputs) : result string :=
  do f <- the_in_file inp;
  Ok (name_of f ++ "_median3D.mif").
Definition _list_outputs (getcwd : string) (inp : inputs) : result string :=
  do o <- _gen_outfilename inp;
  Ok (PosixPath.abspath getcwd o).
End MedianFilter3D.

Module MRTransform.
Definition _gen_outfilename (inp : inputs) : result string :=
  do f <- first_in_file inp;
  Ok (name_of f ++ "_MRTransform.mif").
Definition _list_outputs (getcwd : string) (inp : inputs) : result string :=
  do o <- _gen_outfilename inp;
  Ok (PosixPath.abspath getcwd o).
End MRTransform.

End Mrtrix.


(** ** [nipype/interfaces/cmtk/parcellation.py]: the listed outputs *)

Module Cmtk.

(** [Parcellate._gen_outfilenames]; [keys] stands for
    [get_parcellation(self.inputs.parcellation_scheme).keys()], the scale
    names of the selected scheme as the toolkit library gives them *)
Definition _gen_outfilenames (getcwd : string) (keys : list string)
           (basename : string) : list string :=
  map (fun scale => PosixPath.abspath getcwd
                      (basename ++ "_" ++ scale ++ ".nii.gz")) keys.

(** [Parcellate._list_outputs]: the entries [white_matter_mask_file] and
    [roi_files_in_structural_space] *)
Definition _list_outputs (getcwd : string) (keys : list string)
  : string * list string :=
  (PosixPath.abspath getcwd "fsmask_1mm.nii.gz",
   _gen_outfilenames getcwd keys "ROIv_HR_th").

End Cmtk.

(** ** Vocabulary of the statements *)

(** the one-character string that separates the lines of [stdout] *)
Definition nl : string := String Re.newline "".

Definition is_some {A : Type} (o : option A) : bool :=
match o with
| Some _ => true
| None => false
end.

(** A line that carries none of the markers of either scraper: none of the
    six prefixes, no match of the arrow pattern, neither gradient phrase. *)
Definition unmarked (line : string) : bool :=
negb (PyStr.startswith "Saving " line)
&& negb (PyStr.startswith "GZip..." line)
&& negb (PyStr.startswith "Number of diffusion directions " line)
&& negb (PyStr.startswith "Reorienting as " line)
&& negb (PyStr.startswith "Cropping NIfTI/Analyze image " line)
&& negb (PyStr.startswith "Convert " line)
&& negb (is_some (Re.search Dcm2nii.re_arrow line))
&& negb (PyStr.contains "DTI gradients" line)
&& negb (PyStr.contains "DTI gradient directions" line).

(** the lists inside what [Dcm2niix._parse_stdout] returns; a 3-tuple has no
    sidecar list *)
Definition out_files (o : Dcm2niix.outputs) : list string :=
match o with
| Dcm2niix.Tuple3 f _ _ => f
| Dcm2niix.Tuple4 f _ _ _ => f
end.

Definition out_bvecs (o : Dcm2niix.outputs) : list string :=
match o with
| Dcm2niix.Tuple3 _ b _ => b
| Dcm2niix.Tuple4 _ b _ _ => b
end.

Definition out_bvals (o : Dcm2niix.outputs) : list string :=
match o with
| Dcm2niix.Tuple3 _ _ b => b
| Dcm2niix.Tuple4 _ _ b _ => b
end.


(** a gradient-marker line of the dcm2niix scraper *)
Definition gradient_marker (line : string) : bool :=
PyStr.contains "DTI gradients" line
|| PyStr.contains "DTI gradient directions" line.

(** the directory that the dcm2niix scraper resolves names against *)
Definition resolve_dir (cwd : string) (inp : Dcm2niix.inputs) : string :=
match Dcm2niix.output_dir inp with
| Some d => d
| None => cwd
end.

(** a name resolved against the output directory, as the scraper does it *)
Definition resolved (cwd : string) (inp : Dcm2niix.inputs) (fname : string)
  : string :=
PosixPath.abspath cwd (PosixPath.join (resolve_dir cwd inp) fname).

(** the extension that the compression mode selects *)
Definition nii_ext (c : Dcm2niix.compress_mode) : string :=
match c with
| Dcm2niix.Cn => ".nii"
| _ => ".nii.gz"
end.

(** What was appended to an output list stays in it. *)
Definition nii_grows (st st' : Dcm2nii.state) : Prop :=
  (exists a, Dcm2nii.files st' = Dcm2nii.files st ++ a)%list
  /\ (exists a, Dcm2nii.reoriented_files st'
                = Dcm2nii.reoriented_files st ++ a)%list
  /\ (exists a, Dcm2nii.reoriented_and_cropped_files st'
                = Dcm2nii.reoriented_and_cropped_files st ++ a)%list
  /\ (exists a, Dcm2nii.bvecs st' = Dcm2nii.bvecs st ++ a)%list
  /\ (exists a, Dcm2nii.bvals st' = Dcm2nii.bvals st ++ a)%list.

Definition out_bids (o : Dcm2niix.outputs) : list string :=
match o with
| Dcm2niix.Tuple3 _ _ _ => []
| Dcm2niix.Tuple4 _ _ _ b => b
end.

(** Every list of the dcm2niix scraper only grows. *)
Definition niix_grows (st st' : Dcm2niix.state) : Prop :=
  (exists a, Dcm2niix.files st' = Dcm2niix.files st ++ a)%list
  /\ (exists a, Dcm2niix.bvecs st' = Dcm2niix.bvecs st ++ a)%list
  /\ (exists a, Dcm2niix.bvals st' = Dcm2niix.bvals st ++ a)%list
  /\ (exists a, Dcm2niix.bids st' = Dcm2niix.bids st ++ a)%list.

(** The converted files and the sidecars come from one list of resolved
    names: each name gives a file with the extension of the compression
    mode and, when sidecars are on, a [.json] path. *)
Definition niix_paired (inp : Dcm2niix.inputs) (st : Dcm2niix.state) : Prop :=
  exists outs : list string,
    Dcm2niix.files st
    = map (fun o => o ++ nii_ext (Dcm2niix.compress inp)) outs
    /\ Dcm2niix.bids st
       = (if Dcm2niix.bids_format inp
          then map (fun o => o ++ ".json") outs else []).

(** the outputs of a state, without its flags *)
Definition niix_lists (st : Dcm2niix.state)
  : list string * list string * list string * list string :=
  (Dcm2niix.files st, Dcm2niix.bvecs st, Dcm2niix.bvals st, Dcm2niix.bids st).

(** What a ["Convert "] line with path fragment [fname] does to the state of
    the dcm2niix scraper. *)
Definition niix_converted (cwd : string) (inp : Dcm2niix.inputs)
           (st : Dcm2niix.state) (fname : string) : Dcm2niix.state :=
  let o := resolved cwd inp fname in
  let st1 := if Dcm2niix.find_b st
             then Dcm2niix.add_gradients st (o ++ ".bvec") (o ++ ".bval")
             else st in
  let st2 := Dcm2niix.add_file st1 (o ++ nii_ext (Dcm2niix.compress inp)) in
  if Dcm2niix.bids_format inp then Dcm2niix.add_bids st2 (o ++ ".json") else st2.

(** the lines and inputs that the statements name *)
Definition saving_line : string := "Saving /tmp/out/img.nii".
Definition directions_line : string := "Number of diffusion directions 32".
Definition reorienting_line : string := "Reorienting as /tmp/out/img_reo".
Definition convert_img_line : string := "Convert SUBJ/img".
Definition convert_dwi_line : string := "Convert SUBJ/dwi".

(** a stdout whose ["Saving "] line comes right after a reorientation line *)
Definition stdout_saving_after_reorienting : string :=
  "Reorienting as x" ++ nl ++ saving_line ++ nl ++ directions_line.

(** a stdout whose reorientation line comes right after a cropping line *)
Definition stdout_reorienting_after_cropping : string :=
  "Cropping NIfTI/Analyze image /a/b" ++ nl ++ reorienting_line ++ nl
    ++ "Saving /x.nii".

(** a stdout whose gradient phrase sits inside a ["Convert "] line *)
Definition stdout_marker_in_convert : string :=
  "Convert a/b DTI gradients" ++ nl ++ convert_dwi_line.

(** ** Vocabulary of the further properties *)

(** a path component: not empty, without a slash, neither [.] nor [..] *)
Definition simple (c : string) : bool :=
  PyStr.truthy c && negb (PyStr.contains "/" c)
  && negb (String.eqb c ".") && negb (String.eqb c "..").

(** the absolute normalized path with the given components, as
    [os.getcwd()] returns it *)
Definition canonical (cs : list string) : string :=
  "/" ++ String.concat "/" cs.

(** the gradient files that [Dcm2nii._parse_stdout] derives from a
    converted file *)
Definition nii_bvec (f : string) : string :=
  let '(base, filename, _) := Filemanip.split_filename f in
  PosixPath.join base (filename ++ ".bvec").

Definition nii_bval (f : string) : string :=
  let '(base, filename, _) := Filemanip.split_filename f in
  PosixPath.join base (filename ++ ".bval").

(** the path recorded for a cropped image *)
Definition nii_cropped (p : string) : string :=
  PosixPath.join (PosixPath.dirname p) ("c" ++ PosixPath.basename p).

(** lines accounted for by the recorded events: one per converted file, two
    per reoriented or cropped file (the line and its continuation) *)
Definition nii_events (st : Dcm2nii.state) : nat :=
  length (Dcm2nii.files st)
  + 2 * (length (Dcm2nii.reoriented_files st)
         + length (Dcm2nii.reoriented_and_cropped_files st)).

(** the gradient lists run in lockstep over converted files *)
Definition nii_gradients_paired (st : Dcm2nii.state) : Prop :=
  (exists stems : list string,
      Dcm2nii.bvecs st = map nii_bvec stems
      /\ Dcm2nii.bvals st = map nii_bval stems
      /\ incl stems (Dcm2nii.files st))
  /\ (forall f, Dcm2nii.last_added_file st = Some f ->
                In f (Dcm2nii.files st)).

(** no recorded converted or cropped file is the empty string *)
Definition nii_nonempty (st : Dcm2nii.state) : Prop :=
  Forall (fun f => PyStr.truthy f = true) (Dcm2nii.files st)
  /\ Forall (fun f => PyStr.truthy f = true)
            (Dcm2nii.reoriented_and_cropped_files st).

(** a line on which the second search of the arrow branch finds nothing *)
Definition arrow_without_blank (line : string) : bool :=
  PyStr.contains "-->" line && negb (PyStr.contains "--> " line).

(** a hit moved [n] characters to the right *)
Definition shiftn (n : nat) (m : Re.hit) : Re.hit :=
  (n + fst m, map (Nat.add n) (snd m)).

(** the number of lines that start with ["Convert "] *)
Definition count_convert (lines : list string) : nat :=
  length (filter (PyStr.startswith "Convert ") lines).

(** the gradient lists of the dcm2niix scraper run in lockstep over
    resolved names that each have their converted file *)
Definition niix_gradients_paired (inp : Dcm2niix.inputs)
           (st : Dcm2niix.state) : Prop :=
  exists stems : list string,
    Dcm2niix.bvecs st = map (fun o => o ++ ".bvec") stems
    /\ Dcm2niix.bvals st = map (fun o => o ++ ".bval") stems
    /\ forall o, In o stems ->
                 In (o ++ nii_ext (Dcm2niix.compress inp)) (Dcm2niix.files st).

(** every recorded path of the dcm2niix scraper is absolute *)
Definition niix_absolute (st : Dcm2niix.state) : Prop :=
  Forall (fun p => PosixPath.isabs p = true)
         (Dcm2niix.files st ++ Dcm2niix.bvecs st ++ Dcm2niix.bvals st
            ++ Dcm2niix.bids st)%list.

(** two control characters that [str] patterns count as whitespace: the
    file separator (28) and the unit separator (31) *)
Definition file_separator : string := String "028"%char "".
Definition unit_separator : string := String "031"%char "".

(** every character of [s] matches the atom *)
Fixpoint all_match (a : Re.atom) (s : string) : bool :=
  match s with
  | EmptyString => true
  | String c s' => Re.atom_matches a c && all_match a s'
  end.

(** ** Properties of the string and pattern primitives *)

Lemma contains_tail (sub : string) (c : ascii) (s : string) :
  PyStr.contains sub (String c s) = false -> PyStr.contains sub s = false.
Proof.
cbn [PyStr.contains]. intros H.
apply orb_false_iff in H. now destruct H.
Qed.

Lemma contains_head (sub s : string) :
  PyStr.contains sub s = false -> PyStr.startswith sub s = false.
Proof.
destruct s; cbn [PyStr.contains]; intros H;
  apply orb_false_iff in H; now destruct H.
Qed.

(** A greedy repetition fails only if the rest of the pattern fails at the
    position where the repetition starts. *)
Lemma star_greedy_none (a : Re.atom) (k : string -> option Re.hit) (s : string) :
  Re.star_greedy a k s = None -> k s = None.
Proof.
destruct s as [|c s]; simpl; [auto|].
destruct (Re.atom_matches a c); [|auto].
destruct (Re.star_greedy a k s); [discriminate|auto].
Qed.

(** If the rest of the pattern fails at every suffix, so does the
    repetition. *)
Lemma star_greedy_all_none (a : Re.atom) (k : string -> option Re.hit) (s : string) :
  (forall n, k (PyStr.drop n s) = None) -> Re.star_greedy a k s = None.
Proof.
induction s as [|c s IH]; intros H.
- exact (H 0).
- simpl. rewrite IH.
  + destruct (Re.atom_matches a c); exact (H 0).
  + intros n. exact (H (S n)).
Qed.

Lemma star_greedy_some (a : Re.atom) (k : string -> option Re.hit) (s : string) :
  (forall t, k t <> None) -> Re.star_greedy a k s <> None.
Proof.
intros Hk. induction s as [|c s IH]; simpl; [apply Hk|].
destruct (Re.atom_matches a c); [|apply Hk].
destruct (Re.star_greedy a k s); [discriminate|apply Hk].
Qed.

Lemma search_from_none (r : Re.regex) (s : string) :
  Re.search_from r s = None <-> forall n, Re.match_here r (PyStr.drop n s) = None.
Proof.
induction s as [|c s IH].
- simpl. split.
  + intros H n. destruct (Re.match_here r "") eqn:E; [discriminate|].
    destruct n; exact E.
  + intros H. specialize (H 0). simpl in H. now rewrite H.
- cbn [Re.search_from]. split.
  + intros H n. destruct (Re.match_here r (String c s)) eqn:E; [discriminate|].
    destruct n as [|n]; [exact E|]. simpl.
    destruct (Re.search_from r s); [discriminate|].
    now apply IH.
  + intros H. pose proof (H 0) as H0. simpl in H0. rewrite H0.
    assert (Hs : Re.search_from r s = None) by (apply IH; intros n; exact (H (S n))).
    now rewrite Hs.
Qed.

Lemma search_none (r : Re.regex) (s : string) :
  Re.search r s = None <-> Re.search_from r s = None.
Proof.
unfold Re.search. destruct (Re.search_from r s); simpl; split; congruence.
Qed.

Lemma contains_false_drop (sub s : string) :
  PyStr.contains sub s = false <->
  forall n, PyStr.startswith sub (PyStr.drop n s) = false.
Proof.
induction s as [|c s IH].
- split.
  + intros H n. apply contains_head in H. destruct n; exact H.
  + intros H. specialize (H 0). simpl in H. cbn [PyStr.contains].
    now rewrite H.
- split.
  + intros H n. destruct n as [|n].
    * now apply contains_head.
    * simpl. apply IH. now apply contains_tail in H.
  + intros H. cbn [PyStr.contains]. apply orb_false_iff. split.
    * exact (H 0).
    * apply IH. intros n. exact (H (S n)).
Qed.

Lemma drop_drop (m n : nat) (s : string) :
  PyStr.drop m (PyStr.drop n s) = PyStr.drop (n + m) s.
Proof.
revert s. induction n as [|n IH]; intros s; [reflexivity|].
destruct s as [|c s]; simpl; [destruct m; reflexivity|apply IH].
Qed.

Lemma option_map_none {A B : Type} (f : A -> B) (o : option A) :
  option_map f o = None <-> o = None.
Proof.
destruct o; simpl; split; congruence.
Qed.

(** A pattern that begins with literal text fails exactly when the text is
    not a prefix or the rest of the pattern fails behind it. *)
Lemma match_here_lit (p : string) (r : Re.regex) (s : string) :
  Re.match_here (Re.lit p ++ r)%list s = None <->
  (PyStr.startswith p s = false
   \/ Re.match_here r (PyStr.drop (String.length p) s) = None).
Proof.
revert s. induction p as [|a p IH]; intros s.
- simpl. split; [auto|]. intros [H|H]; [discriminate|exact H].
- change (Re.lit (String a p) ++ r)%list
    with (Re.One (Re.Chr a) :: (Re.lit p ++ r)%list).
  destruct s as [|c s]; simpl; [tauto|].
  rewrite (Ascii.eqb_sym c a).
  destruct (Ascii.eqb a c); simpl.
  + rewrite option_map_none. apply IH.
  + tauto.
Qed.

(** The capture group of any characters never fails. *)
Lemma match_here_group_any (s : string) :
  Re.match_here [Re.GroupOpen; Re.Star Re.Dot; Re.GroupClose] s <> None.
Proof.
simpl. intros H. apply option_map_none in H. revert H.
apply star_greedy_some. intros t. discriminate.
Qed.

(** The recognition pattern matches exactly the lines that contain [-->]. *)
Lemma search_arrow_none (s : string) :
  Re.search Dcm2nii.re_arrow s = None <-> PyStr.contains "-->" s = false.
Proof.
rewrite search_none, search_from_none, contains_false_drop.
split; intros H n; specialize (H n).
- unfold Dcm2nii.re_arrow in H. apply match_here_lit in H.
  destruct H as [H|H]; [exact H|]. now apply match_here_group_any in H.
- unfold Dcm2nii.re_arrow. apply match_here_lit. now left.
Qed.

(** The extraction pattern matches exactly the lines that contain [-->]
    followed by a blank. *)
Lemma search_arrow_path_none (s : string) :
  Re.search Dcm2nii.re_arrow_path s = None <-> PyStr.contains "--> " s = false.
Proof.
rewrite search_none, search_from_none, contains_false_drop.
unfold Dcm2nii.re_arrow_path.
change ([Re.Star Re.Dot] ++ Re.lit "--> "
          ++ [Re.GroupOpen; Re.Star Re.Dot; Re.GroupClose])%list
  with (Re.Star Re.Dot
          :: (Re.lit "--> " ++ [Re.GroupOpen; Re.Star Re.Dot; Re.GroupClose])%list).
split; intros H n.
- specialize (H n). cbn [Re.match_here] in H.
  apply star_greedy_none in H. apply match_here_lit in H.
  destruct H as [H|H]; [exact H|]. now apply match_here_group_any in H.
- cbn [Re.match_here]. apply star_greedy_all_none. intros m.
  rewrite drop_drop. apply match_here_lit. left. apply H.
Qed.

(** A line without any slash has no slash-separated path fragment. *)
Lemma search_path_no_slash (s : string) :
  PyStr.contains "/" s = false -> Re.search Dcm2niix.re_path s = None.
Proof.
intros H. rewrite search_none, search_from_none. intros n.
rewrite contains_false_drop in H.
unfold Dcm2niix.re_path. cbn [Re.match_here].
destruct (PyStr.drop n s) as [|c t] eqn:E; [reflexivity|].
destruct (Re.atom_matches Re.NonSpace c); [|reflexivity].
apply option_map_none. apply star_greedy_all_none. intros m.
assert (Ht : t = PyStr.drop (S n) s).
{ replace (S n) with (n + 1) by lia. rewrite <- drop_drop, E. reflexivity. }
rewrite Ht, drop_drop.
specialize (H (S n + m)).
destruct (PyStr.drop (S n + m) s) as [|d u]; [reflexivity|].
cbn [PyStr.startswith] in H. cbn [Re.match_here Re.atom_matches].
rewrite (Ascii.eqb_sym d "/"%char).
destruct (Ascii.eqb "/" d); [discriminate H|reflexivity].
Qed.

(** ** The scraper of [Dcm2nii], line by line *)

Section Dcm2niiLoop.

Variable cwd : string.
Variable output_dir : option string.

Local Abbreviation body := (Dcm2nii.loop_body cwd output_dir).
Local Abbreviation run := (Dcm2nii.loop cwd output_dir).

Lemma nii_loop_app (st : Dcm2nii.state) (l1 l2 : list string) :
  run st (l1 ++ l2)%list = bind (run st l1) (fun st' => run st' l2).
Proof.
revert st. induction l1 as [|l l1 IH]; intros st; simpl; [reflexivity|].
destruct (body st l); simpl; [apply IH|reflexivity].
Qed.

Lemma nii_clear_skip_id (st : Dcm2nii.state) :
  Dcm2nii.skip st = false -> Dcm2nii.clear_skip st = st.
Proof.
destruct st; simpl; intros ->; reflexivity.
Qed.

(** A line met while the skip flag is set is dropped: nothing is classified,
    nothing is appended, nothing is raised, and the flag is cleared. *)
Lemma nii_skipped_line (st : Dcm2nii.state) (line : string) :
  Dcm2nii.skip st = true -> body st line = Ok (Dcm2nii.clear_skip st).
Proof.
intros H. unfold Dcm2nii.loop_body. now rewrite H.
Qed.

(** A line without markers leaves the state as it is. *)
Lemma nii_unmarked_line (st : Dcm2nii.state) (line : string) :
  unmarked line = true -> Dcm2nii.skip st = false -> body st line = Ok st.
Proof.
unfold unmarked. intros H Hs.
repeat (apply andb_true_iff in H; destruct H as [H ?]).
repeat match goal with
       | [ E : negb _ = true |- _ ] => apply negb_true_iff in E
       end.
unfold Dcm2nii.loop_body, Dcm2nii.classify. rewrite Hs. simpl negb. cbv iota.
repeat match goal with
       | [ E : PyStr.startswith _ line = false |- _ ] => rewrite E
       end.
destruct (Re.search Dcm2nii.re_arrow line); [discriminate|].
simpl. now rewrite nii_clear_skip_id.
Qed.

Lemma nii_unmarked_lines (st : Dcm2nii.state) (lines : list string) :
  forallb unmarked lines = true -> Dcm2nii.skip st = false ->
  run st lines = Ok st.
Proof.
induction lines as [|l lines IH]; simpl; intros H Hs; [reflexivity|].
apply andb_true_iff in H. destruct H as [Hl Hr].
rewrite (nii_unmarked_line st l Hl Hs). simpl. now apply IH.
Qed.

Lemma nii_grows_refl (st : Dcm2nii.state) : nii_grows st st.
Proof.
repeat split; exists []; now rewrite app_nil_r.
Qed.

Lemma nii_grows_trans (a b c : Dcm2nii.state) :
  nii_grows a b -> nii_grows b c -> nii_grows a c.
Proof.
intros (x1 & x2 & x3 & x4 & x5) (y1 & y2 & y3 & y4 & y5).
repeat split;
  [ destruct x1 as [u E], y1 as [v F]
  | destruct x2 as [u E], y2 as [v F]
  | destruct x3 as [u E], y3 as [v F]
  | destruct x4 as [u E], y4 as [v F]
  | destruct x5 as [u E], y5 as [v F] ];
  exists (u ++ v)%list; rewrite F, E; symmetry; apply app_assoc.
Qed.

Ltac grows_by a1 a2 a3 a4 a5 :=
  unfold nii_grows;
  repeat split;
  [ exists a1 | exists a2 | exists a3 | exists a4 | exists a5 ];
  rewrite ?app_nil_r; reflexivity.

Lemma nii_classify_grows (st st1 : Dcm2nii.state) (line : string)
      (file : option string) :
  Dcm2nii.classify cwd output_dir st line = Ok (st1, file) ->
  nii_grows st st1 /\ Dcm2nii.skip st1 = Dcm2nii.skip st.
Proof.
unfold Dcm2nii.classify.
destruct (PyStr.startswith "Saving " line).
{ intros [= <- _]. split; [apply nii_grows_refl|reflexivity]. }
destruct (PyStr.startswith "GZip..." line).
{ intros [= <- _]. split; [apply nii_grows_refl|reflexivity]. }
destruct (PyStr.startswith "Number of diffusion directions " line).
{ destruct (PyStr.truthy_opt (Dcm2nii.last_added_file st)) as [f|].
  - destruct (Filemanip.split_filename f) as [[base filename] ext].
    intros [= <- _]. split; [|reflexivity].
    grows_by (@nil string) (@nil string) (@nil string)
             [PosixPath.join base (filename ++ ".bvec")]
             [PosixPath.join base (filename ++ ".bval")].
  - intros [= <- _]. split; [apply nii_grows_refl|reflexivity]. }
destruct (Re.search Dcm2nii.re_arrow line).
- destruct (Re.search Dcm2nii.re_arrow_path line); [|discriminate].
  intros [= <- _]. split; [apply nii_grows_refl|reflexivity].
- intros [= <- _]. split; [apply nii_grows_refl|reflexivity].
Qed.

Lemma nii_body_grows (st st' : Dcm2nii.state) (line : string) :
  body st line = Ok st' -> nii_grows st st'.
Proof.
unfold Dcm2nii.loop_body.
destruct (Dcm2nii.skip st); cbn [negb].
{ intros [= <-]. grows_by (@nil string) (@nil string) (@nil string)
                          (@nil string) (@nil string). }
destruct (Dcm2nii.classify cwd output_dir st line) as [[st1 file]|e] eqn:E;
  cbn [bind]; [|discriminate].
apply nii_classify_grows in E. destruct E as [G _].
intros H. apply (nii_grows_trans _ _ _ G). clear G. revert H.
destruct (PyStr.truthy_opt file) as [f|].
{ intros [= <-]. grows_by [f] (@nil string) (@nil string)
                          (@nil string) (@nil string). }
destruct (PyStr.startswith "Reorienting as " line).
{ intros [= <-].
  grows_by (@nil string) [PyStr.drop (String.length "Reorienting as ") line]
           (@nil string) (@nil string) (@nil string). }
destruct (PyStr.startswith "Cropping NIfTI/Analyze image " line).
{ destruct (PosixPath.split _) as [base filename].
  intros [= <-].
  grows_by (@nil string) (@nil string) [PosixPath.join base ("c" ++ filename)]
           (@nil string) (@nil string). }
intros [= <-]. grows_by (@nil string) (@nil string) (@nil string)
                        (@nil string) (@nil string).
Qed.

Lemma nii_loop_grows (lines : list string) (st st' : Dcm2nii.state) :
  run st lines = Ok st' -> nii_grows st st'.
Proof.
revert st. induction lines as [|l lines IH]; intros st; simpl.
- intros [= <-]. apply nii_grows_refl.
- destruct (body st l) as [st1|e] eqn:E; cbn [bind]; [|discriminate].
  intros H. apply nii_body_grows in E. apply IH in H.
  exact (nii_grows_trans _ _ _ E H).
Qed.

End Dcm2niiLoop.

(** ** The scraper of [Dcm2niix], line by line *)

Lemma normpath_truthy (p : string) : PyStr.truthy (PosixPath.normpath p) = true.
Proof.
unfold PosixPath.normpath.
destruct (negb (PyStr.truthy p)); [reflexivity|].
cbv zeta.
match goal with
| [ |- PyStr.truthy (if PyStr.truthy ?x then _ else _) = true ] =>
    destruct (PyStr.truthy x) eqn:E; [exact E|reflexivity]
end.
Qed.

Lemma abspath_truthy (cwd p : string) :
  PyStr.truthy_opt (Some (PosixPath.abspath cwd p))
  = Some (PosixPath.abspath cwd p).
Proof.
unfold PyStr.truthy_opt, PosixPath.abspath. now rewrite normpath_truthy.
Qed.

Section Dcm2niixLoop.

Variable cwd : string.
Variable inp : Dcm2niix.inputs.

Local Abbreviation body := (Dcm2niix.loop_body cwd inp).
Local Abbreviation run := (Dcm2niix.loop cwd inp).

Lemma niix_loop_app (st : Dcm2niix.state) (l1 l2 : list string) :
  run st (l1 ++ l2)%list = bind (run st l1) (fun st' => run st' l2).
Proof.
revert st. induction l1 as [|l l1 IH]; intros st; cbn [Dcm2niix.loop app].
- reflexivity.
- destruct (body st l); cbn [bind]; [apply IH|reflexivity].
Qed.

Lemma niix_clear_skip_id (st : Dcm2niix.state) :
  Dcm2niix.skip st = false -> Dcm2niix.clear_skip st = st.
Proof.
destruct st; cbn; intros ->; reflexivity.
Qed.

Lemma niix_convert_line (st : Dcm2niix.state) (line : string) (m : Re.match_obj) :
  Dcm2niix.skip st = false ->
  PyStr.startswith "Convert " line = true ->
  Re.search Dcm2niix.re_path line = Some m ->
  body st line = Ok (niix_converted cwd inp st (Re.group0 m)).
Proof.
intros Hs Hc Hm.
unfold Dcm2niix.loop_body, Dcm2niix.classify, niix_converted, resolved,
  resolve_dir, Dcm2niix._gen_filename_output_dir.
rewrite Hs, Hc, Hm. cbn [negb].
destruct (Dcm2niix.find_b st); cbn [bind]; rewrite abspath_truthy;
  destruct (Dcm2niix.compress inp); reflexivity.
Qed.

Lemma niix_convert_raises (st : Dcm2niix.state) (line : string) :
  Dcm2niix.skip st = false ->
  PyStr.startswith "Convert " line = true ->
  Re.search Dcm2niix.re_path line = None ->
  body st line = Raise AttributeError.
Proof.
intros Hs Hc Hm. unfold Dcm2niix.loop_body, Dcm2niix.classify.
now rewrite Hs, Hc, Hm.
Qed.

(** A line that does not start with ["Convert "] appends nothing; it sets
    the pending-gradient flag if it is a gradient marker. *)
Lemma niix_other_line (st : Dcm2niix.state) (line : string) :
  Dcm2niix.skip st = false ->
  PyStr.startswith "Convert " line = false ->
  body st line
  = Ok (if gradient_marker line then Dcm2niix.set_find_b st true else st).
Proof.
intros Hs Hc. unfold Dcm2niix.loop_body, Dcm2niix.classify, gradient_marker.
rewrite Hs, Hc. cbn [negb].
destruct (PyStr.contains "DTI gradients" line
          || PyStr.contains "DTI gradient directions" line);
  cbn [bind PyStr.truthy_opt]; f_equal; apply niix_clear_skip_id;
  [destruct st; exact Hs | exact Hs].
Qed.

(** The skip flag of this scraper is never set. *)
Lemma niix_body_skip (st st' : Dcm2niix.state) (line : string) :
  Dcm2niix.skip st = false -> body st line = Ok st' ->
  Dcm2niix.skip st' = false.
Proof.
intros Hs. destruct (PyStr.startswith "Convert " line) eqn:Hc.
- destruct (Re.search Dcm2niix.re_path line) as [m|] eqn:Hm.
  + rewrite (niix_convert_line st line m Hs Hc Hm). intros [= <-].
    unfold niix_converted. cbv zeta.
    destruct (Dcm2niix.find_b st), (Dcm2niix.bids_format inp); exact Hs.
  + now rewrite (niix_convert_raises st line Hs Hc Hm).
- rewrite (niix_other_line st line Hs Hc). intros [= <-].
  destruct (gradient_marker line); [destruct st|]; exact Hs.
Qed.

Lemma niix_run_skip (lines : list string) (st st' : Dcm2niix.state) :
  Dcm2niix.skip st = false -> run st lines = Ok st' ->
  Dcm2niix.skip st' = false.
Proof.
revert st. induction lines as [|l lines IH]; intros st Hs; cbn [Dcm2niix.loop].
- now intros [= <-].
- destruct (body st l) as [st1|e] eqn:E; cbn [bind]; [|discriminate].
  apply IH. exact (niix_body_skip st st1 l Hs E).
Qed.

Lemma niix_grows_refl (st : Dcm2niix.state) : niix_grows st st.
Proof.
repeat split; exists []; now rewrite app_nil_r.
Qed.

Lemma niix_grows_trans (a b c : Dcm2niix.state) :
  niix_grows a b -> niix_grows b c -> niix_grows a c.
Proof.
intros (x1 & x2 & x3 & x4) (y1 & y2 & y3 & y4).
repeat split;
  [ destruct x1 as [u E], y1 as [v F]
  | destruct x2 as [u E], y2 as [v F]
  | destruct x3 as [u E], y3 as [v F]
  | destruct x4 as [u E], y4 as [v F] ];
  exists (u ++ v)%list; rewrite F, E; symmetry; apply app_assoc.
Qed.

Lemma niix_converted_grows (st : Dcm2niix.state) (fname : string) :
  niix_grows st (niix_converted cwd inp st fname).
Proof.
unfold niix_converted, niix_grows. cbv zeta.
destruct (Dcm2niix.find_b st), (Dcm2niix.bids_format inp);
  cbn [Dcm2niix.files Dcm2niix.bvecs Dcm2niix.bvals Dcm2niix.bids
       Dcm2niix.add_bids Dcm2niix.add_file Dcm2niix.add_gradients];
  repeat split; eexists; try reflexivity; symmetry; apply app_nil_r.
Qed.

Lemma niix_body_grows (st st' : Dcm2niix.state) (line : string) :
  Dcm2niix.skip st = false -> body st line = Ok st' -> niix_grows st st'.
Proof.
intros Hs. destruct (PyStr.startswith "Convert " line) eqn:Hc.
- destruct (Re.search Dcm2niix.re_path line) as [m|] eqn:Hm.
  + rewrite (niix_convert_line st line m Hs Hc Hm). intros [= <-].
    apply niix_converted_grows.
  + now rewrite (niix_convert_raises st line Hs Hc Hm).
- rewrite (niix_other_line st line Hs Hc). intros [= <-].
  destruct (gradient_marker line); [|apply niix_grows_refl].
  repeat split; exists []; now rewrite app_nil_r.
Qed.

Lemma niix_run_grows (lines : list string) (st st' : Dcm2niix.state) :
  Dcm2niix.skip st = false -> run st lines = Ok st' -> niix_grows st st'.
Proof.
revert st. induction lines as [|l lines IH]; intros st Hs; cbn [Dcm2niix.loop].
- intros [= <-]. apply niix_grows_refl.
- destruct (body st l) as [st1|e] eqn:E; cbn [bind]; [|discriminate].
  intros H. apply (niix_grows_trans _ st1).
  + exact (niix_body_grows st st1 l Hs E).
  + apply IH; [exact (niix_body_skip st st1 l Hs E)|exact H].
Qed.

Lemma niix_converted_paired (st : Dcm2niix.state) (fname : string) :
  niix_paired inp st -> niix_paired inp (niix_converted cwd inp st fname).
Proof.
intros (outs & Hf & Hb). exists (outs ++ [resolved cwd inp fname])%list.
unfold niix_converted. cbv zeta. rewrite !map_app. cbn [map].
destruct (Dcm2niix.find_b st), (Dcm2niix.bids_format inp);
  cbn [Dcm2niix.files Dcm2niix.bvecs Dcm2niix.bvals Dcm2niix.bids
       Dcm2niix.add_bids Dcm2niix.add_file Dcm2niix.add_gradients];
  rewrite Hf, Hb; split; reflexivity.
Qed.

Lemma niix_body_paired (st st' : Dcm2niix.state) (line : string) :
  Dcm2niix.skip st = false -> body st line = Ok st' ->
  niix_paired inp st -> niix_paired inp st'.
Proof.
intros Hs. destruct (PyStr.startswith "Convert " line) eqn:Hc.
- destruct (Re.search Dcm2niix.re_path line) as [m|] eqn:Hm.
  + rewrite (niix_convert_line st line m Hs Hc Hm). intros [= <-].
    apply niix_converted_paired.
  + now rewrite (niix_convert_raises st line Hs Hc Hm).
- rewrite (niix_other_line st line Hs Hc). intros [= <-].
  destruct (gradient_marker line); [|auto].
  intros (outs & Hf & Hb). exists outs. split; assumption.
Qed.

Lemma niix_run_paired (lines : list string) (st st' : Dcm2niix.state) :
  Dcm2niix.skip st = false -> run st lines = Ok st' ->
  niix_paired inp st -> niix_paired inp st'.
Proof.
revert st. induction lines as [|l lines IH]; intros st Hs; cbn [Dcm2niix.loop].
- now intros [= <-].
- destruct (body st l) as [st1|e] eqn:E; cbn [bind]; [|discriminate].
  intros H P. apply (IH st1).
  + exact (niix_body_skip st st1 l Hs E).
  + exact H.
  + exact (niix_body_paired st st1 l Hs E P).
Qed.

(** Lines none of which starts with ["Convert "] never raise and append
    nothing. *)
Lemma niix_run_no_convert (lines : list string) (st : Dcm2niix.state) :
  Dcm2niix.skip st = false ->
  forallb (fun l => negb (PyStr.startswith "Convert " l)) lines = true ->
  exists st', run st lines = Ok st' /\ niix_lists st' = niix_lists st.
Proof.
revert st. induction lines as [|l lines IH]; intros st Hs H;
  cbn [Dcm2niix.loop].
- now exists st.
- cbn [forallb] in H. apply andb_true_iff in H. destruct H as [Hl Hr].
  apply negb_true_iff in Hl. rewrite (niix_other_line st l Hs Hl). cbn [bind].
  destruct (gradient_marker l).
  + destruct (IH (Dcm2niix.set_find_b st true)) as (st' & R & L);
      [destruct st; exact Hs|exact Hr|].
    exists st'. split; [exact R|]. rewrite L. reflexivity.
  + now apply IH.
Qed.

(** The first line that raises makes the whole scan raise; this scraper
    raises nothing but [AttributeError]. *)
Lemma niix_run_raises (lines : list string) (st : Dcm2niix.state) (e : exn) :
  run st lines = Raise e -> e = AttributeError.
Proof.
revert st. induction lines as [|l lines IH]; intros st; cbn [Dcm2niix.loop];
  [discriminate|].
destruct (body st l) as [st1|e1] eqn:E; cbn [bind]; [apply IH|].
intros [= <-]. revert E. unfold Dcm2niix.loop_body, Dcm2niix.classify.
destruct (negb (Dcm2niix.skip st)); [|discriminate].
destruct (PyStr.startswith "Convert " l).
- destruct (Re.search Dcm2niix.re_path l); [|now intros [= <-]].
  destruct (Dcm2niix.find_b st); cbn [bind]; rewrite abspath_truthy;
    discriminate.
- destruct (PyStr.contains "DTI gradients" l
            || PyStr.contains "DTI gradient directions" l);
    cbn [bind PyStr.truthy_opt]; discriminate.
Qed.

End Dcm2niixLoop.

Lemma niix_unmarked_lines (cwd : string) (inp : Dcm2niix.inputs)
      (lines : list string) (st : Dcm2niix.state) :
  forallb unmarked lines = true -> Dcm2niix.skip st = false ->
  Dcm2niix.loop cwd inp st lines = Ok st.
Proof.
induction lines as [|l lines IH]; cbn [forallb Dcm2niix.loop]; intros H Hs;
  [reflexivity|].
apply andb_true_iff in H. destruct H as [Hl Hr].
assert (Hc : PyStr.startswith "Convert " l = false /\ gradient_marker l = false).
{ unfold unmarked in Hl.
  repeat (apply andb_true_iff in Hl; destruct Hl as [Hl ?]).
  repeat match goal with
         | [ E : negb _ = true |- _ ] => apply negb_true_iff in E
         end.
  split; [assumption|]. unfold gradient_marker. apply orb_false_iff. now split. }
destruct Hc as [Hc Hg].
rewrite (niix_other_line cwd inp st l Hs Hc), Hg. cbn [bind]. now apply IH.
Qed.

(** ** The claims *)

(** C1. A stdout none of whose lines carries a marker (none of the six
    prefixes, no match of the arrow pattern, neither gradient phrase) makes
    both scrapers return, without raising, with every list empty:
    [Dcm2nii._parse_stdout] gives five empty lists and
    [Dcm2niix._parse_stdout] gives the tuple of three empty lists. *)
Theorem C1_no_markers_empty_outputs :
  forall (cwd : string) (output_dir : option string)
         (inp : Dcm2niix.inputs) (stdout : string),
    forallb unmarked (PyStr.split Re.newline stdout) = true ->
    Dcm2nii._parse_stdout cwd output_dir stdout = Ok ([], [], [], [], [])
    /\ Dcm2niix._parse_stdout cwd inp stdout = Ok (Dcm2niix.Tuple3 [] [] []).
Proof.
intros cwd od inp stdout H. split.
- unfold Dcm2nii._parse_stdout.
  rewrite (nii_unmarked_lines cwd od Dcm2nii.init _ H eq_refl). reflexivity.
- unfold Dcm2niix._parse_stdout.
  rewrite (niix_unmarked_lines cwd inp _ Dcm2niix.init H eq_refl). reflexivity.
Qed.

Lemma C1_witness :
  forallb unmarked
    (PyStr.split Re.newline
       ("Chris Rorden's dcm2nii" ++ nl ++ "Validating 12 files" ++ nl)) = true
  /\ Dcm2nii._parse_stdout "/work" None
       ("Chris Rorden's dcm2nii" ++ nl ++ "Validating 12 files" ++ nl)
     = Ok ([], [], [], [], [])
  /\ Dcm2niix._parse_stdout "/work" (Dcm2niix.Inputs None Dcm2niix.Ci true)
       ("Chris Rorden's dcm2nii" ++ nl ++ "Validating 12 files" ++ nl)
     = Ok (Dcm2niix.Tuple3 [] [] []).
Proof.
split; [reflexivity|].
apply (C1_no_markers_empty_outputs "/work" None
         (Dcm2niix.Inputs None Dcm2niix.Ci true)
         ("Chris Rorden's dcm2nii" ++ nl ++ "Validating 12 files" ++ nl)).
reflexivity.
Defined.

(** The two lines of C2, met with the skip flag clear. *)
Lemma nii_saving_then_directions (cwd : string) (od : option string)
      (st : Dcm2nii.state) :
  Dcm2nii.skip st = false ->
  Dcm2nii.loop cwd od st [saving_line; directions_line]
  = Ok (Dcm2nii.State
          (Dcm2nii.files st ++ ["/tmp/out/img.nii"])
          (Dcm2nii.reoriented_files st)
          (Dcm2nii.reoriented_and_cropped_files st)
          (Dcm2nii.bvecs st ++ ["/tmp/out/img.bvec"])
          (Dcm2nii.bvals st ++ ["/tmp/out/img.bval"])
          false (Some "/tmp/out/img.nii")).
Proof.
intros Hs. destruct st as [f r c bv bl sk la]. cbn in Hs. subst sk.
reflexivity.
Qed.

(** C2, as amended.  When the line ["Saving /tmp/out/img.nii"] is
    immediately followed by ["Number of diffusion directions 32"], the lines
    before them do not raise and leave the skip flag clear (the Saving line
    is not dropped as a continuation line), the scan appends
    ["/tmp/out/img.nii"] to the converted files and ["/tmp/out/img.bvec"],
    ["/tmp/out/img.bval"] to the gradient lists; whenever [_parse_stdout]
    then returns, the returned lists contain them.  For the stdout made of
    these two lines alone the result is exactly these three entries. *)
Theorem C2_saving_then_directions :
  forall (cwd : string) (output_dir : option string),
    (forall (stdout : string) (pre post : list string) (st : Dcm2nii.state),
        PyStr.split Re.newline stdout
        = (pre ++ [saving_line; directions_line] ++ post)%list ->
        Dcm2nii.loop cwd output_dir Dcm2nii.init pre = Ok st ->
        Dcm2nii.skip st = false ->
        (exists st2,
            Dcm2nii.loop cwd output_dir Dcm2nii.init
              (pre ++ [saving_line; directions_line])%list = Ok st2
            /\ Dcm2nii.files st2 = (Dcm2nii.files st ++ ["/tmp/out/img.nii"])%list
            /\ Dcm2nii.bvecs st2 = (Dcm2nii.bvecs st ++ ["/tmp/out/img.bvec"])%list
            /\ Dcm2nii.bvals st2 = (Dcm2nii.bvals st ++ ["/tmp/out/img.bval"])%list)
        /\ (forall fs rs cs bvs bls,
               Dcm2nii._parse_stdout cwd output_dir stdout
               = Ok (fs, rs, cs, bvs, bls) ->
               In "/tmp/out/img.nii" fs
               /\ In "/tmp/out/img.bvec" bvs
               /\ In "/tmp/out/img.bval" bls))
    /\ Dcm2nii._parse_stdout cwd output_dir
         (saving_line ++ nl ++ directions_line)
       = Ok (["/tmp/out/img.nii"], [], [], ["/tmp/out/img.bvec"],
             ["/tmp/out/img.bval"]).
Proof.
intros cwd od. split; [|reflexivity].
intros stdout pre post st Hsplit Hpre Hskip.
pose proof (nii_saving_then_directions cwd od st Hskip) as Htwo.
assert (Hrun : Dcm2nii.loop cwd od Dcm2nii.init
                 (pre ++ [saving_line; directions_line])%list
               = Dcm2nii.loop cwd od st [saving_line; directions_line]).
{ rewrite nii_loop_app, Hpre. reflexivity. }
split.
- eexists. split; [rewrite Hrun; exact Htwo|]. repeat split.
- intros fs rs cs bvs bls Hret. unfold Dcm2nii._parse_stdout in Hret.
  rewrite Hsplit, app_assoc, nii_loop_app, Hrun, Htwo in Hret.
  cbn [bind] in Hret.
  match type of Hret with
  | context [Dcm2nii.loop cwd od ?s post] =>
      destruct (Dcm2nii.loop cwd od s post) as [st3|e] eqn:E;
        [apply nii_loop_grows in E|discriminate]
  end.
  cbn [bind] in Hret. injection Hret as <- _ _ <- <-.
  destruct E as ((a & Ea) & _ & _ & (b & Eb) & (c & Ec)).
  cbn [Dcm2nii.files Dcm2nii.bvecs Dcm2nii.bvals] in Ea, Eb, Ec.
  rewrite Ea, Eb, Ec. repeat split; apply in_or_app; left; apply in_or_app;
    right; left; reflexivity.
Qed.

Lemma C2_witness :
  PyStr.split Re.newline
    ("dcm2nii starts" ++ nl ++ saving_line ++ nl ++ directions_line ++ nl
       ++ "done")
  = (["dcm2nii starts"] ++ [saving_line; directions_line] ++ ["done"])%list
  /\ Dcm2nii.loop "/work" None Dcm2nii.init ["dcm2nii starts"]
     = Ok Dcm2nii.init
  /\ Dcm2nii.skip Dcm2nii.init = false
  /\ forall fs rs cs bvs bls,
       Dcm2nii._parse_stdout "/work" None
         ("dcm2nii starts" ++ nl ++ saving_line ++ nl ++ directions_line ++ nl
            ++ "done")
       = Ok (fs, rs, cs, bvs, bls) ->
       In "/tmp/out/img.nii" fs
       /\ In "/tmp/out/img.bvec" bvs
       /\ In "/tmp/out/img.bval" bls.
Proof.
split; [reflexivity|]. split; [reflexivity|]. split; [reflexivity|].
exact (proj2 (proj1 (C2_saving_then_directions "/work" None)
                ("dcm2nii starts" ++ nl ++ saving_line ++ nl
                   ++ directions_line ++ nl ++ "done")
                ["dcm2nii starts"] ["done"] Dcm2nii.init
                eq_refl eq_refl eq_refl)).
Defined.

(** C2 as stated fails: in this stdout the Saving line is immediately
    followed by the directions line, but it comes right after a
    ["Reorienting as "] line and is dropped as its continuation, so no
    converted file and no gradient file is recorded. *)
Lemma C2_counterexample :
  PyStr.split Re.newline stdout_saving_after_reorienting
  = ["Reorienting as x"; saving_line; directions_line]
  /\ Dcm2nii._parse_stdout "/work" None stdout_saving_after_reorienting
     = Ok ([], ["x"], [], [], []).
Proof.
split; reflexivity.
Qed.

(** C4, as amended.  A line met while the skip flag is set is dropped
    without being classified: it appends nothing, raises nothing, and
    clears the flag, so it starts no event and no new skip.  When the line
    ["Reorienting as /tmp/out/img_reo"] is itself met with the flag clear
    (the lines before it did not raise), that line and the line after it
    together append exactly one entry, ["/tmp/out/img_reo"], to the
    reoriented files and change nothing else, whatever the second line is.
    For a stdout made of the reorientation line and one more line, the
    result is that single reoriented entry and four empty lists. *)
Theorem C4_reorienting_skips_next_line :
  forall (cwd : string) (output_dir : option string),
    (forall (st : Dcm2nii.state) (c : string),
        Dcm2nii.skip st = true ->
        Dcm2nii.loop_body cwd output_dir st c = Ok (Dcm2nii.clear_skip st))
    /\ (forall (pre : list string) (st : Dcm2nii.state) (c : string),
           Dcm2nii.loop cwd output_dir Dcm2nii.init pre = Ok st ->
           Dcm2nii.skip st = false ->
           Dcm2nii.loop cwd output_dir Dcm2nii.init
             (pre ++ [reorienting_line; c])%list
           = Ok (Dcm2nii.State
                   (Dcm2nii.files st)
                   (Dcm2nii.reoriented_files st ++ ["/tmp/out/img_reo"])
                   (Dcm2nii.reoriented_and_cropped_files st)
                   (Dcm2nii.bvecs st) (Dcm2nii.bvals st)
                   false (Dcm2nii.last_added_file st)))
    /\ (forall (stdout c : string),
           PyStr.split Re.newline stdout = [reorienting_line; c] ->
           Dcm2nii._parse_stdout cwd output_dir stdout
           = Ok ([], ["/tmp/out/img_reo"], [], [], [])).
Proof.
intros cwd od.
assert (Hskipped : forall st c, Dcm2nii.skip st = true ->
          Dcm2nii.loop_body cwd od st c = Ok (Dcm2nii.clear_skip st))
  by (intros st c; apply nii_skipped_line).
assert (Hpair : forall st c, Dcm2nii.skip st = false ->
          Dcm2nii.loop cwd od st [reorienting_line; c]
          = Ok (Dcm2nii.State
                  (Dcm2nii.files st)
                  (Dcm2nii.reoriented_files st ++ ["/tmp/out/img_reo"])
                  (Dcm2nii.reoriented_and_cropped_files st)
                  (Dcm2nii.bvecs st) (Dcm2nii.bvals st)
                  false (Dcm2nii.last_added_file st))).
{ intros st c Hs. destruct st as [f r rc bv bl sk la]. cbn in Hs. subst sk.
  cbn [Dcm2nii.loop].
  change (Dcm2nii.loop_body cwd od (Dcm2nii.State f r rc bv bl false la)
            reorienting_line)
    with (Ok (Dcm2nii.State f (r ++ ["/tmp/out/img_reo"]) rc bv bl true la)).
  cbn [bind]. rewrite Hskipped by reflexivity. reflexivity. }
split; [exact Hskipped|]. split.
- intros pre st c Hpre Hs. rewrite nii_loop_app, Hpre. cbn [bind].
  now apply Hpair.
- intros stdout c Hsplit. unfold Dcm2nii._parse_stdout.
  rewrite Hsplit, (Hpair Dcm2nii.init c eq_refl). reflexivity.
Qed.

Lemma C4_witness :
  Dcm2nii.skip (Dcm2nii.add_reoriented Dcm2nii.init "a") = true
  /\ Dcm2nii.loop_body "/work" None
       (Dcm2nii.add_reoriented Dcm2nii.init "a") saving_line
     = Ok (Dcm2nii.clear_skip (Dcm2nii.add_reoriented Dcm2nii.init "a"))
  /\ PyStr.split Re.newline (reorienting_line ++ nl ++ saving_line)
     = [reorienting_line; saving_line]
  /\ Dcm2nii._parse_stdout "/work" None
       (reorienting_line ++ nl ++ saving_line)
     = Ok ([], ["/tmp/out/img_reo"], [], [], []).
Proof.
split; [reflexivity|]. split.
- exact (proj1 (C4_reorienting_skips_next_line "/work" None)
           (Dcm2nii.add_reoriented Dcm2nii.init "a") saving_line eq_refl).
- split; [reflexivity|].
  exact (proj2 (proj2 (C4_reorienting_skips_next_line "/work" None))
           (reorienting_line ++ nl ++ saving_line) saving_line eq_refl).
Defined.

(** C4 as stated fails: in this stdout the reorientation line is
    immediately followed by a single line, but it comes right after a
    ["Cropping NIfTI/Analyze image "] line and is itself dropped, so the
    reoriented files stay empty and the line after it is classified and
    recorded as a converted file. *)
Lemma C4_counterexample :
  PyStr.split Re.newline stdout_reorienting_after_cropping
  = ["Cropping NIfTI/Analyze image /a/b"; reorienting_line; "Saving /x.nii"]
  /\ Dcm2nii._parse_stdout "/work" None stdout_reorienting_after_cropping
     = Ok (["/x.nii"], [], ["/a/cb"], [], []).
Proof.
split; reflexivity.
Qed.

(** ** What [Dcm2niix._parse_stdout] returns *)

Lemma niix_parse_ok (cwd : string) (inp : Dcm2niix.inputs) (stdout : string)
      (out : Dcm2niix.outputs) :
  Dcm2niix._parse_stdout cwd inp stdout = Ok out ->
  exists st,
    Dcm2niix.loop cwd inp Dcm2niix.init (PyStr.split Re.newline stdout) = Ok st
    /\ out = Dcm2niix.returned st.
Proof.
unfold Dcm2niix._parse_stdout.
destruct (Dcm2niix.loop cwd inp Dcm2niix.init _) as [st|e]; cbn [bind];
  [|discriminate].
intros [= <-]. now exists st.
Qed.

Lemma returned_lists (st : Dcm2niix.state) :
  out_files (Dcm2niix.returned st) = Dcm2niix.files st
  /\ out_bvecs (Dcm2niix.returned st) = Dcm2niix.bvecs st
  /\ out_bvals (Dcm2niix.returned st) = Dcm2niix.bvals st
  /\ out_bids (Dcm2niix.returned st) = Dcm2niix.bids st.
Proof.
unfold Dcm2niix.returned.
destruct (Dcm2niix.bids st) eqn:E; cbn; rewrite ?E; auto.
Qed.

(** A scan that returns has passed every line: the state before a line, the
    state after it, and the rest. *)
Lemma niix_run_split (cwd : string) (inp : Dcm2niix.inputs)
      (l1 : list string) (line : string) (l2 : list string)
      (st st3 : Dcm2niix.state) :
  Dcm2niix.loop cwd inp st (l1 ++ line :: l2)%list = Ok st3 ->
  exists st1 st2,
    Dcm2niix.loop cwd inp st l1 = Ok st1
    /\ Dcm2niix.loop_body cwd inp st1 line = Ok st2
    /\ Dcm2niix.loop cwd inp st2 l2 = Ok st3.
Proof.
rewrite niix_loop_app.
destruct (Dcm2niix.loop cwd inp st l1) as [st1|e]; cbn [bind Dcm2niix.loop];
  [|discriminate].
destruct (Dcm2niix.loop_body cwd inp st1 line) as [st2|e] eqn:E; cbn [bind];
  [|discriminate].
intros H. now exists st1, st2.
Qed.

Lemma endswith_char_app (c : ascii) (o : string) (a : ascii) (t : string) :
  PyStr.endswith_char c (o ++ String a t) = PyStr.endswith_char c (String a t).
Proof.
induction o as [|x o IH]; [reflexivity|].
cbn [append]. destruct o as [|y o]; cbn [append] in *; exact IH.
Qed.

Lemma search_convert_img :
  option_map Re.group0 (Re.search Dcm2niix.re_path convert_img_line)
  = Some "SUBJ/img".
Proof. reflexivity. Qed.

Lemma search_convert_dwi :
  option_map Re.group0 (Re.search Dcm2niix.re_path convert_dwi_line)
  = Some "SUBJ/dwi".
Proof. reflexivity. Qed.

Lemma niix_convert_img (cwd : string) (inp : Dcm2niix.inputs)
      (st : Dcm2niix.state) :
  Dcm2niix.skip st = false ->
  Dcm2niix.loop_body cwd inp st convert_img_line
  = Ok (niix_converted cwd inp st "SUBJ/img").
Proof.
intros Hs. pose proof search_convert_img as G.
destruct (Re.search Dcm2niix.re_path convert_img_line) as [m|] eqn:E;
  [|discriminate G].
rewrite (niix_convert_line cwd inp st convert_img_line m Hs eq_refl E).
cbn [option_map] in G. now injection G as ->.
Qed.

Lemma niix_convert_dwi (cwd : string) (inp : Dcm2niix.inputs)
      (st : Dcm2niix.state) :
  Dcm2niix.skip st = false ->
  Dcm2niix.loop_body cwd inp st convert_dwi_line
  = Ok (niix_converted cwd inp st "SUBJ/dwi").
Proof.
intros Hs. pose proof search_convert_dwi as G.
destruct (Re.search Dcm2niix.re_path convert_dwi_line) as [m|] eqn:E;
  [|discriminate G].
rewrite (niix_convert_line cwd inp st convert_dwi_line m Hs eq_refl E).
cbn [option_map] in G. now injection G as ->.
Qed.

Lemma niix_converted_files (cwd : string) (inp : Dcm2niix.inputs)
      (st : Dcm2niix.state) (fname : string) :
  Dcm2niix.files (niix_converted cwd inp st fname)
  = (Dcm2niix.files st
       ++ [(resolved cwd inp fname
              ++ nii_ext (Dcm2niix.compress inp))%string])%list.
Proof.
unfold niix_converted. cbv zeta.
destruct (Dcm2niix.find_b st), (Dcm2niix.bids_format inp); reflexivity.
Qed.

Lemma niix_init_paired (inp : Dcm2niix.inputs) : niix_paired inp Dcm2niix.init.
Proof.
exists []. split; [reflexivity|]. now destruct (Dcm2niix.bids_format inp).
Qed.

Lemma niix_converted_bids (cwd : string) (inp : Dcm2niix.inputs)
      (st : Dcm2niix.state) (fname : string) :
  Dcm2niix.bids (niix_converted cwd inp st fname)
  = (Dcm2niix.bids st
       ++ (if Dcm2niix.bids_format inp
           then [(resolved cwd inp fname ++ ".json")%string] else []))%list.
Proof.
unfold niix_converted. cbv zeta.
destruct (Dcm2niix.find_b st), (Dcm2niix.bids_format inp);
  cbn [Dcm2niix.bids Dcm2niix.add_bids Dcm2niix.add_file
       Dcm2niix.add_gradients]; try reflexivity; symmetry; apply app_nil_r.
Qed.

(** A ["Convert "] line with a path fragment, anywhere in a scan that
    returns, has its converted file and, with sidecars on, its sidecar in
    the final state. *)
Lemma niix_convert_recorded (cwd : string) (inp : Dcm2niix.inputs)
      (lines : list string) (line : string) (m : Re.match_obj)
      (st3 : Dcm2niix.state) :
  In line lines ->
  PyStr.startswith "Convert " line = true ->
  Re.search Dcm2niix.re_path line = Some m ->
  Dcm2niix.loop cwd inp Dcm2niix.init lines = Ok st3 ->
  In (resolved cwd inp (Re.group0 m) ++ nii_ext (Dcm2niix.compress inp))
     (Dcm2niix.files st3)
  /\ (Dcm2niix.bids_format inp = true ->
      In (resolved cwd inp (Re.group0 m) ++ ".json") (Dcm2niix.bids st3)).
Proof.
intros Hin Hc Hm Hrun.
apply in_split in Hin. destruct Hin as (l1 & l2 & ->).
apply niix_run_split in Hrun. destruct Hrun as (st1 & st2 & H1 & H2 & H3).
pose proof (niix_run_skip _ _ l1 Dcm2niix.init _ eq_refl H1) as Hs1.
pose proof (niix_body_skip _ _ _ _ _ Hs1 H2) as Hs2.
rewrite (niix_convert_line cwd inp st1 line m Hs1 Hc Hm) in H2.
injection H2 as <-.
apply (niix_run_grows _ _ _ _ _ Hs2) in H3.
destruct H3 as ((a & Ea) & _ & _ & (d & Ed)). split.
- rewrite Ea, niix_converted_files.
  apply in_or_app. left. apply in_or_app. right. left. reflexivity.
- intros Hb. rewrite Ed, niix_converted_bids, Hb.
  apply in_or_app. left. apply in_or_app. right. left. reflexivity.
Qed.

(** C3. With output directory ["/data/out"], the line ["Convert SUBJ/img"],
    wherever the scan reaches it, appends exactly one converted file:
    ["/data/out/SUBJ/img.nii"] with compression mode ['n'] and
    ["/data/out/SUBJ/img.nii.gz"] with any other mode; with BIDS sidecars
    on it also appends ["/data/out/SUBJ/img.json"] to the sidecars.  For
    the stdout made of this line alone the scraper returns exactly these
    entries, and whatever it returns for a stdout with this line contains
    them.  The same holds for every output directory and every line that
    starts with ["Convert "] and has a path fragment: the returned files
    contain the resolved name with the extension of the mode, and with
    sidecars on the returned sidecars contain it with [".json"].  With
    mode ['n'] every returned converted file ends in [".nii"] and none in
    [".nii.gz"]; with any other mode every one ends in [".nii.gz"].  With
    BIDS sidecars on, the returned converted files and sidecars come
    pairwise from the same resolved names: each converted file has its
    [".json"] path. *)
Theorem C3_convert_extension_and_sidecar :
  forall (cwd : string),
    (forall (c : Dcm2niix.compress_mode) (bids : bool) (pre : list string)
            (st : Dcm2niix.state),
        Dcm2niix.loop cwd (Dcm2niix.Inputs (Some "/data/out") c bids)
          Dcm2niix.init pre = Ok st ->
        exists st',
          Dcm2niix.loop_body cwd (Dcm2niix.Inputs (Some "/data/out") c bids)
            st convert_img_line = Ok st'
          /\ Dcm2niix.files st'
             = (Dcm2niix.files st
                  ++ [match c with
                      | Dcm2niix.Cn => "/data/out/SUBJ/img.nii"
                      | _ => "/data/out/SUBJ/img.nii.gz"
                      end])%list
          /\ Dcm2niix.bids st'
             = (Dcm2niix.bids st
                  ++ (if bids then ["/data/out/SUBJ/img.json"] else []))%list)
    /\ (forall (c : Dcm2niix.compress_mode) (bids : bool),
           Dcm2niix._parse_stdout cwd
             (Dcm2niix.Inputs (Some "/data/out") c bids) convert_img_line
           = Ok (let f := match c with
                          | Dcm2niix.Cn => "/data/out/SUBJ/img.nii"
                          | _ => "/data/out/SUBJ/img.nii.gz"
                          end in
                 if bids
                 then Dcm2niix.Tuple4 [f] [] [] ["/data/out/SUBJ/img.json"]
                 else Dcm2niix.Tuple3 [f] [] []))
    /\ (forall (c : Dcm2niix.compress_mode) (bids : bool) (stdout : string)
               (out : Dcm2niix.outputs),
           In convert_img_line (PyStr.split Re.newline stdout) ->
           Dcm2niix._parse_stdout cwd
             (Dcm2niix.Inputs (Some "/data/out") c bids) stdout
           = Ok out ->
           In (match c with
               | Dcm2niix.Cn => "/data/out/SUBJ/img.nii"
               | _ => "/data/out/SUBJ/img.nii.gz"
               end) (out_files out)
           /\ (c = Dcm2niix.Cn ->
               ~ In "/data/out/SUBJ/img.nii.gz" (out_files out))
           /\ (bids = true -> In "/data/out/SUBJ/img.json" (out_bids out)))
    /\ (forall (inp : Dcm2niix.inputs) (stdout line : string)
               (m : Re.match_obj) (out : Dcm2niix.outputs),
           In line (PyStr.split Re.newline stdout) ->
           PyStr.startswith "Convert " line = true ->
           Re.search Dcm2niix.re_path line = Some m ->
           Dcm2niix._parse_stdout cwd inp stdout = Ok out ->
           In (resolved cwd inp (Re.group0 m)
                 ++ match Dcm2niix.compress inp with
                    | Dcm2niix.Cn => ".nii"
                    | _ => ".nii.gz"
                    end) (out_files out)
           /\ (Dcm2niix.bids_format inp = true ->
               In (resolved cwd inp (Re.group0 m) ++ ".json") (out_bids out)))
    /\ (forall (inp : Dcm2niix.inputs) (stdout : string)
               (out : Dcm2niix.outputs),
           Dcm2niix.compress inp = Dcm2niix.Cn ->
           Dcm2niix._parse_stdout cwd inp stdout = Ok out ->
           forall f, In f (out_files out) ->
                     (exists base, f = base ++ ".nii")
                     /\ (forall base, f <> base ++ ".nii.gz"))
    /\ (forall (inp : Dcm2niix.inputs) (stdout : string)
               (out : Dcm2niix.outputs),
           Dcm2niix.compress inp <> Dcm2niix.Cn ->
           Dcm2niix._parse_stdout cwd inp stdout = Ok out ->
           forall f, In f (out_files out) ->
                     exists base, f = base ++ ".nii.gz")
    /\ (forall (inp : Dcm2niix.inputs) (stdout : string)
               (out : Dcm2niix.outputs),
           Dcm2niix.bids_format inp = true ->
           Dcm2niix._parse_stdout cwd inp stdout = Ok out ->
           exists outs : list string,
             out_files out
             = map (fun o => o ++ nii_ext (Dcm2niix.compress inp)) outs
             /\ out_bids out = map (fun o => o ++ ".json") outs).
Proof.
intros cwd.
assert (General :
  forall (inp : Dcm2niix.inputs) (stdout line : string)
         (m : Re.match_obj) (out : Dcm2niix.outputs),
    In line (PyStr.split Re.newline stdout) ->
    PyStr.startswith "Convert " line = true ->
    Re.search Dcm2niix.re_path line = Some m ->
    Dcm2niix._parse_stdout cwd inp stdout = Ok out ->
    In (resolved cwd inp (Re.group0 m) ++ nii_ext (Dcm2niix.compress inp))
       (out_files out)
    /\ (Dcm2niix.bids_format inp = true ->
        In (resolved cwd inp (Re.group0 m) ++ ".json") (out_bids out))).
{ intros inp stdout line m out Hin Hc Hm Hret.
  apply niix_parse_ok in Hret. destruct Hret as (st3 & Hrun & ->).
  destruct (returned_lists st3) as (-> & _ & _ & ->).
  exact (niix_convert_recorded cwd inp _ line m st3 Hin Hc Hm Hrun). }
assert (Endings :
  forall (inp : Dcm2niix.inputs) (stdout : string) (out : Dcm2niix.outputs),
    Dcm2niix._parse_stdout cwd inp stdout = Ok out ->
    forall f, In f (out_files out) ->
              exists base, f = base ++ nii_ext (Dcm2niix.compress inp)).
{ intros inp stdout out Hret f Hin.
  apply niix_parse_ok in Hret. destruct Hret as (st3 & Hrun & ->).
  destruct (returned_lists st3) as (E & _). rewrite E in Hin.
  pose proof (niix_run_paired _ _ _ Dcm2niix.init _ eq_refl Hrun
                (niix_init_paired _)) as (outs & Hf & _).
  rewrite Hf in Hin. apply in_map_iff in Hin. destruct Hin as (o & Ho & _).
  now exists o. }
split; [|split; [|split; [|split; [|split; [|split]]]]].
- intros c bids pre st Hpre.
  pose proof (niix_run_skip _ _ pre Dcm2niix.init _ eq_refl Hpre) as Hs.
  eexists. split; [apply (niix_convert_img _ _ _ Hs)|].
  rewrite niix_converted_files, niix_converted_bids.
  split; [now destruct c|now destruct bids].
- intros c bids. now destruct c, bids.
- intros c bids stdout out Hin Hret.
  pose proof search_convert_img as G.
  destruct (Re.search Dcm2niix.re_path convert_img_line) as [m|] eqn:Em;
    [|discriminate G].
  cbn [option_map] in G. injection G as G.
  destruct (General _ stdout convert_img_line m out Hin eq_refl Em Hret)
    as [Hf Hb].
  rewrite G in Hf, Hb. split; [|split].
  + now destruct c.
  + intros -> Hgz.
    destruct (Endings _ _ _ Hret _ Hgz) as (o & Ho). cbn in Ho.
    assert (E : PyStr.endswith_char "z" "/data/out/SUBJ/img.nii.gz"
                = PyStr.endswith_char "z" (o ++ ".nii"))
      by now rewrite Ho.
    rewrite endswith_char_app in E. discriminate E.
  + intros ->. now apply Hb.
- intros inp stdout line m out Hin Hc Hm Hret.
  destruct (General inp stdout line m out Hin Hc Hm Hret) as [Hf Hb].
  split; [|exact Hb]. now destruct (Dcm2niix.compress inp).
- intros inp stdout out Hc Hret f Hin.
  destruct (Endings _ _ _ Hret _ Hin) as (o & ->). rewrite Hc. cbn [nii_ext].
  split; [now exists o|]. intros base Hb.
  assert (E : PyStr.endswith_char "z" (o ++ ".nii")
              = PyStr.endswith_char "z" (base ++ ".nii.gz"))
    by now rewrite Hb.
  rewrite !endswith_char_app in E. discriminate E.
- intros inp stdout out Hc Hret f Hin.
  destruct (Endings _ _ _ Hret _ Hin) as (o & ->). exists o.
  destruct (Dcm2niix.compress inp); [reflexivity|reflexivity|congruence].
- intros inp stdout out Hb Hret.
  apply niix_parse_ok in Hret. destruct Hret as (st3 & Hrun & ->).
  destruct (returned_lists st3) as (-> & _ & _ & ->).
  pose proof (niix_run_paired _ _ _ Dcm2niix.init _ eq_refl Hrun
                (niix_init_paired _)) as (outs & Hf & Hbids).
  rewrite Hb in Hbids. now exists outs.
Qed.

Lemma C3_witness :
  (exists st',
      Dcm2niix.loop_body "/work"
        (Dcm2niix.Inputs (Some "/data/out") Dcm2niix.Ci true)
        Dcm2niix.init convert_img_line = Ok st'
      /\ Dcm2niix.files st' = ["/data/out/SUBJ/img.nii.gz"]
      /\ Dcm2niix.bids st' = ["/data/out/SUBJ/img.json"])
  /\ (In "/data/out/SUBJ/img.nii"
        (out_files (Dcm2niix.Tuple4
                      ["/data/out/SUBJ/img.nii"; "/data/out/SUBJ/dwi.nii"]
                      [] []
                      ["/data/out/SUBJ/img.json"; "/data/out/SUBJ/dwi.json"]))
      /\ (Dcm2niix.Cn = Dcm2niix.Cn ->
          ~ In "/data/out/SUBJ/img.nii.gz"
              (out_files (Dcm2niix.Tuple4
                            ["/data/out/SUBJ/img.nii"; "/data/out/SUBJ/dwi.nii"]
                            [] []
                            ["/data/out/SUBJ/img.json";
                             "/data/out/SUBJ/dwi.json"])))
      /\ (true = true ->
          In "/data/out/SUBJ/img.json"
             (out_bids (Dcm2niix.Tuple4
                          ["/data/out/SUBJ/img.nii"; "/data/out/SUBJ/dwi.nii"]
                          [] []
                          ["/data/out/SUBJ/img.json";
                           "/data/out/SUBJ/dwi.json"]))))
  /\ (In "/work/a/t1.nii.gz"
         (out_files (Dcm2niix.Tuple4 ["/work/a/t1.nii.gz"] [] []
                       ["/work/a/t1.json"]))
      /\ (true = true ->
          In "/work/a/t1.json"
             (out_bids (Dcm2niix.Tuple4 ["/work/a/t1.nii.gz"] [] []
                          ["/work/a/t1.json"]))))
  /\ (forall f,
         In f (out_files (Dcm2niix.Tuple3 ["/data/out/SUBJ/img.nii"] [] [])) ->
         (exists base, f = base ++ ".nii")
         /\ (forall base, f <> base ++ ".nii.gz"))
  /\ (forall f,
         In f (out_files (Dcm2niix.Tuple3 ["/data/out/SUBJ/img.nii.gz"] [] [])) ->
         exists base, f = base ++ ".nii.gz")
  /\ (exists outs : list string,
         out_files (Dcm2niix.Tuple4 ["/data/out/SUBJ/img.nii"] [] []
                      ["/data/out/SUBJ/img.json"])
         = map (fun o => o ++ ".nii") outs
         /\ out_bids (Dcm2niix.Tuple4 ["/data/out/SUBJ/img.nii"] [] []
                        ["/data/out/SUBJ/img.json"])
            = map (fun o => o ++ ".json") outs).
Proof.
pose proof (C3_convert_extension_and_sidecar "/work")
  as (H1 & _ & H3 & H4 & H5 & H6 & H7).
split; [|split; [|split; [|split; [|split]]]].
- exact (H1 Dcm2niix.Ci true [] Dcm2niix.init eq_refl).
- exact (H3 Dcm2niix.Cn true (convert_img_line ++ nl ++ convert_dwi_line) _
            (or_introl eq_refl) eq_refl).
- exact (H4 (Dcm2niix.Inputs None Dcm2niix.Cy true)
            ("scan 1" ++ nl ++ "Convert 12 DICOM as a/t1 (64x64x30)")
            "Convert 12 DICOM as a/t1 (64x64x30)"
            (Re.MatchObj "Convert 12 DICOM as a/t1 (64x64x30)" 20 (4, []))
            _ (or_intror (or_introl eq_refl)) eq_refl eq_refl eq_refl).
- exact (H5 (Dcm2niix.Inputs (Some "/data/out") Dcm2niix.Cn false)
            convert_img_line _ eq_refl eq_refl).
- refine (H6 (Dcm2niix.Inputs (Some "/data/out") Dcm2niix.Ci false)
             convert_img_line _ _ eq_refl). discriminate.
- exact (H7 (Dcm2niix.Inputs (Some "/data/out") Dcm2niix.Cn true)
            convert_img_line _ eq_refl eq_refl).
Defined.

(** A marker line that is not a ["Convert "] line, then ["Convert SUBJ/dwi"]. *)
Lemma niix_marker_then_convert (cwd : string) (inp : Dcm2niix.inputs)
      (st : Dcm2niix.state) (marker : string) :
  Dcm2niix.skip st = false ->
  gradient_marker marker = true ->
  PyStr.startswith "Convert " marker = false ->
  Dcm2niix.loop cwd inp st [marker; convert_dwi_line]
  = Ok (niix_converted cwd inp (Dcm2niix.set_find_b st true) "SUBJ/dwi").
Proof.
intros Hs Hm Hc. cbn [Dcm2niix.loop].
rewrite (niix_other_line cwd inp st marker Hs Hc), Hm. cbn [bind].
rewrite niix_convert_dwi by (destruct st; exact Hs). reflexivity.
Qed.

Lemma niix_converted_pending (cwd : string) (inp : Dcm2niix.inputs)
      (st : Dcm2niix.state) (fname : string) :
  let st2 := niix_converted cwd inp (Dcm2niix.set_find_b st true) fname in
  Dcm2niix.bvecs st2
  = (Dcm2niix.bvecs st ++ [(resolved cwd inp fname ++ ".bvec")%string])%list
  /\ Dcm2niix.bvals st2
     = (Dcm2niix.bvals st ++ [(resolved cwd inp fname ++ ".bval")%string])%list
  /\ Dcm2niix.find_b st2 = false.
Proof.
unfold niix_converted. cbv zeta.
cbn [Dcm2niix.find_b Dcm2niix.set_find_b].
destruct (Dcm2niix.bids_format inp); repeat split.
Qed.

(** C5, as amended.  When a line that contains ["DTI gradients"] or
    ["DTI gradient directions"] and does not itself start with ["Convert "]
    is immediately followed by ["Convert SUBJ/dwi"], and the lines before
    did not raise, the scan appends the name [SUBJ/dwi] resolved against the
    output directory, with [.bvec] and [.bval], to the gradient lists and
    clears the pending flag; whenever [_parse_stdout] then returns, the
    returned gradient lists contain the two paths.  A marker line after
    which no line starts with ["Convert "] contributes nothing: the scraper
    returns what it returns without that line.  Against ["/data/out"] the
    resolved name is ["/data/out/SUBJ/dwi"]. *)
Theorem C5_gradient_marker_then_convert :
  forall (cwd : string) (inp : Dcm2niix.inputs),
    (forall (pre : list string) (st : Dcm2niix.state) (marker : string),
        Dcm2niix.loop cwd inp Dcm2niix.init pre = Ok st ->
        gradient_marker marker = true ->
        PyStr.startswith "Convert " marker = false ->
        exists st2,
          Dcm2niix.loop cwd inp Dcm2niix.init
            (pre ++ [marker; convert_dwi_line])%list = Ok st2
          /\ Dcm2niix.bvecs st2
             = (Dcm2niix.bvecs st
                  ++ [(resolved cwd inp "SUBJ/dwi" ++ ".bvec")%string])%list
          /\ Dcm2niix.bvals st2
             = (Dcm2niix.bvals st
                  ++ [(resolved cwd inp "SUBJ/dwi" ++ ".bval")%string])%list
          /\ Dcm2niix.find_b st2 = false)
    /\ (forall (stdout : string) (pre post : list string) (marker : string)
               (out : Dcm2niix.outputs),
           PyStr.split Re.newline stdout
           = (pre ++ [marker; convert_dwi_line] ++ post)%list ->
           gradient_marker marker = true ->
           PyStr.startswith "Convert " marker = false ->
           Dcm2niix._parse_stdout cwd inp stdout = Ok out ->
           In (resolved cwd inp "SUBJ/dwi" ++ ".bvec") (out_bvecs out)
           /\ In (resolved cwd inp "SUBJ/dwi" ++ ".bval") (out_bvals out))
    /\ (forall (stdout stdout' : string) (pre post : list string)
               (marker : string),
           PyStr.split Re.newline stdout = (pre ++ marker :: post)%list ->
           PyStr.split Re.newline stdout' = (pre ++ post)%list ->
           gradient_marker marker = true ->
           PyStr.startswith "Convert " marker = false ->
           forallb (fun l => negb (PyStr.startswith "Convert " l)) post = true ->
           Dcm2niix._parse_stdout cwd inp stdout
           = Dcm2niix._parse_stdout cwd inp stdout')
    /\ resolved cwd
         (Dcm2niix.Inputs (Some "/data/out") (Dcm2niix.compress inp)
            (Dcm2niix.bids_format inp)) "SUBJ/dwi"
       = "/data/out/SUBJ/dwi".
Proof.
intros cwd inp. split; [|split; [|split; [|reflexivity]]].
- intros pre st marker Hpre Hm Hc.
  pose proof (niix_run_skip _ _ pre Dcm2niix.init _ eq_refl Hpre) as Hs.
  eexists. split.
  + rewrite niix_loop_app, Hpre. cbn [bind].
    apply (niix_marker_then_convert _ _ _ _ Hs Hm Hc).
  + apply niix_converted_pending.
- intros stdout pre post marker out Hsplit Hm Hc Hret.
  apply niix_parse_ok in Hret. destruct Hret as (st3 & Hrun & ->).
  destruct (returned_lists st3) as (_ & -> & -> & _).
  rewrite Hsplit, app_assoc, niix_loop_app in Hrun.
  destruct (Dcm2niix.loop cwd inp Dcm2niix.init (pre ++ [marker; convert_dwi_line]))
    as [st2|e] eqn:E2; cbn [bind] in Hrun; [|discriminate].
  pose proof (niix_run_skip _ _ _ Dcm2niix.init _ eq_refl E2) as Hs2.
  rewrite niix_loop_app in E2.
  destruct (Dcm2niix.loop cwd inp Dcm2niix.init pre) as [st1|e] eqn:E1;
    cbn [bind] in E2; [|discriminate].
  pose proof (niix_run_skip _ _ _ Dcm2niix.init _ eq_refl E1) as Hs1.
  rewrite (niix_marker_then_convert _ _ _ _ Hs1 Hm Hc) in E2.
  injection E2 as <-.
  apply (niix_run_grows _ _ _ _ _ Hs2) in Hrun.
  destruct Hrun as (_ & (a & Ea) & (b & Eb) & _).
  destruct (niix_converted_pending cwd inp st1 "SUBJ/dwi") as (Hv & Hl & _).
  rewrite Ea, Eb, Hv, Hl.
  split; apply in_or_app; left; apply in_or_app; right; left; reflexivity.
- intros stdout stdout' pre post marker Hsplit Hsplit' Hm Hc Hpost.
  unfold Dcm2niix._parse_stdout. rewrite Hsplit, Hsplit', !niix_loop_app.
  destruct (Dcm2niix.loop cwd inp Dcm2niix.init pre) as [st1|e] eqn:E1;
    cbn [bind]; [|reflexivity].
  pose proof (niix_run_skip _ _ _ Dcm2niix.init _ eq_refl E1) as Hs1.
  cbn [Dcm2niix.loop].
  rewrite (niix_other_line _ _ _ _ Hs1 Hc), Hm. cbn [bind].
  destruct (niix_run_no_convert cwd inp post st1 Hs1 Hpost) as (sa & Ra & La).
  destruct (niix_run_no_convert cwd inp post (Dcm2niix.set_find_b st1 true))
    as (sb & Rb & Lb); [destruct st1; exact Hs1|exact Hpost|].
  rewrite Ra, Rb. cbn [bind]. f_equal.
  assert (L : niix_lists sb = niix_lists sa) by (rewrite La, Lb; reflexivity).
  unfold niix_lists in L. injection L as L1 L2 L3 L4.
  unfold Dcm2niix.returned. now rewrite L1, L2, L3, L4.
Qed.

Lemma C5_witness :
  Dcm2niix.loop "/work" (Dcm2niix.Inputs (Some "/data/out") Dcm2niix.Ci true)
    Dcm2niix.init ["dcm2niix starts"] = Ok Dcm2niix.init
  /\ gradient_marker "DTI gradient directions 32" = true
  /\ PyStr.startswith "Convert " "DTI gradient directions 32" = false
  /\ exists st2,
       Dcm2niix.loop "/work"
         (Dcm2niix.Inputs (Some "/data/out") Dcm2niix.Ci true) Dcm2niix.init
         (["dcm2niix starts"]
            ++ ["DTI gradient directions 32"; convert_dwi_line])%list
       = Ok st2
       /\ Dcm2niix.bvecs st2 = ["/data/out/SUBJ/dwi.bvec"]
       /\ Dcm2niix.bvals st2 = ["/data/out/SUBJ/dwi.bval"]
       /\ Dcm2niix.find_b st2 = false.
Proof.
split; [reflexivity|]. split; [reflexivity|]. split; [reflexivity|].
exact (proj1 (C5_gradient_marker_then_convert "/work"
                (Dcm2niix.Inputs (Some "/data/out") Dcm2niix.Ci true))
         ["dcm2niix starts"] Dcm2niix.init "DTI gradient directions 32"
         eq_refl eq_refl eq_refl).
Defined.

(** C5 as stated fails: the first line of this stdout contains
    ["DTI gradients"] and is immediately followed by ["Convert SUBJ/dwi"],
    but it starts with ["Convert "] and is classified as a converted file,
    so the pending flag is never set and no gradient path is recorded. *)
Lemma C5_counterexample :
  PyStr.split Re.newline stdout_marker_in_convert
  = ["Convert a/b DTI gradients"; convert_dwi_line]
  /\ gradient_marker "Convert a/b DTI gradients" = true
  /\ Dcm2niix._parse_stdout "/work"
       (Dcm2niix.Inputs (Some "/data/out") Dcm2niix.Ci false)
       stdout_marker_in_convert
     = Ok (Dcm2niix.Tuple3
             ["/data/out/a/b.nii.gz"; "/data/out/SUBJ/dwi.nii.gz"] [] []).
Proof.
repeat split; reflexivity.
Qed.





(** C10. [Dcm2niix._parse_stdout] raises on some inputs: a stdout with a
    line that starts with ["Convert "] and in which the path pattern finds
    nothing makes it raise [AttributeError] (the match is [None]), wherever
    that line stands.  A line without any slash is such a line, and
    ["Convert done"] is one. *)
Theorem C10_convert_without_path_raises :
  forall (cwd : string) (inp : Dcm2niix.inputs),
    (forall (stdout line : string),
        In line (PyStr.split Re.newline stdout) ->
        PyStr.startswith "Convert " line = true ->
        Re.search Dcm2niix.re_path line = None ->
        Dcm2niix._parse_stdout cwd inp stdout = Raise AttributeError)
    /\ (forall line : string,
           PyStr.contains "/" line = false ->
           Re.search Dcm2niix.re_path line = None)
    /\ Dcm2niix._parse_stdout cwd inp "Convert done" = Raise AttributeError.
Proof.
intros cwd inp. split; [|split; [exact search_path_no_slash|reflexivity]].
intros stdout line Hin Hp Hm. unfold Dcm2niix._parse_stdout.
apply in_split in Hin. destruct Hin as (l1 & l2 & ->).
rewrite niix_loop_app.
destruct (Dcm2niix.loop cwd inp Dcm2niix.init l1) as [st1|e] eqn:E1;
  cbn [bind Dcm2niix.loop].
- pose proof (niix_run_skip _ _ l1 Dcm2niix.init _ eq_refl E1) as Hs1.
  now rewrite (niix_convert_raises _ _ _ _ Hs1 Hp Hm).
- apply niix_run_raises in E1. now subst e.
Qed.

Lemma C10_witness :
  In "Convert done"
     (PyStr.split Re.newline ("Convert SUBJ/img" ++ nl ++ "Convert done"))
  /\ PyStr.startswith "Convert " "Convert done" = true
  /\ Re.search Dcm2niix.re_path "Convert done" = None
  /\ Dcm2niix._parse_stdout "/work" (Dcm2niix.Inputs None Dcm2niix.Ci true)
       ("Convert SUBJ/img" ++ nl ++ "Convert done")
     = Raise AttributeError.
Proof.
split; [right; left; reflexivity|]. split; [reflexivity|].
split; [reflexivity|].
exact (proj1 (C10_convert_without_path_raises "/work"
                (Dcm2niix.Inputs None Dcm2niix.Ci true))
         ("Convert SUBJ/img" ++ nl ++ "Convert done") "Convert done"
         (or_intror (or_introl eq_refl)) eq_refl eq_refl).
Defined.

(** ** The arrow lines of [Dcm2nii] *)

Lemma nii_arrow_line_raises (cwd : string) (od : option string)
      (st : Dcm2nii.state) (line : string) :
  Dcm2nii.skip st = false ->
  PyStr.startswith "Saving " line = false ->
  PyStr.startswith "GZip..." line = false ->
  PyStr.startswith "Number of diffusion directions " line = false ->
  Re.search Dcm2nii.re_arrow line <> None ->
  Re.search Dcm2nii.re_arrow_path line = None ->
  Dcm2nii.loop_body cwd od st line = Raise AttributeError.
Proof.
intros Hs H1 H2 H3 Ha Hp. unfold Dcm2nii.loop_body, Dcm2nii.classify.
rewrite Hs, H1, H2, H3, Hp. cbn [negb].
destruct (Re.search Dcm2nii.re_arrow line); [reflexivity|congruence].
Qed.

(** C9, as amended.  [Dcm2nii._parse_stdout] raises on some inputs.  A
    line that the recognition pattern matches and the extraction pattern
    does not, that is, a line with [-->] somewhere and no [-->] followed by
    a blank, makes it raise [AttributeError] (the second search is [None])
    when the scan brings it to the arrow branch: the lines before it did
    not raise and left the skip flag clear, and it starts with none of
    ["Saving "], ["GZip..."], ["Number of diffusion directions "].  The
    one-line stdout ["a-->b"] is such an input. *)
Theorem C9_arrow_without_blank_raises :
  forall (cwd : string) (output_dir : option string),
    (forall (stdout : string) (pre post : list string) (line : string)
            (st : Dcm2nii.state),
        PyStr.split Re.newline stdout = (pre ++ line :: post)%list ->
        Dcm2nii.loop cwd output_dir Dcm2nii.init pre = Ok st ->
        Dcm2nii.skip st = false ->
        PyStr.startswith "Saving " line = false ->
        PyStr.startswith "GZip..." line = false ->
        PyStr.startswith "Number of diffusion directions " line = false ->
        Re.search Dcm2nii.re_arrow line <> None ->
        Re.search Dcm2nii.re_arrow_path line = None ->
        Dcm2nii._parse_stdout cwd output_dir stdout = Raise AttributeError)
    /\ (forall line : string,
           (Re.search Dcm2nii.re_arrow line <> None
            /\ Re.search Dcm2nii.re_arrow_path line = None)
           <-> (PyStr.contains "-->" line = true
                /\ PyStr.contains "--> " line = false))
    /\ Dcm2nii._parse_stdout cwd output_dir "a-->b" = Raise AttributeError.
Proof.
intros cwd od. split; [|split; [|reflexivity]].
- intros stdout pre post line st Hsplit Hpre Hs H1 H2 H3 Ha Hp.
  unfold Dcm2nii._parse_stdout.
  rewrite Hsplit, nii_loop_app, Hpre. cbn [bind Dcm2nii.loop].
  now rewrite (nii_arrow_line_raises cwd od st line Hs H1 H2 H3 Ha Hp).
- intros line. rewrite search_arrow_path_none.
  pose proof (search_arrow_none line) as Hn.
  destruct (PyStr.contains "-->" line).
  + split; intros [A B]; (split; [|exact B]); [reflexivity|].
    intros C. apply Hn in C. discriminate C.
  + split; intros [A B]; [|discriminate A].
    exfalso. apply A. now apply Hn.
Qed.

Lemma C9_witness :
  PyStr.split Re.newline ("Saving /x.nii" ++ nl ++ "/a.dcm-->/x.nii")
  = (["Saving /x.nii"] ++ "/a.dcm-->/x.nii" :: [])%list
  /\ Dcm2nii.loop "/work" None Dcm2nii.init ["Saving /x.nii"]
     = Ok (Dcm2nii.add_file Dcm2nii.init "/x.nii")
  /\ Re.search Dcm2nii.re_arrow_path "/a.dcm-->/x.nii" = None
  /\ Dcm2nii._parse_stdout "/work" None
       ("Saving /x.nii" ++ nl ++ "/a.dcm-->/x.nii")
     = Raise AttributeError.
Proof.
split; [reflexivity|]. split; [reflexivity|]. split; [reflexivity|].
refine (proj1 (C9_arrow_without_blank_raises "/work" None)
          ("Saving /x.nii" ++ nl ++ "/a.dcm-->/x.nii")
          ["Saving /x.nii"] [] "/a.dcm-->/x.nii"
          (Dcm2nii.add_file Dcm2nii.init "/x.nii")
          eq_refl eq_refl eq_refl eq_refl eq_refl eq_refl _ eq_refl).
discriminate.
Defined.

(** C9 as stated fails: not every line that the recognition pattern matches
    and the extraction pattern does not makes the scraper raise.  The line
    ["Saving a-->b"] is such a line, but the ["Saving "] branch takes it
    first and records the rest of it as a converted file; and the line
    ["a-->b"] right after a ["Reorienting as "] line is dropped as its
    continuation.  Both scans return. *)
Lemma C9_counterexample :
  (Re.search Dcm2nii.re_arrow "Saving a-->b" <> None
   /\ Re.search Dcm2nii.re_arrow_path "Saving a-->b" = None
   /\ Dcm2nii._parse_stdout "/work" None "Saving a-->b"
      = Ok (["a-->b"], [], [], [], []))
  /\ (Re.search Dcm2nii.re_arrow "a-->b" <> None
      /\ Re.search Dcm2nii.re_arrow_path "a-->b" = None
      /\ PyStr.split Re.newline ("Reorienting as x" ++ nl ++ "a-->b")
         = ["Reorienting as x"; "a-->b"]
      /\ Dcm2nii._parse_stdout "/work" None ("Reorienting as x" ++ nl ++ "a-->b")
         = Ok ([], ["x"], [], [], [])).
Proof.
split.
- split; [intros H; vm_compute in H; discriminate H|]. split; reflexivity.
- split; [intros H; vm_compute in H; discriminate H|].
  split; [reflexivity|]. split; reflexivity.
Qed.

(** ** The y/n flags *)

(** C6. For every field in the flag list of [Dcm2nii._format_arg] and of
    [Dcm2niix._format_arg], with the trait declared for it in the input
    spec, and for both truth values, the formatted argument is the flag of
    the field followed by [" y"] for true and [" n"] for false; the flag is
    emitted for a false value too. *)
Theorem C6_boolean_flags_emit_y_or_n :
  forall (opt : string) (spec : Base.trait_spec) (b : bool),
    (In opt Dcm2nii.yn_fields ->
     Dcm2nii.input_spec opt = Some spec ->
     Dcm2nii._format_arg opt spec (Base.VBool b)
     = Some (Base.argstr spec ++ (if b then " y" else " n")))
    /\ (In opt Dcm2niix.yn_fields ->
        Dcm2niix.input_spec opt = Some spec ->
        Dcm2niix._format_arg opt spec (Base.VBool b)
        = Ok (Some (Base.argstr spec ++ (if b then " y" else " n")))).
Proof.
intros opt spec b. split; intros Hin Hspec.
- cbn [Dcm2nii.yn_fields In] in Hin.
  repeat (destruct Hin as [<-|Hin]);
    try (injection Hspec as <-; destruct b; reflexivity).
  contradiction.
- cbn [Dcm2niix.yn_fields In] in Hin.
  repeat (destruct Hin as [<-|Hin]);
    try (injection Hspec as <-; destruct b; reflexivity).
  contradiction.
Qed.

Lemma C6_witness :
  In "gzip_output" Dcm2nii.yn_fields
  /\ Dcm2nii.input_spec "gzip_output" = Some (Base.TraitSpec "-g" true)
  /\ Dcm2nii._format_arg "gzip_output" (Base.TraitSpec "-g" true)
       (Base.VBool false) = Some "-g n"
  /\ In "bids_format" Dcm2niix.yn_fields
  /\ Dcm2niix.input_spec "bids_format" = Some (Base.TraitSpec "-b" true)
  /\ Dcm2niix._format_arg "bids_format" (Base.TraitSpec "-b" true)
       (Base.VBool true) = Ok (Some "-b y").
Proof.
split; [left; reflexivity|]. split; [reflexivity|]. split.
- exact (proj1 (C6_boolean_flags_emit_y_or_n "gzip_output"
                  (Base.TraitSpec "-g" true) false)
           (or_introl eq_refl) eq_refl).
- split; [left; reflexivity|]. split; [reflexivity|].
  exact (proj2 (C6_boolean_flags_emit_y_or_n "bids_format"
                  (Base.TraitSpec "-b" true) true)
           (or_introl eq_refl) eq_refl).
Defined.

(** ** The default output names of the MRtrix adapters *)

Lemma isabs_join (cwd x : string) :
  PosixPath.isabs cwd = true -> PosixPath.isabs (PosixPath.join cwd x) = true.
Proof.
unfold PosixPath.isabs, PosixPath.join. intros H.
destruct (PyStr.startswith "/" x) eqn:E; [exact E|].
destruct cwd as [|c cwd]; [discriminate H|].
destruct (negb (PyStr.truthy (String c cwd))
          || PyStr.endswith_char PosixPath.sep (String c cwd));
  cbn [append PyStr.startswith] in *; exact H.
Qed.

(** A normalized absolute path is absolute. *)
Lemma normpath_isabs (p : string) :
  PosixPath.isabs p = true -> PosixPath.isabs (PosixPath.normpath p) = true.
Proof.
unfold PosixPath.isabs, PosixPath.normpath, PosixPath.initial_slashes.
intros H. rewrite H.
destruct p as [|c p]; [discriminate H|]. cbn [PyStr.truthy negb].
destruct (PyStr.startswith "//" (String c p)
          && negb (PyStr.startswith "///" (String c p)));
  reflexivity.
Qed.

Lemma abspath_isabs (cwd x : string) :
  PosixPath.isabs cwd = true ->
  PosixPath.isabs (PosixPath.abspath cwd x) = true.
Proof.
intros H. unfold PosixPath.abspath. apply normpath_isabs.
destruct (PosixPath.isabs x) eqn:E; [exact E|now apply isabs_join].
Qed.

(** Resolving against the working directory twice is resolving once. *)
Lemma abspath_join_cwd (cwd x : string) :
  PosixPath.isabs cwd = true ->
  PosixPath.abspath cwd (PosixPath.join cwd x) = PosixPath.abspath cwd x.
Proof.
intros H. unfold PosixPath.abspath. rewrite (isabs_join cwd x H).
destruct (PosixPath.isabs x) eqn:E; [|reflexivity].
unfold PosixPath.join. unfold PosixPath.isabs in E. now rewrite E.
Qed.

Lemma gen_outfilename_suffixed_default (suffix getcwd f : string)
      (inp : Mrtrix.inputs) :
  PosixPath.isabs getcwd = true ->
  PosixPath.normpath getcwd = getcwd ->
  f <> "" ->
  PyStr.truthy suffix = true ->
  Mrtrix.out_filename inp = None ->
  Mrtrix.in_file inp = Some f ->
  Mrtrix.gen_outfilename_suffixed suffix getcwd inp
  = Ok (PosixPath.abspath getcwd (Mrtrix.name_of f ++ (suffix ++ ".mif"))).
Proof.
intros Habs Hnorm Hf Hsuf Hout Hin.
unfold Mrtrix.gen_outfilename_suffixed, Mrtrix._gen_fname.
rewrite Hout, Hin.
destruct (String.eqb f "") eqn:E; [apply String.eqb_eq in E; contradiction|].
cbn [bind PyStr.truthy_opt]. rewrite Hsuf. cbn [bind]. f_equal.
unfold Filemanip.fname_presuffix, Mrtrix.name_of.
destruct (Filemanip.split_filename f) as [[pth name] ext].
assert (Ht : PyStr.truthy getcwd = true)
  by (destruct getcwd; [discriminate Habs|reflexivity]).
rewrite Ht.
assert (Hcwd : PosixPath.abspath getcwd getcwd = getcwd)
  by (unfold PosixPath.abspath; now rewrite Habs).
rewrite Hcwd. cbn [append].
replace (name ++ (suffix ++ ".mif") ++ "") with (name ++ (suffix ++ ".mif")).
- now apply abspath_join_cwd.
- f_equal. clear. induction (suffix ++ ".mif") as [|c s IH];
    [reflexivity|cbn [append]; now rewrite <- IH].
Qed.

(** C7, as amended.  With the output name undefined and the working
    directory an absolute normalized path, every MRtrix adapter that lists
    an output lists a path that depends on the (first) input filename and
    the working directory only: the [name] part of the input filename, a
    suffix, made absolute (an absolute path) against the working directory.
    The suffix is a constant of the adapter, with extension [.mif], for
    every adapter but [MRConvert], whose extension is the value of its
    [extension] input.
    ([DWIDenoise] and [DWIBiasCorrect] need a non-empty input filename.) *)
Theorem C7_default_output_names :
  forall (getcwd f : string) (inp : Mrtrix.inputs),
    PosixPath.isabs getcwd = true ->
    PosixPath.normpath getcwd = getcwd ->
    f <> "" ->
    Mrtrix.out_filename inp = None ->
    let named := fun suffix : string =>
      Ok (PosixPath.abspath getcwd (Mrtrix.name_of f ++ suffix)) in
    (Mrtrix.in_file inp = Some f ->
     Mrtrix.DWIDenoise._list_outputs getcwd inp = named "_denoised.mif"
     /\ Mrtrix.DWIBiasCorrect._list_outputs getcwd inp = named "_biascorr.mif"
     /\ Mrtrix.Tensor2Vector._list_outputs getcwd inp = named "_vector.mif"
     /\ Mrtrix.Tensor2FractionalAnisotropy._list_outputs getcwd inp
        = named "_FA.mif"
     /\ Mrtrix.Tensor2ApparentDiffusion._list_outputs getcwd inp
        = named "_ADC.mif"
     /\ Mrtrix.GenerateWhiteMatterMask._list_outputs getcwd inp
        = named "_WMProb.mif"
     /\ Mrtrix.Erode._list_outputs getcwd inp = named "_erode.mif"
     /\ Mrtrix.Threshold._list_outputs getcwd inp = named "_thresh.mif"
     /\ Mrtrix.MedianFilter3D._list_outputs getcwd inp = named "_median3D.mif"
     /\ Mrtrix.MRConvert._list_outputs getcwd inp
        = named ("_mrconvert." ++ Mrtrix.extension_str (Mrtrix.extension inp)))
    /\ (forall rest : list string,
           Mrtrix.in_files inp = f :: rest ->
           Mrtrix.DWI2Tensor._list_outputs getcwd inp = named "_tensor.mif"
           /\ Mrtrix.MRMultiply._list_outputs getcwd inp = named "_MRMult.mif"
           /\ Mrtrix.MRTransform._list_outputs getcwd inp
              = named "_MRTransform.mif")
    /\ (forall suffix : string,
           PosixPath.isabs
             (PosixPath.abspath getcwd (Mrtrix.name_of f ++ suffix)) = true).
Proof.
intros getcwd f inp Habs Hnorm Hf Hout named.
split; [|split; [|intros suffix; now apply abspath_isabs]].
- intros Hin. split; [|split].
  + exact (gen_outfilename_suffixed_default "_denoised" getcwd f inp
             Habs Hnorm Hf eq_refl Hout Hin).
  + exact (gen_outfilename_suffixed_default "_biascorr" getcwd f inp
             Habs Hnorm Hf eq_refl Hout Hin).
  + unfold Mrtrix.Tensor2Vector._list_outputs,
      Mrtrix.Tensor2Vector._gen_outfilename,
      Mrtrix.Tensor2FractionalAnisotropy._list_outputs,
      Mrtrix.Tensor2FractionalAnisotropy._gen_outfilename,
      Mrtrix.Tensor2ApparentDiffusion._list_outputs,
      Mrtrix.Tensor2ApparentDiffusion._gen_outfilename,
      Mrtrix.GenerateWhiteMatterMask._list_outputs,
      Mrtrix.GenerateWhiteMatterMask._gen_outfilename,
      Mrtrix.Erode._list_outputs, Mrtrix.Erode._gen_outfilename,
      Mrtrix.Threshold._list_outputs, Mrtrix.Threshold._gen_outfilename,
      Mrtrix.MedianFilter3D._list_outputs,
      Mrtrix.MedianFilter3D._gen_outfilename,
      Mrtrix.MRConvert._list_outputs, Mrtrix.MRConvert._gen_outfilename,
      Mrtrix.the_in_file.
    rewrite Hout, Hin. cbn [bind]. repeat split.
- intros rest Hin.
  unfold Mrtrix.DWI2Tensor._list_outputs, Mrtrix.DWI2Tensor._gen_outfilename,
    Mrtrix.MRMultiply._list_outputs, Mrtrix.MRMultiply._gen_outfilename,
    Mrtrix.MRTransform._list_outputs, Mrtrix.MRTransform._gen_outfilename,
    Mrtrix.first_in_file.
  rewrite Hout, Hin. cbn [bind]. repeat split.
Qed.

Lemma C7_witness :
  PosixPath.isabs "/work" = true
  /\ PosixPath.normpath "/work" = "/work"
  /\ "/data/dwi.mif" <> ""
  /\ Mrtrix.Threshold._list_outputs "/work"
       (Mrtrix.Inputs (Some "/data/dwi.mif") ["/data/dwi.mif"] None Mrtrix.Emif)
     = Ok "/work/dwi_thresh.mif"
  /\ Mrtrix.DWIDenoise._list_outputs "/work"
       (Mrtrix.Inputs (Some "/data/dwi.mif") ["/data/dwi.mif"] None Mrtrix.Emif)
     = Ok "/work/dwi_denoised.mif"
  /\ Mrtrix.DWI2Tensor._list_outputs "/work"
       (Mrtrix.Inputs (Some "/data/dwi.mif") ["/data/dwi.mif"] None Mrtrix.Emif)
     = Ok "/work/dwi_tensor.mif".
Proof.
assert (Hne : "/data/dwi.mif" <> "") by discriminate.
pose proof (C7_default_output_names "/work" "/data/dwi.mif"
              (Mrtrix.Inputs (Some "/data/dwi.mif") ["/data/dwi.mif"] None
                 Mrtrix.Emif)
              eq_refl eq_refl Hne eq_refl) as (H1 & H2 & _).
split; [reflexivity|]. split; [reflexivity|]. split; [exact Hne|].
destruct (H1 eq_refl) as (Hden & _ & _ & _ & _ & _ & _ & Hthr & _).
destruct (H2 [] eq_refl) as (Hten & _).
split; [exact Hthr|]. split; [exact Hden|exact Hten].
Defined.

(** C7 as stated fails for [MRConvert]: with the same input filename and
    the output name undefined, the listed path changes with the
    [extension] input, so it is not the input's name with a fixed suffix
    and extension. *)
Lemma C7_counterexample :
  Mrtrix.MRConvert._list_outputs "/work"
    (Mrtrix.Inputs (Some "/data/dwi.mif") [] None Mrtrix.Emif)
  = Ok "/work/dwi_mrconvert.mif"
  /\ Mrtrix.MRConvert._list_outputs "/work"
       (Mrtrix.Inputs (Some "/data/dwi.mif") [] None Mrtrix.Enii)
     = Ok "/work/dwi_mrconvert.nii".
Proof.
split; reflexivity.
Qed.

(** ** Further facts on strings and paths *)

Lemma append_nil_r (s : string) : s ++ "" = s.
Proof.
induction s as [|c s IH]; [reflexivity|cbn [append]; now rewrite IH].
Qed.

Lemma append_assoc (a b c : string) : (a ++ b) ++ c = a ++ (b ++ c).
Proof.
induction a as [|x a IH]; [reflexivity|cbn [append]; now rewrite IH].
Qed.

Lemma length_append (a b : string) :
  String.length (a ++ b) = String.length a + String.length b.
Proof.
induction a as [|x a IH]; [reflexivity|cbn [append String.length]; now rewrite IH].
Qed.

Lemma take_app_length (h x : string) :
  PyStr.take (String.length h) (h ++ x) = h.
Proof.
induction h as [|c h IH]; [destruct x; reflexivity|].
cbn [append String.length PyStr.take]. now rewrite IH.
Qed.

Lemma drop_app_length (h x : string) :
  PyStr.drop (String.length h) (h ++ x) = x.
Proof.
induction h as [|c h IH]; [reflexivity|exact IH].
Qed.

Lemma take_drop (n : nat) (s : string) : PyStr.take n s ++ PyStr.drop n s = s.
Proof.
revert s. induction n as [|n IH]; intros s; [reflexivity|].
destruct s as [|c s]; [reflexivity|]. cbn [PyStr.take PyStr.drop append].
now rewrite IH.
Qed.

(** [c in s] for a one-character [c], one character at a time *)
Lemma contains1_cons (c a : ascii) (s : string) :
  PyStr.contains (String c "") (String a s)
  = Ascii.eqb c a || PyStr.contains (String c "") s.
Proof.
cbn [PyStr.contains PyStr.startswith]. now rewrite andb_true_r.
Qed.

Lemma contains1_nil (c : ascii) : PyStr.contains (String c "") "" = false.
Proof. reflexivity. Qed.

Lemma contains1_app (c : ascii) (a b : string) :
  PyStr.contains (String c "") (a ++ b)
  = PyStr.contains (String c "") a || PyStr.contains (String c "") b.
Proof.
induction a as [|x a IH].
- reflexivity.
- cbn [append]. rewrite !contains1_cons, IH. now rewrite orb_assoc.
Qed.

Lemma contains1_take (c : ascii) (n : nat) (s : string) :
  PyStr.contains (String c "") s = false ->
  PyStr.contains (String c "") (PyStr.take n s) = false.
Proof.
revert s. induction n as [|n IH]; intros s H; [reflexivity|].
destruct s as [|a s]; [reflexivity|]. cbn [PyStr.take].
rewrite contains1_cons in *. apply orb_false_iff in H. destruct H as [H1 H2].
rewrite H1. now apply IH.
Qed.

Lemma rfind1_absent (c : ascii) (s : string) :
  PyStr.contains (String c "") s = false -> PyStr.rfind1 c s = 0.
Proof.
induction s as [|a s IH]; [reflexivity|].
rewrite contains1_cons. intros H. apply orb_false_iff in H. destruct H as [H1 H2].
cbn [PyStr.rfind1]. rewrite (IH H2), (Ascii.eqb_sym a c), H1. reflexivity.
Qed.

(** What follows the last occurrence of [c] has no [c]. *)
Lemma drop_rfind1_free (c : ascii) (s : string) :
  PyStr.contains (String c "") (PyStr.drop (PyStr.rfind1 c s) s) = false.
Proof.
induction s as [|a s IH]; [reflexivity|].
cbn [PyStr.rfind1]. destruct (PyStr.rfind1 c s) as [|i] eqn:E.
- destruct (Ascii.eqb a c) eqn:Ea.
  + exact IH.
  + cbn [PyStr.drop]. rewrite contains1_cons, (Ascii.eqb_sym c a), Ea.
    exact IH.
- exact IH.
Qed.

Lemma rfind1_after_sep (c : ascii) (h x : string) :
  PyStr.contains (String c "") x = false ->
  PyStr.rfind1 c (h ++ String c x) = S (String.length h).
Proof.
intros Hx. induction h as [|a h IH].
- cbn [append PyStr.rfind1 String.length].
  now rewrite (rfind1_absent c x Hx), Ascii.eqb_refl.
- cbn [append PyStr.rfind1 String.length]. now rewrite IH.
Qed.

Lemma all_char_app (c : ascii) (a b : string) :
  PyStr.all_char c (a ++ b) = PyStr.all_char c a && PyStr.all_char c b.
Proof.
induction a as [|x a IH]; [reflexivity|].
cbn [append PyStr.all_char]. now rewrite IH, andb_assoc.
Qed.

Lemma rstrip_app_sep (c : ascii) (h : string) :
  PyStr.rstrip c (h ++ String c "") = PyStr.rstrip c h.
Proof.
induction h as [|a h IH].
- cbn. now rewrite Ascii.eqb_refl.
- cbn [append PyStr.rstrip]. now rewrite IH.
Qed.

Lemma rstrip_id (c : ascii) (h : string) :
  PyStr.endswith_char c h = false -> PyStr.truthy h = true ->
  PyStr.rstrip c h = h.
Proof.
induction h as [|a h IH]; [discriminate 2|]. intros He _.
cbn [PyStr.rstrip]. destruct h as [|b h].
- cbn in *. now rewrite He.
- rewrite IH; [reflexivity|exact He|reflexivity].
Qed.

Lemma rstrip_not_endswith (c : ascii) (s : string) :
  PyStr.endswith_char c (PyStr.rstrip c s) = false.
Proof.
induction s as [|a s IH]; [reflexivity|].
cbn [PyStr.rstrip]. destruct (PyStr.rstrip c s) as [|b r] eqn:E.
- destruct (Ascii.eqb a c) eqn:Ea; [reflexivity|]. cbn. exact Ea.
- exact IH.
Qed.

Lemma all_char_ends (c : ascii) (h : string) :
  PyStr.all_char c h = true -> PyStr.truthy h = true ->
  exists h', h = h' ++ String c "".
Proof.
induction h as [|a h IH]; [discriminate 2|]. intros Ha _.
cbn [PyStr.all_char] in Ha. apply andb_true_iff in Ha. destruct Ha as [Ha Hh].
apply Ascii.eqb_eq in Ha. subst a. destruct h as [|b h].
- now exists "".
- destruct (IH Hh eq_refl) as [h' E]. exists (String c h'). cbn [append].
  now rewrite <- E.
Qed.

Lemma free_not_startswith (x : string) :
  PyStr.contains "/" x = false -> PyStr.startswith "/" x = false.
Proof. apply contains_head. Qed.

Lemma endswith_char_snoc (c : ascii) (h : string) :
  PyStr.endswith_char c (h ++ String c "") = true.
Proof.
rewrite endswith_char_app. cbn. apply Ascii.eqb_refl.
Qed.

(** [os.path.split] undoes [os.path.join] of a directory part (a run of
    slashes, or a path that does not end with a slash) and a name without
    slashes. *)
Lemma split_join (h x : string) :
  PyStr.all_char PosixPath.sep h = true
  \/ PyStr.endswith_char PosixPath.sep h = false ->
  PyStr.contains "/" x = false ->
  PosixPath.split (PosixPath.join h x) = (h, x).
Proof.
intros Hh Hx. unfold PosixPath.join, PosixPath.sep in *.
rewrite (free_not_startswith x Hx).
destruct (PyStr.truthy h) eqn:Ht.
- destruct (PyStr.all_char "/" h) eqn:Ha.
  + destruct (all_char_ends _ _ Ha Ht) as [h' E].
    assert (He : PyStr.endswith_char "/" h = true)
      by (rewrite E; apply endswith_char_snoc).
    rewrite He. cbn [negb orb]. unfold PosixPath.split, PosixPath.sep.
    assert (Hr : PyStr.rfind1 "/" (h ++ x) = String.length h).
    { rewrite E, append_assoc. cbn [append].
      rewrite (rfind1_after_sep _ h' x Hx), length_append. cbn. lia. }
    rewrite Hr, take_app_length, drop_app_length. cbv zeta.
    now rewrite Ha, Ht.
  + destruct Hh as [Hh|Hh]; [discriminate Hh|]. rewrite Hh. cbn [negb orb].
    unfold PosixPath.split, PosixPath.sep.
    assert (Hr : PyStr.rfind1 "/" (h ++ "/" ++ x)
                 = String.length (h ++ "/")).
    { cbn [append]. rewrite (rfind1_after_sep _ h x Hx), length_append.
      cbn. lia. }
    rewrite Hr. rewrite <- append_assoc.
    rewrite take_app_length, drop_app_length. cbv zeta.
    rewrite all_char_app, Ha. cbn [andb negb].
    assert (Htt : PyStr.truthy (h ++ "/") = true) by (destruct h; reflexivity).
    rewrite Htt. cbn [andb].
    now rewrite rstrip_app_sep, (rstrip_id _ h Hh Ht).
- destruct h; [|discriminate Ht]. cbn [negb orb append].
  unfold PosixPath.split, PosixPath.sep.
  rewrite (rfind1_absent _ x Hx). reflexivity.
Qed.

(** The directory part that [os.path.split] returns is a run of slashes or
    does not end with a slash; the name part has no slash. *)
Lemma split_shape (p : string) :
  (PyStr.all_char PosixPath.sep (PosixPath.dirname p) = true
   \/ PyStr.endswith_char PosixPath.sep (PosixPath.dirname p) = false)
  /\ PyStr.contains "/" (PosixPath.basename p) = false.
Proof.
unfold PosixPath.dirname, PosixPath.basename, PosixPath.split. cbn [fst snd].
split; [|apply drop_rfind1_free].
set (head := PyStr.take (PyStr.rfind1 PosixPath.sep p) p).
destruct (PyStr.truthy head) eqn:Ht; cbn [andb].
- destruct (PyStr.all_char PosixPath.sep head) eqn:Ha; cbn [negb].
  + now left.
  + right. apply rstrip_not_endswith.
- left. now destruct head.
Qed.

Lemma pysplit_nonempty (c : ascii) (s : string) : PyStr.split c s <> [].
Proof.
destruct s as [|a s]; cbn [PyStr.split]; [discriminate|].
destruct (Ascii.eqb a c); [discriminate|].
destruct (PyStr.split c s); discriminate.
Qed.

Lemma pysplit_free (c : ascii) (x : string) :
  PyStr.contains (String c "") x = false -> PyStr.split c x = [x].
Proof.
induction x as [|a x IH]; [reflexivity|].
rewrite contains1_cons. intros H. apply orb_false_iff in H. destruct H as [H1 H2].
cbn [PyStr.split]. rewrite (Ascii.eqb_sym a c), H1, (IH H2). reflexivity.
Qed.

Lemma pysplit_app (c : ascii) (a b : string) :
  PyStr.split c (a ++ String c b) = (PyStr.split c a ++ PyStr.split c b)%list.
Proof.
induction a as [|x a IH].
- cbn [append PyStr.split]. now rewrite Ascii.eqb_refl.
- cbn [append PyStr.split]. rewrite IH.
  destruct (Ascii.eqb x c); [reflexivity|].
  destruct (PyStr.split c a) as [|w ws] eqn:E; [|reflexivity].
  now apply pysplit_nonempty in E.
Qed.

Lemma simple_parts (c : string) :
  simple c = true ->
  PyStr.truthy c = true /\ PyStr.contains "/" c = false
  /\ String.eqb c "." = false /\ String.eqb c ".." = false.
Proof.
unfold simple. intros H.
repeat (apply andb_true_iff in H; destruct H as [H ?]).
repeat match goal with
       | [ E : negb _ = true |- _ ] => apply negb_true_iff in E
       end.
auto.
Qed.

Lemma concat_snoc (cs : list string) (c x : string) :
  String.concat "/" ((c :: cs) ++ [x])
  = String.concat "/" (c :: cs) ++ "/" ++ x.
Proof.
revert c. induction cs as [|d cs IH]; intros c; [reflexivity|].
change (String.concat "/" ((c :: d :: cs) ++ [x]))
  with (c ++ "/" ++ String.concat "/" ((d :: cs) ++ [x])).
rewrite IH.
change (String.concat "/" (c :: d :: cs))
  with (c ++ "/" ++ String.concat "/" (d :: cs)).
now rewrite !append_assoc.
Qed.

Lemma free_not_endswith (x : string) :
  PyStr.contains "/" x = false -> PyStr.endswith_char "/" x = false.
Proof.
induction x as [|a x IH]; [reflexivity|].
rewrite contains1_cons. intros H. apply orb_false_iff in H. destruct H as [H1 H2].
destruct x as [|b x].
- cbn. now rewrite Ascii.eqb_sym.
- exact (IH H2).
Qed.

Lemma concat_simple_shape (c : string) (cs : list string) :
  forallb simple (c :: cs) = true ->
  PyStr.truthy (String.concat "/" (c :: cs)) = true
  /\ PyStr.startswith "/" (String.concat "/" (c :: cs)) = false
  /\ PyStr.endswith_char "/" (String.concat "/" (c :: cs)) = false.
Proof.
revert c. induction cs as [|d cs IH]; intros c H.
- cbn [forallb] in H. apply andb_true_iff in H. destruct H as [H _].
  destruct (simple_parts c H) as (Ht & Hf & _). cbn [String.concat].
  split; [exact Ht|]. split; [now apply free_not_startswith|].
  now apply free_not_endswith.
- cbn [forallb] in H. apply andb_true_iff in H. destruct H as [Hc H].
  destruct (IH d H) as (Ht & _ & He).
  destruct (simple_parts c Hc) as (Htc & Hfc & _).
  change (String.concat "/" (c :: d :: cs))
    with (c ++ "/" ++ String.concat "/" (d :: cs)).
  split; [destruct c; [discriminate Htc|reflexivity]|].
  split.
  + destruct c as [|a c]; [discriminate Htc|]. cbn [append].
    now apply free_not_startswith in Hfc.
  + destruct (String.concat "/" (d :: cs)) as [|y t] eqn:E; [discriminate Ht|].
    rewrite <- append_assoc, endswith_char_app. exact He.
Qed.

Lemma pysplit_concat (c : string) (cs : list string) :
  forallb simple (c :: cs) = true ->
  PyStr.split "/" (String.concat "/" (c :: cs)) = c :: cs.
Proof.
revert c. induction cs as [|d cs IH]; intros c H.
- cbn [forallb] in H. apply andb_true_iff in H. destruct H as [H _].
  destruct (simple_parts c H) as (_ & Hf & _). now apply pysplit_free.
- cbn [forallb] in H. apply andb_true_iff in H. destruct H as [Hc H].
  destruct (simple_parts c Hc) as (_ & Hf & _).
  change (String.concat "/" (c :: d :: cs))
    with (c ++ String "/" (String.concat "/" (d :: cs))).
  rewrite pysplit_app, (IH d H), (pysplit_free _ c Hf). reflexivity.
Qed.

Lemma norm_fold_simple (i : nat) (cs acc : list string) :
  forallb simple cs = true ->
  fold_left (PosixPath.norm_step i) cs acc = (acc ++ cs)%list.
Proof.
revert acc. induction cs as [|c cs IH]; intros acc H; cbn [fold_left].
- now rewrite app_nil_r.
- cbn [forallb] in H. apply andb_true_iff in H. destruct H as [Hc H].
  destruct (simple_parts c Hc) as (Ht & _ & Hd & Hdd).
  unfold PosixPath.norm_step at 2. rewrite Hd, Hdd.
  destruct c as [|a c]; [discriminate Ht|]. cbn [String.eqb orb negb].
  rewrite (IH _ H), <- app_assoc. reflexivity.
Qed.

(** A canonical path is its own normal form. *)
Lemma canonical_normpath (cs : list string) :
  forallb simple cs = true ->
  PosixPath.normpath (canonical cs) = canonical cs.
Proof.
intros H. unfold canonical, PosixPath.normpath, PosixPath.sep.
cbn [append PyStr.truthy negb]. cbv zeta.
assert (Hi : PosixPath.initial_slashes (String "/" (String.concat "/" cs)) = 1).
{ assert (Hs : PyStr.startswith "/" (String.concat "/" cs) = false).
  { destruct cs as [|c cs]; [reflexivity|].
    now destruct (concat_simple_shape c cs H) as (_ & Hs & _). }
  unfold PosixPath.initial_slashes.
  replace (PyStr.startswith "//" (String "/" (String.concat "/" cs)))
    with (PyStr.startswith "/" (String.concat "/" cs)) by reflexivity.
  rewrite Hs. reflexivity. }
rewrite Hi.
assert (Hf : fold_left (PosixPath.norm_step 1)
               (PyStr.split "/" (String "/" (String.concat "/" cs)))
               [] = cs).
{ change (String "/" (String.concat "/" cs))
    with ("" ++ String "/" (String.concat "/" cs)).
  rewrite pysplit_app. cbn [PyStr.split app fold_left].
  unfold PosixPath.norm_step at 2. cbn [String.eqb orb].
  destruct cs as [|c cs]; [reflexivity|].
  rewrite (pysplit_concat c cs H). now rewrite norm_fold_simple. }
rewrite Hf. reflexivity.
Qed.

Lemma canonical_join (cs : list string) (x : string) :
  forallb simple cs = true -> simple x = true ->
  PosixPath.join (canonical cs) x = canonical (cs ++ [x]).
Proof.
intros H Hx. destruct (simple_parts x Hx) as (_ & Hf & _).
unfold PosixPath.join, PosixPath.sep. rewrite (free_not_startswith x Hf).
destruct cs as [|c cs]; [reflexivity|].
destruct (concat_simple_shape c cs H) as (Ht & _ & He).
unfold canonical.
assert (Hend : PyStr.endswith_char "/"
                 ("/" ++ String.concat "/" (c :: cs)) = false).
{ destruct (String.concat "/" (c :: cs)) as [|y t] eqn:E; [discriminate Ht|].
  change ("/" ++ String y t) with ("/" ++ String y t)%string.
  rewrite endswith_char_app. exact He. }
rewrite Hend. cbn [PyStr.truthy append negb orb].
now rewrite concat_snoc.
Qed.

Lemma forallb_snoc (cs : list string) (x : string) :
  forallb simple cs = true -> simple x = true ->
  forallb simple (cs ++ [x]) = true.
Proof.
intros H Hx. rewrite forallb_app, H. cbn. now rewrite Hx.
Qed.

(** Resolving a simple name against a canonical working directory puts it
    right below that directory. *)
Lemma canonical_abspath (cs : list string) (x : string) :
  forallb simple cs = true -> simple x = true ->
  PosixPath.abspath (canonical cs) x = canonical (cs ++ [x]).
Proof.
intros H Hx. destruct (simple_parts x Hx) as (_ & Hf & _).
unfold PosixPath.abspath, PosixPath.isabs.
rewrite (free_not_startswith x Hf), (canonical_join cs x H Hx).
apply canonical_normpath. now apply forallb_snoc.
Qed.

Lemma canonical_split (cs : list string) (x : string) :
  forallb simple cs = true -> simple x = true ->
  PosixPath.split (canonical (cs ++ [x])) = (canonical cs, x).
Proof.
intros H Hx. destruct (simple_parts x Hx) as (_ & Hf & _).
rewrite <- (canonical_join cs x H Hx). apply split_join; [|exact Hf].
destruct cs as [|c cs]; [now left|right].
destruct (concat_simple_shape c cs H) as (Ht & _ & He).
unfold canonical, PosixPath.sep.
destruct (String.concat "/" (c :: cs)) as [|y t] eqn:E; [discriminate Ht|].
rewrite endswith_char_app. exact He.
Qed.

Lemma canonical_isabs (cs : list string) : PosixPath.isabs (canonical cs) = true.
Proof. reflexivity. Qed.

Lemma append_inv_l (p a b : string) : p ++ a = p ++ b -> a = b.
Proof.
induction p as [|c p IH]; [auto|]. cbn [append]. intros [= H]. auto.
Qed.

Lemma append_inv_r (s a b : string) : a ++ s = b ++ s -> a = b.
Proof.
revert b. induction a as [|x a IH]; intros b H.
- destruct b as [|y b]; [reflexivity|].
  apply (f_equal String.length) in H. rewrite !length_append in H.
  cbn [append String.length] in H. lia.
- destruct b as [|y b].
  + apply (f_equal String.length) in H. rewrite !length_append in H.
    cbn [append String.length] in H. lia.
  + cbn [append] in H. injection H as -> H. now rewrite (IH b H).
Qed.

Lemma simple_app (a b : string) :
  PyStr.contains "/" a = false -> PyStr.contains "/" b = false ->
  3 <= String.length b ->
  simple (a ++ b) = true.
Proof.
intros Ha Hb Hl. unfold simple.
assert (Hlen : 3 <= String.length (a ++ b)) by (rewrite length_append; lia).
assert (Ht : PyStr.truthy (a ++ b) = true)
  by (destruct (a ++ b); [cbn in Hlen; lia|reflexivity]).
rewrite Ht, contains1_app, Ha, Hb. cbn [orb negb andb].
destruct (String.eqb (a ++ b) ".") eqn:E1.
{ apply String.eqb_eq in E1. rewrite E1 in Hlen. cbn in Hlen. lia. }
destruct (String.eqb (a ++ b) "..") eqn:E2.
{ apply String.eqb_eq in E2. rewrite E2 in Hlen. cbn in Hlen. lia. }
reflexivity.
Qed.

Lemma canonical_last_inj (cs : list string) (a b : string) :
  forallb simple cs = true -> simple a = true -> simple b = true ->
  canonical (cs ++ [a]) = canonical (cs ++ [b]) -> a = b.
Proof.
intros H Ha Hb E. apply (f_equal PosixPath.split) in E.
rewrite !canonical_split in E by assumption. now injection E.
Qed.

(** the [name] part that [split_filename] returns has no slash *)
Lemma name_of_free (f : string) : PyStr.contains "/" (Mrtrix.name_of f) = false.
Proof.
unfold Mrtrix.name_of, Filemanip.split_filename, PosixPath.splitext.
destruct (split_shape f) as (_ & Hb).
set (b := PosixPath.basename f) in *.
destruct (Nat.ltb _ _); [|exact Hb].
destruct (negb _); [|exact Hb]. now apply contains1_take.
Qed.

(** ** Further properties: the parcellation outputs *)

Lemma roi_name_simple (k : string) :
  PyStr.contains "/" k = false ->
  simple ("ROIv_HR_th" ++ "_" ++ k ++ ".nii.gz") = true.
Proof.
intros Hk.
change ("ROIv_HR_th" ++ "_" ++ k ++ ".nii.gz")
  with ("ROIv_HR_th_" ++ (k ++ ".nii.gz")).
apply simple_app; [reflexivity| |].
- now rewrite contains1_app, Hk.
- rewrite length_append. cbn. lia.
Qed.

(** X18. [Parcellate._list_outputs], run in a canonical working directory
    with scale names that contain no slash and are pairwise distinct (they
    are the keys of a dictionary): the white-matter mask is
    [fsmask_1mm.nii.gz] right below the working directory; there is one ROI
    file per scale, in the order of the scales, each
    [ROIv_HR_th_<scale>.nii.gz] right below the working directory; the ROI
    files are pairwise distinct and none of them is the mask. *)
Theorem X18_parcellate_outputs :
  forall (cs keys : list string),
    forallb simple cs = true ->
    (forall k, In k keys -> PyStr.contains "/" k = false) ->
    NoDup keys ->
    fst (Cmtk._list_outputs (canonical cs) keys)
    = canonical (cs ++ ["fsmask_1mm.nii.gz"])
    /\ snd (Cmtk._list_outputs (canonical cs) keys)
       = map (fun k => canonical (cs ++ ["ROIv_HR_th_" ++ k ++ ".nii.gz"])) keys
    /\ (forall p, In p (snd (Cmtk._list_outputs (canonical cs) keys)) ->
                  PosixPath.dirname p = canonical cs)
    /\ NoDup (snd (Cmtk._list_outputs (canonical cs) keys))
    /\ ~ In (fst (Cmtk._list_outputs (canonical cs) keys))
            (snd (Cmtk._list_outputs (canonical cs) keys)).
Proof.
intros cs keys Hcs Hfree Hnd.
assert (Hmask : fst (Cmtk._list_outputs (canonical cs) keys)
                = canonical (cs ++ ["fsmask_1mm.nii.gz"])).
{ cbn [Cmtk._list_outputs fst]. now apply canonical_abspath. }
assert (Hroi : snd (Cmtk._list_outputs (canonical cs) keys)
               = map (fun k => canonical (cs ++ ["ROIv_HR_th_" ++ k ++ ".nii.gz"]))
                     keys).
{ cbn [Cmtk._list_outputs snd]. unfold Cmtk._gen_outfilenames.
  apply map_ext_in. intros k Hk.
  apply (canonical_abspath cs _ Hcs (roi_name_simple k (Hfree k Hk))). }
split; [exact Hmask|]. split; [exact Hroi|]. rewrite Hmask, Hroi. split; [|split].
- intros p Hp. apply in_map_iff in Hp. destruct Hp as (k & <- & Hk).
  unfold PosixPath.dirname.
  now rewrite (canonical_split cs ("ROIv_HR_th_" ++ k ++ ".nii.gz") Hcs
                 (roi_name_simple k (Hfree k Hk))).
- clear Hmask Hroi. induction Hnd as [|k keys Hnotin Hnd IH]; [constructor|].
  cbn [map]. constructor.
  + intros Hin. apply in_map_iff in Hin. destruct Hin as (k' & E & Hk').
    apply canonical_last_inj in E;
      [|exact Hcs
       |exact (roi_name_simple k' (Hfree k' (or_intror Hk')))
       |exact (roi_name_simple k (Hfree k (or_introl eq_refl)))].
    apply (append_inv_l "ROIv_HR_th_") in E. apply append_inv_r in E.
    subst k'. contradiction.
  + apply IH. intros k' Hk'. apply Hfree. now right.
- intros Hin. apply in_map_iff in Hin. destruct Hin as (k & E & Hk).
  apply canonical_last_inj in E;
    [|exact Hcs|exact (roi_name_simple k (Hfree k Hk))|reflexivity].
  discriminate E.
Qed.

Lemma X18_witness :
  forallb simple ["work"; "subj1"] = true
  /\ NoDup ["scale33"; "scale60"]
  /\ Cmtk._list_outputs "/work/subj1" ["scale33"; "scale60"]
     = ("/work/subj1/fsmask_1mm.nii.gz",
        ["/work/subj1/ROIv_HR_th_scale33.nii.gz";
         "/work/subj1/ROIv_HR_th_scale60.nii.gz"])
  /\ NoDup (snd (Cmtk._list_outputs (canonical ["work"; "subj1"])
                   ["scale33"; "scale60"])).
Proof.
assert (Hfree : forall k, In k ["scale33"; "scale60"] ->
                          PyStr.contains "/" k = false)
  by (intros k [<-|[<-|[]]]; reflexivity).
assert (Hnd : NoDup ["scale33"; "scale60"]).
{ constructor; [intros [E|[]]; discriminate E|].
  constructor; [intros []|constructor]. }
split; [reflexivity|]. split; [exact Hnd|]. split; [reflexivity|].
exact (proj1 (proj2 (proj2 (proj2
         (X18_parcellate_outputs ["work"; "subj1"] ["scale33"; "scale60"]
            eq_refl Hfree Hnd))))).
Defined.

(** ** Further properties: the MRtrix output names *)

(** X16. What a defined output name does.  [DWIDenoise], [DWIBiasCorrect],
    [DWI2Tensor] and [Tensor2FractionalAnisotropy] list the given name, made
    absolute, whatever the input file is, and so does [MRConvert] when its
    input file is defined.  The other eight adapters never read the output
    name: with an output name given they still list the default name built
    from the input file. *)
Theorem X16_defined_output_name :
  forall (getcwd o : string) (inp : Mrtrix.inputs),
    Mrtrix.out_filename inp = Some o ->
    (Mrtrix.DWIDenoise._list_outputs getcwd inp
     = Ok (PosixPath.abspath getcwd o)
     /\ Mrtrix.DWIBiasCorrect._list_outputs getcwd inp
        = Ok (PosixPath.abspath getcwd o)
     /\ Mrtrix.DWI2Tensor._list_outputs getcwd inp
        = Ok (PosixPath.abspath getcwd o)
     /\ Mrtrix.Tensor2FractionalAnisotropy._list_outputs getcwd inp
        = Ok (PosixPath.abspath getcwd o))
    /\ (forall f : string,
           Mrtrix.in_file inp = Some f ->
           let default := fun suffix : string =>
             Ok (PosixPath.abspath getcwd (Mrtrix.name_of f ++ suffix)) in
           Mrtrix.MRConvert._list_outputs getcwd inp
           = Ok (PosixPath.abspath getcwd o)
           /\ Mrtrix.Tensor2Vector._list_outputs getcwd inp
              = default "_vector.mif"
           /\ Mrtrix.Tensor2ApparentDiffusion._list_outputs getcwd inp
              = default "_ADC.mif"
           /\ Mrtrix.GenerateWhiteMatterMask._list_outputs getcwd inp
              = default "_WMProb.mif"
           /\ Mrtrix.Erode._list_outputs getcwd inp = default "_erode.mif"
           /\ Mrtrix.Threshold._list_outputs getcwd inp = default "_thresh.mif"
           /\ Mrtrix.MedianFilter3D._list_outputs getcwd inp
              = default "_median3D.mif")
    /\ (forall (f : string) (rest : list string),
           Mrtrix.in_files inp = f :: rest ->
           Mrtrix.MRMultiply._list_outputs getcwd inp
           = Ok (PosixPath.abspath getcwd (Mrtrix.name_of f ++ "_MRMult.mif"))
           /\ Mrtrix.MRTransform._list_outputs getcwd inp
              = Ok (PosixPath.abspath getcwd
                      (Mrtrix.name_of f ++ "_MRTransform.mif"))).
Proof.
intros getcwd o inp Hout. split; [|split].
- unfold Mrtrix.DWIDenoise._list_outputs, Mrtrix.DWIDenoise._gen_outfilename,
    Mrtrix.DWIBiasCorrect._list_outputs,
    Mrtrix.DWIBiasCorrect._gen_outfilename, Mrtrix.gen_outfilename_suffixed,
    Mrtrix.DWI2Tensor._list_outputs,
    Mrtrix.Tensor2FractionalAnisotropy._list_outputs.
  rewrite Hout. repeat split.
- intros f Hin default.
  unfold Mrtrix.MRConvert._list_outputs, Mrtrix.MRConvert._gen_outfilename,
    Mrtrix.Tensor2Vector._list_outputs, Mrtrix.Tensor2Vector._gen_outfilename,
    Mrtrix.Tensor2ApparentDiffusion._list_outputs,
    Mrtrix.Tensor2ApparentDiffusion._gen_outfilename,
    Mrtrix.GenerateWhiteMatterMask._list_outputs,
    Mrtrix.GenerateWhiteMatterMask._gen_outfilename,
    Mrtrix.Erode._list_outputs, Mrtrix.Erode._gen_outfilename,
    Mrtrix.Threshold._list_outputs, Mrtrix.Threshold._gen_outfilename,
    Mrtrix.MedianFilter3D._list_outputs,
    Mrtrix.MedianFilter3D._gen_outfilename, Mrtrix.the_in_file.
  rewrite Hout, Hin. repeat split.
- intros f rest Hin.
  unfold Mrtrix.MRMultiply._list_outputs, Mrtrix.MRMultiply._gen_outfilename,
    Mrtrix.MRTransform._list_outputs, Mrtrix.MRTransform._gen_outfilename,
    Mrtrix.first_in_file.
  rewrite Hin. split; reflexivity.
Qed.

Lemma X16_witness :
  Mrtrix.out_filename
    (Mrtrix.Inputs (Some "/data/dwi.mif") ["/data/dwi.mif"] (Some "mask.mif")
       Mrtrix.Emif) = Some "mask.mif"
  /\ Mrtrix.DWI2Tensor._list_outputs "/work"
       (Mrtrix.Inputs (Some "/data/dwi.mif") ["/data/dwi.mif"] (Some "mask.mif")
          Mrtrix.Emif) = Ok "/work/mask.mif"
  /\ Mrtrix.Threshold._list_outputs "/work"
       (Mrtrix.Inputs (Some "/data/dwi.mif") ["/data/dwi.mif"] (Some "mask.mif")
          Mrtrix.Emif) = Ok "/work/dwi_thresh.mif".
Proof.
pose proof (X16_defined_output_name "/work" "mask.mif"
              (Mrtrix.Inputs (Some "/data/dwi.mif") ["/data/dwi.mif"]
                 (Some "mask.mif") Mrtrix.Emif) eq_refl) as (H1 & H2 & _).
destruct H1 as (_ & _ & Hten & _).
destruct (H2 "/data/dwi.mif" eq_refl) as (_ & _ & _ & _ & _ & Hthr & _).
split; [reflexivity|]. split; [exact Hten|exact Hthr].
Defined.

Lemma placed_default (cs : list string) (f suffix : string) :
  forallb simple cs = true ->
  PyStr.contains "/" suffix = false -> 3 <= String.length suffix ->
  PosixPath.abspath (canonical cs) (Mrtrix.name_of f ++ suffix)
  = canonical (cs ++ [Mrtrix.name_of f ++ suffix]).
Proof.
intros Hcs Hs Hl. apply canonical_abspath; [exact Hcs|].
apply simple_app; [apply name_of_free|exact Hs|exact Hl].
Qed.

Lemma extension_suffix_free (e : Mrtrix.extension_t) :
  PyStr.contains "/" ("_mrconvert." ++ Mrtrix.extension_str e) = false
  /\ 3 <= String.length ("_mrconvert." ++ Mrtrix.extension_str e).
Proof.
destruct e; split; try reflexivity; cbn; lia.
Qed.

(** X17. With the output name undefined and a canonical working directory,
    every MRtrix adapter lists a file right below the working directory:
    the directory part of the listed path is the working directory and its
    name part is the name of the (first) input file followed by the
    adapter's suffix. *)
Theorem X17_default_output_in_cwd :
  forall (cs : list string) (f : string) (inp : Mrtrix.inputs),
    forallb simple cs = true ->
    f <> "" ->
    Mrtrix.out_filename inp = None ->
    let placed := fun suffix : string =>
      Ok (canonical (cs ++ [Mrtrix.name_of f ++ suffix])) in
    (Mrtrix.in_file inp = Some f ->
     Mrtrix.DWIDenoise._list_outputs (canonical cs) inp = placed "_denoised.mif"
     /\ Mrtrix.DWIBiasCorrect._list_outputs (canonical cs) inp
        = placed "_biascorr.mif"
     /\ Mrtrix.Tensor2Vector._list_outputs (canonical cs) inp
        = placed "_vector.mif"
     /\ Mrtrix.Tensor2FractionalAnisotropy._list_outputs (canonical cs) inp
        = placed "_FA.mif"
     /\ Mrtrix.Tensor2ApparentDiffusion._list_outputs (canonical cs) inp
        = placed "_ADC.mif"
     /\ Mrtrix.GenerateWhiteMatterMask._list_outputs (canonical cs) inp
        = placed "_WMProb.mif"
     /\ Mrtrix.Erode._list_outputs (canonical cs) inp = placed "_erode.mif"
     /\ Mrtrix.Threshold._list_outputs (canonical cs) inp = placed "_thresh.mif"
     /\ Mrtrix.MedianFilter3D._list_outputs (canonical cs) inp
        = placed "_median3D.mif"
     /\ Mrtrix.MRConvert._list_outputs (canonical cs) inp
        = placed ("_mrconvert." ++ Mrtrix.extension_str (Mrtrix.extension inp)))
    /\ (forall rest : list string,
           Mrtrix.in_files inp = f :: rest ->
           Mrtrix.DWI2Tensor._list_outputs (canonical cs) inp
           = placed "_tensor.mif"
           /\ Mrtrix.MRMultiply._list_outputs (canonical cs) inp
              = placed "_MRMult.mif"
           /\ Mrtrix.MRTransform._list_outputs (canonical cs) inp
              = placed "_MRTransform.mif")
    /\ (forall suffix : string,
           PyStr.contains "/" suffix = false -> 3 <= String.length suffix ->
           PosixPath.split (canonical (cs ++ [Mrtrix.name_of f ++ suffix]))
           = (canonical cs, Mrtrix.name_of f ++ suffix)).
Proof.
intros cs f inp Hcs Hf Hout placed.
assert (P : forall suffix, PyStr.contains "/" suffix = false ->
              3 <= String.length suffix ->
              Ok (PosixPath.abspath (canonical cs) (Mrtrix.name_of f ++ suffix))
              = placed suffix :> result string).
{ intros suffix Hs Hl. unfold placed. f_equal. now apply placed_default. }
split; [|split].
- intros Hin. split; [|split].
  + unfold Mrtrix.DWIDenoise._list_outputs, Mrtrix.DWIDenoise._gen_outfilename.
    rewrite (gen_outfilename_suffixed_default "_denoised" (canonical cs) f inp
               eq_refl (canonical_normpath cs Hcs) Hf eq_refl Hout Hin).
    apply P; [reflexivity|cbn; lia].
  + unfold Mrtrix.DWIBiasCorrect._list_outputs,
      Mrtrix.DWIBiasCorrect._gen_outfilename.
    rewrite (gen_outfilename_suffixed_default "_biascorr" (canonical cs) f inp
               eq_refl (canonical_normpath cs Hcs) Hf eq_refl Hout Hin).
    apply P; [reflexivity|cbn; lia].
  + unfold Mrtrix.Tensor2Vector._list_outputs,
      Mrtrix.Tensor2Vector._gen_outfilename,
      Mrtrix.Tensor2FractionalAnisotropy._list_outputs,
      Mrtrix.Tensor2FractionalAnisotropy._gen_outfilename,
      Mrtrix.Tensor2ApparentDiffusion._list_outputs,
      Mrtrix.Tensor2ApparentDiffusion._gen_outfilename,
      Mrtrix.GenerateWhiteMatterMask._list_outputs,
      Mrtrix.GenerateWhiteMatterMask._gen_outfilename,
      Mrtrix.Erode._list_outputs, Mrtrix.Erode._gen_outfilename,
      Mrtrix.Threshold._list_outputs, Mrtrix.Threshold._gen_outfilename,
      Mrtrix.MedianFilter3D._list_outputs,
      Mrtrix.MedianFilter3D._gen_outfilename,
      Mrtrix.MRConvert._list_outputs, Mrtrix.MRConvert._gen_outfilename,
      Mrtrix.the_in_file.
    rewrite Hout, Hin. cbn [bind].
    destruct (extension_suffix_free (Mrtrix.extension inp)) as [He1 He2].
    repeat split; apply P; try reflexivity; try (cbn; lia); assumption.
- intros rest Hin.
  unfold Mrtrix.DWI2Tensor._list_outputs, Mrtrix.DWI2Tensor._gen_outfilename,
    Mrtrix.MRMultiply._list_outputs, Mrtrix.MRMultiply._gen_outfilename,
    Mrtrix.MRTransform._list_outputs, Mrtrix.MRTransform._gen_outfilename,
    Mrtrix.first_in_file.
  rewrite Hout, Hin. cbn [bind].
  repeat split; apply P; try reflexivity; cbn; lia.
- intros suffix Hs Hl. apply canonical_split; [exact Hcs|].
  apply simple_app; [apply name_of_free|exact Hs|exact Hl].
Qed.

Lemma X17_witness :
  forallb simple ["work"] = true
  /\ "/data/sub1/dwi.mif" <> ""
  /\ Mrtrix.Threshold._list_outputs (canonical ["work"])
       (Mrtrix.Inputs (Some "/data/sub1/dwi.mif") [] None Mrtrix.Emif)
     = Ok "/work/dwi_thresh.mif"
  /\ Mrtrix.DWIDenoise._list_outputs (canonical ["work"])
       (Mrtrix.Inputs (Some "/data/sub1/dwi.mif") [] None Mrtrix.Emif)
     = Ok "/work/dwi_denoised.mif".
Proof.
assert (Hne : "/data/sub1/dwi.mif" <> "") by discriminate.
pose proof (X17_default_output_in_cwd ["work"] "/data/sub1/dwi.mif"
              (Mrtrix.Inputs (Some "/data/sub1/dwi.mif") [] None Mrtrix.Emif)
              eq_refl Hne eq_refl) as (H1 & _).
destruct (H1 eq_refl) as (Hden & _ & _ & _ & _ & _ & _ & Hthr & _).
split; [reflexivity|]. split; [exact Hne|]. split; [exact Hthr|exact Hden].
Defined.

(** ** Further properties: the scraper of [Dcm2nii] *)

Section Dcm2niiInvariant.

Variable cwd : string.
Variable output_dir : option string.

(** An invariant over the number of lines scanned and the state: what has
    to be shown for each way a line can change the state. *)
Variable P : nat -> Dcm2nii.state -> Prop.

Hypothesis P_clear : forall n st, P n st -> P (S n) (Dcm2nii.clear_skip st).
Hypothesis P_file :
  forall n st f, P n st -> Dcm2nii.skip st = false -> PyStr.truthy f = true ->
                 P (S n) (Dcm2nii.add_file st f).
Hypothesis P_reoriented :
  forall n st f, P n st -> Dcm2nii.skip st = false ->
                 P (S n) (Dcm2nii.add_reoriented st f).
Hypothesis P_cropped :
  forall n st p, P n st -> Dcm2nii.skip st = false ->
                 P (S n) (Dcm2nii.add_cropped st (nii_cropped p)).
Hypothesis P_gradients :
  forall n st f, P n st -> Dcm2nii.skip st = false ->
                 Dcm2nii.last_added_file st = Some f ->
                 P n (Dcm2nii.add_gradients st (nii_bvec f) (nii_bval f)).

Lemma nii_classify_invariant (n : nat) (st st1 : Dcm2nii.state)
      (line : string) (file : option string) :
  Dcm2nii.classify cwd output_dir st line = Ok (st1, file) ->
  Dcm2nii.skip st = false -> P n st ->
  P n st1 /\ Dcm2nii.skip st1 = false.
Proof.
unfold Dcm2nii.classify. intros H Hs HP. revert H.
destruct (PyStr.startswith "Saving " line); [now intros [= <- _]|].
destruct (PyStr.startswith "GZip..." line); [now intros [= <- _]|].
destruct (PyStr.startswith "Number of diffusion directions " line).
{ destruct (PyStr.truthy_opt (Dcm2nii.last_added_file st)) as [f|] eqn:E;
    [|now intros [= <- _]].
  assert (Hl : Dcm2nii.last_added_file st = Some f).
  { unfold PyStr.truthy_opt in E.
    destruct (Dcm2nii.last_added_file st) as [g|]; [|discriminate E].
    destruct (PyStr.truthy g); now inversion E. }
  pose proof (P_gradients n st f HP Hs Hl) as HG.
  unfold nii_bvec, nii_bval in HG.
  destruct (Filemanip.split_filename f) as [[base filename] ext].
  intros [= <- _]. split; [exact HG|exact Hs]. }
destruct (Re.search Dcm2nii.re_arrow line).
- destruct (Re.search Dcm2nii.re_arrow_path line); [|discriminate].
  now intros [= <- _].
- now intros [= <- _].
Qed.

Lemma nii_body_invariant (n : nat) (st st' : Dcm2nii.state) (line : string) :
  Dcm2nii.loop_body cwd output_dir st line = Ok st' ->
  P n st -> P (S n) st'.
Proof.
unfold Dcm2nii.loop_body. intros H HP. revert H.
destruct (Dcm2nii.skip st) eqn:Hs; cbn [negb].
{ intros [= <-]. now apply P_clear. }
destruct (Dcm2nii.classify cwd output_dir st line) as [[st1 file]|e] eqn:E;
  cbn [bind]; [|discriminate].
destruct (nii_classify_invariant n st st1 line file E Hs HP) as [HP1 Hs1].
destruct (PyStr.truthy_opt file) as [f|] eqn:Ef.
{ intros [= <-]. apply P_file; [exact HP1|exact Hs1|].
  unfold PyStr.truthy_opt in Ef. destruct file as [g|]; [|discriminate Ef].
  destruct (PyStr.truthy g) eqn:Eg; inversion Ef. now subst. }
destruct (PyStr.startswith "Reorienting as " line).
{ intros [= <-]. now apply P_reoriented. }
destruct (PyStr.startswith "Cropping NIfTI/Analyze image " line).
{ pose proof (P_cropped n st1
                (PyStr.drop (String.length "Cropping NIfTI/Analyze image ") line)
                HP1 Hs1) as HC.
  unfold nii_cropped, PosixPath.dirname, PosixPath.basename in HC.
  destruct (PosixPath.split _) as [base filename].
  intros [= <-]. exact HC. }
intros [= <-]. now apply P_clear.
Qed.

Lemma nii_loop_invariant (lines : list string) (n : nat)
      (st st' : Dcm2nii.state) :
  Dcm2nii.loop cwd output_dir st lines = Ok st' ->
  P n st -> P (n + length lines) st'.
Proof.
revert n st. induction lines as [|l lines IH]; intros n st; cbn [Dcm2nii.loop].
- intros [= <-] HP. now rewrite Nat.add_0_r.
- destruct (Dcm2nii.loop_body cwd output_dir st l) as [st1|e] eqn:E;
    cbn [bind]; [|discriminate].
  intros H HP. cbn [length]. rewrite Nat.add_succ_r.
  apply (IH (S n) st1 H). exact (nii_body_invariant n st st1 l E HP).
Qed.

End Dcm2niiInvariant.

Lemma nii_parse_ok (cwd : string) (od : option string) (stdout : string)
      (out : Dcm2nii.outputs) :
  Dcm2nii._parse_stdout cwd od stdout = Ok out ->
  exists st,
    Dcm2nii.loop cwd od Dcm2nii.init (PyStr.split Re.newline stdout) = Ok st
    /\ out = Dcm2nii.returned st.
Proof.
unfold Dcm2nii._parse_stdout.
destruct (Dcm2nii.loop cwd od Dcm2nii.init _) as [st|e]; cbn [bind];
  [|discriminate].
intros [= <-]. now exists st.
Qed.

Lemma join_truthy_r (a b : string) :
  PyStr.truthy b = true -> PyStr.truthy (PosixPath.join a b) = true.
Proof.
intros Hb. unfold PosixPath.join.
destruct (PyStr.startswith "/" b); [exact Hb|].
destruct (negb (PyStr.truthy a) || PyStr.endswith_char PosixPath.sep a);
  destruct a; try exact Hb; reflexivity.
Qed.

(** X2. In what [Dcm2nii._parse_stdout] returns, the gradient-vector and
    gradient-value lists are built in lockstep: there is one list of
    converted files, each of them among the returned converted files, whose
    [.bvec] names are the gradient vectors and whose [.bval] names are the
    gradient values, in the same order.  So the two lists have the same
    length, and both are empty when no converted file was recorded (a
    ["Number of diffusion directions "] line before any converted file adds
    nothing). *)
Theorem X2_dcm2nii_gradients_in_lockstep :
  forall (cwd : string) (output_dir : option string) (stdout : string)
         (fs rs cs bvs bls : list string),
    Dcm2nii._parse_stdout cwd output_dir stdout = Ok (fs, rs, cs, bvs, bls) ->
    (exists stems : list string,
        bvs = map nii_bvec stems /\ bls = map nii_bval stems /\ incl stems fs)
    /\ length bvs = length bls
    /\ (fs = [] -> bvs = [] /\ bls = []).
Proof.
intros cwd od stdout fs rs cs bvs bls Hret.
apply nii_parse_ok in Hret. destruct Hret as (st & Hrun & E).
injection E as -> -> -> -> ->.
assert (HP : nii_gradients_paired st).
{ apply (nii_loop_invariant cwd od (fun _ => nii_gradients_paired))
    with (n := 0) (st := Dcm2nii.init) (lines := PyStr.split Re.newline stdout);
    try exact Hrun.
  - intros n s [(stems & A & B & C) L]. split; [now exists stems|exact L].
  - intros n s f [(stems & A & B & C) L] _ _. split.
    + exists stems. repeat split; try assumption.
      intros x Hx. apply in_or_app. left. now apply C.
    + cbn. intros g [= <-]. apply in_or_app. right. now left.
  - intros n s f [(stems & A & B & C) L] _. split; [now exists stems|exact L].
  - intros n s p [(stems & A & B & C) L] _. split; [now exists stems|exact L].
  - intros n s f [(stems & A & B & C) L] _ Hl. split; [|exact L].
    exists (stems ++ [f])%list. cbn. rewrite !map_app, A, B.
    repeat split. intros x Hx. apply in_app_or in Hx.
    destruct Hx as [Hx|[<-|[]]]; [now apply C|now apply L].
  - split; [exists []; repeat split; intros x []|discriminate]. }
destruct HP as [(stems & A & B & C) _].
split; [now exists stems|]. split.
- now rewrite A, B, !length_map.
- intros Hf. rewrite Hf in C. destruct stems as [|x stems].
  + now rewrite A, B.
  + destruct (C x (or_introl eq_refl)).
Qed.

Lemma X2_witness :
  Dcm2nii._parse_stdout "/work" None
    ("Number of diffusion directions 6" ++ nl ++ "Saving /d/a.nii" ++ nl
       ++ directions_line)
  = Ok (["/d/a.nii"], [], [], ["/d/a.bvec"], ["/d/a.bval"])
  /\ length ["/d/a.bvec"] = length ["/d/a.bval"].
Proof.
split; [reflexivity|].
exact (proj1 (proj2 (X2_dcm2nii_gradients_in_lockstep "/work" None
         ("Number of diffusion directions 6" ++ nl ++ "Saving /d/a.nii" ++ nl
            ++ directions_line)
         ["/d/a.nii"] [] [] ["/d/a.bvec"] ["/d/a.bval"] eq_refl))).
Defined.

(** X3. The events that [Dcm2nii._parse_stdout] returns fit in the lines of
    stdout: a converted file takes one line, a reoriented or a cropped file
    takes two (its own line and the continuation line that is skipped),
    except that the last line of stdout can be a reorientation or cropping
    line with no continuation.  So the number of converted files plus twice
    the number of reoriented and cropped files is at most the number of
    lines plus one. *)
Theorem X3_dcm2nii_events_fit_lines :
  forall (cwd : string) (output_dir : option string) (stdout : string)
         (fs rs cs bvs bls : list string),
    Dcm2nii._parse_stdout cwd output_dir stdout = Ok (fs, rs, cs, bvs, bls) ->
    length fs + 2 * (length rs + length cs)
    <= length (PyStr.split Re.newline stdout) + 1.
Proof.
intros cwd od stdout fs rs cs bvs bls Hret.
apply nii_parse_ok in Hret. destruct Hret as (st & Hrun & E).
injection E as -> -> -> -> ->.
assert (HP : (fun n s => nii_events s
                         <= n + (if Dcm2nii.skip s then 1 else 0))
               (0 + length (PyStr.split Re.newline stdout)) st).
{ apply (nii_loop_invariant cwd od
           (fun n s => nii_events s <= n + (if Dcm2nii.skip s then 1 else 0)))
    with (st := Dcm2nii.init); try exact Hrun.
  - intros n s H. unfold nii_events in *. cbn. destruct (Dcm2nii.skip s); lia.
  - intros n s f H Hs _. unfold nii_events in *. cbn. rewrite Hs in *.
    rewrite length_app. cbn. lia.
  - intros n s f H Hs. unfold nii_events in *. cbn. rewrite Hs in *.
    rewrite length_app. cbn. lia.
  - intros n s p H Hs. unfold nii_events in *. cbn. rewrite Hs in *.
    rewrite length_app. cbn. lia.
  - intros n s f H Hs _. exact H.
  - cbn. lia. }
cbn beta in HP. unfold nii_events in HP. cbn [Nat.add] in HP.
destruct (Dcm2nii.skip st); lia.
Qed.

Lemma X3_witness :
  Dcm2nii._parse_stdout "/work" None
    ("Saving /d/a.nii" ++ nl ++ "Reorienting as /d/oa.nii" ++ nl
       ++ "Cropping NIfTI/Analyze image /d/oa.nii" ++ nl
       ++ "Cropping NIfTI/Analyze image /d/oa.nii")
  = Ok (["/d/a.nii"], ["/d/oa.nii"], ["/d/coa.nii"], [], [])
  /\ 1 + 2 * (1 + 1)
     <= length (PyStr.split Re.newline
                  ("Saving /d/a.nii" ++ nl ++ "Reorienting as /d/oa.nii" ++ nl
                     ++ "Cropping NIfTI/Analyze image /d/oa.nii" ++ nl
                     ++ "Cropping NIfTI/Analyze image /d/oa.nii")) + 1.
Proof.
split; [reflexivity|].
exact (X3_dcm2nii_events_fit_lines "/work" None
         ("Saving /d/a.nii" ++ nl ++ "Reorienting as /d/oa.nii" ++ nl
            ++ "Cropping NIfTI/Analyze image /d/oa.nii" ++ nl
            ++ "Cropping NIfTI/Analyze image /d/oa.nii")
         ["/d/a.nii"] ["/d/oa.nii"] ["/d/coa.nii"] [] [] eq_refl).
Defined.

(** X4. No converted file and no cropped file that [Dcm2nii._parse_stdout]
    returns is the empty string: a line that would give an empty file name
    (such as ["Saving "] with nothing after it) records nothing. *)
Theorem X4_dcm2nii_no_empty_file :
  forall (cwd : string) (output_dir : option string) (stdout : string)
         (fs rs cs bvs bls : list string),
    Dcm2nii._parse_stdout cwd output_dir stdout = Ok (fs, rs, cs, bvs, bls) ->
    ~ In "" fs /\ ~ In "" cs.
Proof.
intros cwd od stdout fs rs cs bvs bls Hret.
apply nii_parse_ok in Hret. destruct Hret as (st & Hrun & E).
injection E as -> -> -> -> ->.
assert (HP : nii_nonempty st).
{ apply (nii_loop_invariant cwd od (fun _ => nii_nonempty))
    with (n := 0) (st := Dcm2nii.init) (lines := PyStr.split Re.newline stdout);
    try exact Hrun.
  - intros n s H. exact H.
  - intros n s f [A B] _ Hf. split; [|exact B].
    cbn [Dcm2nii.files Dcm2nii.add_file]. apply Forall_app.
    split; [exact A|]. now constructor.
  - intros n s f H _. exact H.
  - intros n s p [A B] _. split; [exact A|].
    cbn [Dcm2nii.reoriented_and_cropped_files Dcm2nii.add_cropped].
    apply Forall_app. split; [exact B|]. constructor; [|constructor].
    unfold nii_cropped. now apply join_truthy_r.
  - intros n s f H _ _. exact H.
  - split; constructor. }
destruct HP as [A B]. rewrite Forall_forall in A, B.
split; intros Hin; [apply A in Hin|apply B in Hin]; discriminate Hin.
Qed.

Lemma X4_witness :
  Dcm2nii._parse_stdout "/work" None ("Saving " ++ nl ++ "Saving /d/a.nii")
  = Ok (["/d/a.nii"], [], [], [], [])
  /\ ~ In "" ["/d/a.nii"].
Proof.
split; [reflexivity|].
exact (proj1 (X4_dcm2nii_no_empty_file "/work" None
                ("Saving " ++ nl ++ "Saving /d/a.nii")
                ["/d/a.nii"] [] [] [] [] eq_refl)).
Defined.

Lemma nii_body_raises (cwd : string) (od : option string)
      (st : Dcm2nii.state) (line : string) (e : exn) :
  Dcm2nii.loop_body cwd od st line = Raise e ->
  e = AttributeError /\ arrow_without_blank line = true.
Proof.
unfold Dcm2nii.loop_body, Dcm2nii.classify, arrow_without_blank.
destruct (negb (Dcm2nii.skip st)); [|discriminate].
destruct (PyStr.startswith "Saving " line).
{ cbn [bind]. destruct (PyStr.truthy_opt _); [discriminate|].
  destruct (PyStr.startswith "Reorienting as " line); [discriminate|].
  destruct (PyStr.startswith "Cropping NIfTI/Analyze image " line);
    [destruct (PosixPath.split _)|]; discriminate. }
destruct (PyStr.startswith "GZip..." line).
{ cbn [bind]. destruct (PyStr.truthy_opt _); [discriminate|].
  destruct (PyStr.startswith "Reorienting as " line); [discriminate|].
  destruct (PyStr.startswith "Cropping NIfTI/Analyze image " line);
    [destruct (PosixPath.split _)|]; discriminate. }
destruct (PyStr.startswith "Number of diffusion directions " line).
{ destruct (PyStr.truthy_opt (Dcm2nii.last_added_file st));
    [destruct (Filemanip.split_filename _) as [[? ?] ?]|];
    cbn [bind PyStr.truthy_opt];
    (destruct (PyStr.startswith "Reorienting as " line); [discriminate|]);
    (destruct (PyStr.startswith "Cropping NIfTI/Analyze image " line);
     [destruct (PosixPath.split _)|]); discriminate. }
destruct (Re.search Dcm2nii.re_arrow line) eqn:Ea.
- destruct (Re.search Dcm2nii.re_arrow_path line) eqn:Ep.
  + cbn [bind]. destruct (PyStr.truthy_opt _); [discriminate|].
    destruct (PyStr.startswith "Reorienting as " line); [discriminate|].
    destruct (PyStr.startswith "Cropping NIfTI/Analyze image " line);
      [destruct (PosixPath.split _)|]; discriminate.
  + cbn [bind]. intros [= <-]. split; [reflexivity|].
    apply search_arrow_path_none in Ep. rewrite Ep.
    destruct (PyStr.contains "-->" line) eqn:Ec; [reflexivity|].
    apply search_arrow_none in Ec. congruence.
- cbn [bind PyStr.truthy_opt].
  destruct (PyStr.startswith "Reorienting as " line); [discriminate|].
  destruct (PyStr.startswith "Cropping NIfTI/Analyze image " line);
    [destruct (PosixPath.split _)|]; discriminate.
Qed.

Lemma nii_loop_raises (cwd : string) (od : option string)
      (lines : list string) (st : Dcm2nii.state) (e : exn) :
  Dcm2nii.loop cwd od st lines = Raise e ->
  e = AttributeError
  /\ exists line, In line lines /\ arrow_without_blank line = true.
Proof.
revert st. induction lines as [|l lines IH]; intros st; cbn [Dcm2nii.loop];
  [discriminate|].
destruct (Dcm2nii.loop_body cwd od st l) as [st1|e1] eqn:E; cbn [bind].
- intros H. destruct (IH st1 H) as (He & line & Hin & Hb).
  split; [exact He|]. exists line. split; [now right|exact Hb].
- intros [= <-]. destruct (nii_body_raises cwd od st l e1 E) as [He Hb].
  split; [exact He|]. exists l. split; [now left|exact Hb].
Qed.

(** X1. [Dcm2nii._parse_stdout] raises nothing but [AttributeError], and
    only when some line of stdout contains [-->] without containing [-->]
    followed by a blank.  On a stdout without such a line it returns. *)
Theorem X1_dcm2nii_raises_only_on_arrow_line :
  forall (cwd : string) (output_dir : option string) (stdout : string),
    (forall e : exn,
        Dcm2nii._parse_stdout cwd output_dir stdout = Raise e ->
        e = AttributeError
        /\ exists line,
             In line (PyStr.split Re.newline stdout)
             /\ PyStr.contains "-->" line = true
             /\ PyStr.contains "--> " line = false)
    /\ (forallb (fun l => negb (arrow_without_blank l))
          (PyStr.split Re.newline stdout) = true ->
        exists out, Dcm2nii._parse_stdout cwd output_dir stdout = Ok out).
Proof.
intros cwd od stdout.
assert (H1 : forall e, Dcm2nii._parse_stdout cwd od stdout = Raise e ->
             e = AttributeError
             /\ exists line, In line (PyStr.split Re.newline stdout)
                             /\ arrow_without_blank line = true).
{ intros e. unfold Dcm2nii._parse_stdout.
  destruct (Dcm2nii.loop cwd od Dcm2nii.init _) as [st|e1] eqn:E; cbn [bind];
    [discriminate|].
  intros [= <-]. exact (nii_loop_raises cwd od _ _ _ E). }
split.
- intros e He. destruct (H1 e He) as (Hx & line & Hin & Hb).
  split; [exact Hx|]. exists line. split; [exact Hin|].
  unfold arrow_without_blank in Hb. apply andb_true_iff in Hb.
  destruct Hb as [Ha Hb]. apply negb_true_iff in Hb. now split.
- intros Hall.
  destruct (Dcm2nii._parse_stdout cwd od stdout) as [out|e] eqn:E;
    [now exists out|].
  destruct (H1 e eq_refl) as (_ & line & Hin & Hb).
  rewrite forallb_forall in Hall. specialize (Hall line Hin).
  rewrite Hb in Hall. discriminate Hall.
Qed.

Lemma X1_witness :
  forallb (fun l => negb (arrow_without_blank l))
    (PyStr.split Re.newline ("/d/a.dcm --> /d/a.nii" ++ nl ++ "x->y")) = true
  /\ exists out,
       Dcm2nii._parse_stdout "/work" None
         ("/d/a.dcm --> /d/a.nii" ++ nl ++ "x->y") = Ok out.
Proof.
split; [reflexivity|].
exact (proj2 (X1_dcm2nii_raises_only_on_arrow_line "/work" None
                ("/d/a.dcm --> /d/a.nii" ++ nl ++ "x->y")) eq_refl).
Defined.

(** X5. A line ["Cropping NIfTI/Analyze image <path>"] without any arrow,
    met with the skip flag clear, records the sibling of [<path>] whose
    name has a [c] in front: the recorded path splits into the directory of
    [<path>] and ["c"] followed by the name of [<path>]; and it sets the
    skip flag. *)
Theorem X5_dcm2nii_cropped_sibling :
  forall (cwd : string) (output_dir : option string)
         (st : Dcm2nii.state) (p : string),
    Dcm2nii.skip st = false ->
    PyStr.contains "-->" p = false ->
    Dcm2nii.loop_body cwd output_dir st ("Cropping NIfTI/Analyze image " ++ p)
    = Ok (Dcm2nii.add_cropped st (nii_cropped p))
    /\ PosixPath.split (nii_cropped p)
       = (PosixPath.dirname p, "c" ++ PosixPath.basename p).
Proof.
intros cwd od st p Hs Hp. split.
- set (line := "Cropping NIfTI/Analyze image " ++ p).
  assert (H1 : PyStr.startswith "Saving " line = false) by reflexivity.
  assert (H2 : PyStr.startswith "GZip..." line = false) by reflexivity.
  assert (H3 : PyStr.startswith "Number of diffusion directions " line = false)
    by reflexivity.
  assert (H4 : PyStr.startswith "Reorienting as " line = false) by reflexivity.
  assert (H5 : PyStr.startswith "Cropping NIfTI/Analyze image " line = true)
    by reflexivity.
  assert (H6 : Re.search Dcm2nii.re_arrow line = None).
  { apply search_arrow_none. exact Hp. }
  assert (H7 : PyStr.drop (String.length "Cropping NIfTI/Analyze image ") line
               = p) by reflexivity.
  unfold Dcm2nii.loop_body, Dcm2nii.classify.
  rewrite Hs, H1, H2, H3, H4, H5, H6, H7. cbn [negb bind PyStr.truthy_opt].
  unfold nii_cropped, PosixPath.dirname, PosixPath.basename.
  now destruct (PosixPath.split p).
- unfold nii_cropped. destruct (split_shape p) as [Hd Hb].
  apply split_join; [exact Hd|].
  change ("c" ++ PosixPath.basename p) with (String "c" (PosixPath.basename p)).
  rewrite contains1_cons. now rewrite Hb.
Qed.

Lemma X5_witness :
  Dcm2nii.skip Dcm2nii.init = false
  /\ PyStr.contains "-->" "/d/sub/oimg.nii" = false
  /\ Dcm2nii.loop_body "/work" None Dcm2nii.init
       ("Cropping NIfTI/Analyze image " ++ "/d/sub/oimg.nii")
     = Ok (Dcm2nii.add_cropped Dcm2nii.init "/d/sub/coimg.nii")
  /\ PosixPath.split (nii_cropped "/d/sub/oimg.nii")
     = ("/d/sub", "coimg.nii").
Proof.
split; [reflexivity|]. split; [reflexivity|].
exact (X5_dcm2nii_cropped_sibling "/work" None Dcm2nii.init "/d/sub/oimg.nii"
         eq_refl eq_refl).
Defined.

(** ** Further properties: what the patterns extract *)

Lemma shift_shiftn (n : nat) (m : Re.hit) :
  Re.shift (shiftn n m) = shiftn (S n) m.
Proof.
unfold Re.shift, shiftn. cbn [fst snd]. now rewrite map_map.
Qed.

Lemma shiftn_0 (m : Re.hit) : shiftn 0 m = m.
Proof.
destruct m as [a l]. unfold shiftn. cbn [fst snd Nat.add]. f_equal.
induction l as [|x l IH]; [reflexivity|cbn [map]; now rewrite IH].
Qed.

(** literal text in front of a pattern consumes itself *)
Lemma match_here_lit_some (p : string) (r : Re.regex) (s : string) (m : Re.hit) :
  Re.match_here r s = Some m ->
  Re.match_here (Re.lit p ++ r)%list (p ++ s)
  = Some (shiftn (String.length p) m).
Proof.
intros H. induction p as [|a p IH].
- cbn [Re.lit list_ascii_of_string map app append String.length].
  now rewrite shiftn_0.
- change (Re.lit (String a p) ++ r)%list
    with (Re.One (Re.Chr a) :: (Re.lit p ++ r)%list).
  cbn [append Re.match_here Re.atom_matches]. rewrite Ascii.eqb_refl, IH.
  cbn [option_map String.length]. now rewrite shift_shiftn.
Qed.

(** the group of any characters takes a whole line *)
Lemma group_any_whole (f : string) :
  PyStr.contains (String Re.newline "") f = false ->
  Re.match_here [Re.GroupOpen; Re.Star Re.Dot; Re.GroupClose] f
  = Some (String.length f, [0; String.length f]).
Proof.
intros Hf. cbn [Re.match_here].
assert (H : Re.star_greedy Re.Dot (fun s => option_map Re.mark (Some (0, [])))
              f = Some (String.length f, [String.length f])).
{ induction f as [|c f IH]; [reflexivity|].
  rewrite contains1_cons in Hf. apply orb_false_iff in Hf.
  destruct Hf as [Hc Hf]. cbn [Re.star_greedy Re.atom_matches].
  rewrite (Ascii.eqb_sym c Re.newline), Hc. cbn [negb]. now rewrite (IH Hf). }
change (Re.match_here [Re.GroupClose])
  with (fun s : string => option_map Re.mark (Re.match_here [] s)).
cbn [Re.match_here]. now rewrite H.
Qed.

(** a greedy [.*] in front of a line without newline keeps the match that
    the rest of the pattern has after any prefix *)
Lemma star_dot_prefix (k : string -> option Re.hit) (pre s : string) (m : Re.hit) :
  PyStr.contains (String Re.newline "") pre = false ->
  Re.star_greedy Re.Dot k s = Some m ->
  Re.star_greedy Re.Dot k (pre ++ s) = Some (shiftn (String.length pre) m).
Proof.
intros Hp Hs. induction pre as [|c pre IH].
- now rewrite shiftn_0.
- rewrite contains1_cons in Hp. apply orb_false_iff in Hp.
  destruct Hp as [Hc Hp]. cbn [append Re.star_greedy Re.atom_matches].
  rewrite (Ascii.eqb_sym c Re.newline), Hc. cbn [negb].
  rewrite (IH Hp). cbn [String.length]. now rewrite shift_shiftn.
Qed.

Lemma contains_after (sub pre s : string) :
  PyStr.startswith sub s = true -> PyStr.contains sub (pre ++ s) = true.
Proof.
intros H. induction pre as [|c pre IH].
- destruct s; cbn [append PyStr.contains]; now rewrite H.
- cbn [append PyStr.contains]. rewrite IH. apply orb_true_r.
Qed.

(** What the extraction pattern captures: the text after the last arrow. *)
Lemma search_arrow_path_last (pre f : string) :
  PyStr.contains (String Re.newline "") pre = false ->
  PyStr.contains (String Re.newline "") f = false ->
  PyStr.contains "--> " ("-> " ++ f) = false ->
  option_map Re.group1 (Re.search Dcm2nii.re_arrow_path (pre ++ "--> " ++ f))
  = Some f.
Proof.
intros Hpre Hf Hlast.
set (k := Re.match_here
            (Re.lit "--> "
               ++ [Re.GroupOpen; Re.Star Re.Dot; Re.GroupClose])%list).
assert (Hk : k ("--> " ++ f)
             = Some (shiftn 4 (String.length f, [0; String.length f]))).
{ unfold k. exact (match_here_lit_some "--> " _ f _ (group_any_whole f Hf)). }
assert (Htail : Re.star_greedy Re.Dot k ("-> " ++ f) = None).
{ apply star_greedy_all_none. intros n. unfold k. apply match_here_lit. left.
  revert n. now apply contains_false_drop. }
assert (Hs0 : Re.star_greedy Re.Dot k ("--> " ++ f)
              = Some (shiftn 4 (String.length f, [0; String.length f]))).
{ change ("--> " ++ f) with (String "-" ("-> " ++ f)).
  cbn [Re.star_greedy Re.atom_matches]. rewrite Htail.
  change (String "-" ("-> " ++ f)) with ("--> " ++ f). rewrite Hk.
  reflexivity. }
pose proof (star_dot_prefix k pre ("--> " ++ f) _ Hpre Hs0) as Hall.
assert (Hm : Re.match_here Dcm2nii.re_arrow_path (pre ++ "--> " ++ f)
             = Some (shiftn (String.length pre)
                       (shiftn 4 (String.length f, [0; String.length f]))))
  by exact Hall.
unfold Re.search.
assert (Hsf : Re.search_from Dcm2nii.re_arrow_path (pre ++ "--> " ++ f)
              = Some (0, shiftn (String.length pre)
                           (shiftn 4 (String.length f, [0; String.length f])))).
{ destruct (pre ++ "--> " ++ f); cbn [Re.search_from]; now rewrite Hm. }
rewrite Hsf. cbn [option_map]. f_equal.
unfold Re.group1, shiftn.
cbn [Re.m_hit Re.m_start Re.m_string fst snd map Nat.add].
replace (String.length pre + S (S (S (S (String.length f))))
         - (String.length pre + 4)) with (String.length f) by lia.
replace (String.length pre + 4) with (String.length (pre ++ "--> "))
  by (rewrite length_append; reflexivity).
rewrite <- append_assoc, drop_app_length.
rewrite <- (append_nil_r f) at 2. apply take_app_length.
Qed.

(** X7. An arrow line records the text after its last arrow: a line without
    newline that is classified by the arrow branch (the skip flag is clear,
    it starts with none of ["Saving "], ["GZip..."],
    ["Number of diffusion directions "]) and whose last [-->] with a blank
    after it is followed by a non-empty text records exactly that text as
    a converted file, whatever precedes the arrow. *)
Theorem X7_dcm2nii_arrow_records_last_target :
  forall (cwd : string) (output_dir : option string) (st : Dcm2nii.state)
         (pre f : string),
    Dcm2nii.skip st = false ->
    PyStr.contains nl pre = false ->
    PyStr.contains nl f = false ->
    PyStr.contains "--> " ("-> " ++ f) = false ->
    PyStr.startswith "Saving " (pre ++ "--> " ++ f) = false ->
    PyStr.startswith "GZip..." (pre ++ "--> " ++ f) = false ->
    PyStr.startswith "Number of diffusion directions " (pre ++ "--> " ++ f)
    = false ->
    PyStr.truthy f = true ->
    Dcm2nii.loop_body cwd output_dir st (pre ++ "--> " ++ f)
    = Ok (Dcm2nii.add_file st f).
Proof.
intros cwd od st pre f Hs Hpre Hf Hlast H1 H2 H3 Ht.
pose proof (search_arrow_path_last pre f Hpre Hf Hlast) as Hg.
assert (Ha : Re.search Dcm2nii.re_arrow (pre ++ "--> " ++ f) <> None).
{ intros Hn. apply search_arrow_none in Hn.
  rewrite (contains_after "-->" pre ("--> " ++ f) eq_refl) in Hn.
  discriminate Hn. }
unfold Dcm2nii.loop_body, Dcm2nii.classify. rewrite Hs, H1, H2, H3.
cbn [negb].
destruct (Re.search Dcm2nii.re_arrow (pre ++ "--> " ++ f)); [|congruence].
destruct (Re.search Dcm2nii.re_arrow_path (pre ++ "--> " ++ f)) as [m2|];
  [|discriminate Hg].
cbn [option_map] in Hg. injection Hg as Hg. rewrite Hg.
cbn [bind PyStr.truthy_opt]. now rewrite Ht.
Qed.

Lemma X7_witness :
  PyStr.contains "--> " ("-> " ++ "/d/out/b.nii") = false
  /\ Dcm2nii.loop_body "/work" None Dcm2nii.init
       ("a --> /d/a.nii" ++ "--> " ++ "/d/out/b.nii")
     = Ok (Dcm2nii.add_file Dcm2nii.init "/d/out/b.nii").
Proof.
split; [reflexivity|].
exact (X7_dcm2nii_arrow_records_last_target "/work" None Dcm2nii.init
         "a --> /d/a.nii" "/d/out/b.nii"
         eq_refl eq_refl eq_refl eq_refl eq_refl eq_refl eq_refl eq_refl).
Defined.

(** ** Further properties: the scraper of [Dcm2niix] *)

Section Dcm2niixInvariant.

Variable cwd : string.
Variable inp : Dcm2niix.inputs.
Variable P : Dcm2niix.state -> Prop.

Hypothesis P_converted :
  forall st fname, P st -> Dcm2niix.skip st = false ->
                   P (niix_converted cwd inp st fname).
Hypothesis P_pending : forall st, P st -> P (Dcm2niix.set_find_b st true).

Lemma niix_run_invariant (lines : list string) (st st' : Dcm2niix.state) :
  Dcm2niix.skip st = false -> P st ->
  Dcm2niix.loop cwd inp st lines = Ok st' -> P st'.
Proof.
revert st. induction lines as [|l lines IH]; intros st Hs HP;
  cbn [Dcm2niix.loop].
- now intros [= <-].
- destruct (Dcm2niix.loop_body cwd inp st l) as [st1|e] eqn:E; cbn [bind];
    [|discriminate].
  apply IH; [exact (niix_body_skip cwd inp st st1 l Hs E)|].
  revert E. destruct (PyStr.startswith "Convert " l) eqn:Hc.
  + destruct (Re.search Dcm2niix.re_path l) as [m|] eqn:Hm.
    * rewrite (niix_convert_line cwd inp st l m Hs Hc Hm). intros [= <-].
      now apply P_converted.
    * now rewrite (niix_convert_raises cwd inp st l Hs Hc Hm).
  + rewrite (niix_other_line cwd inp st l Hs Hc). intros [= <-].
    destruct (gradient_marker l); [now apply P_pending|exact HP].
Qed.

End Dcm2niixInvariant.

Lemma niix_converted_fields (cwd : string) (inp : Dcm2niix.inputs)
      (st : Dcm2niix.state) (fname : string) :
  let o := resolved cwd inp fname in
  let st2 := niix_converted cwd inp st fname in
  Dcm2niix.files st2
  = (Dcm2niix.files st ++ [(o ++ nii_ext (Dcm2niix.compress inp))%string])%list
  /\ Dcm2niix.bids st2
     = (Dcm2niix.bids st
          ++ (if Dcm2niix.bids_format inp then [(o ++ ".json")%string] else []))%list
  /\ Dcm2niix.bvecs st2
     = (Dcm2niix.bvecs st
          ++ (if Dcm2niix.find_b st then [(o ++ ".bvec")%string] else []))%list
  /\ Dcm2niix.bvals st2
     = (Dcm2niix.bvals st
          ++ (if Dcm2niix.find_b st then [(o ++ ".bval")%string] else []))%list.
Proof.
unfold niix_converted. cbv zeta.
destruct (Dcm2niix.find_b st), (Dcm2niix.bids_format inp);
  cbn [Dcm2niix.files Dcm2niix.bvecs Dcm2niix.bvals Dcm2niix.bids
       Dcm2niix.add_bids Dcm2niix.add_file Dcm2niix.add_gradients];
  rewrite ?app_nil_r; repeat split.
Qed.

Lemma niix_run_counts (cwd : string) (inp : Dcm2niix.inputs)
      (lines : list string) (st st' : Dcm2niix.state) :
  Dcm2niix.skip st = false ->
  Dcm2niix.loop cwd inp st lines = Ok st' ->
  length (Dcm2niix.files st')
  = length (Dcm2niix.files st) + count_convert lines
  /\ length (Dcm2niix.bids st')
     = length (Dcm2niix.bids st)
       + (if Dcm2niix.bids_format inp then count_convert lines else 0).
Proof.
revert st. induction lines as [|l lines IH]; intros st Hs;
  cbn [Dcm2niix.loop].
- intros [= <-]. unfold count_convert. cbn.
  destruct (Dcm2niix.bids_format inp); lia.
- destruct (Dcm2niix.loop_body cwd inp st l) as [st1|e] eqn:E; cbn [bind];
    [|discriminate].
  intros H.
  destruct (IH st1 (niix_body_skip cwd inp st st1 l Hs E) H) as [IH1 IH2].
  unfold count_convert in *. cbn [filter]. revert E.
  destruct (PyStr.startswith "Convert " l) eqn:Hc.
  + destruct (Re.search Dcm2niix.re_path l) as [m|] eqn:Hm.
    * rewrite (niix_convert_line cwd inp st l m Hs Hc Hm). intros [= <-].
      destruct (niix_converted_fields cwd inp st (Re.group0 m))
        as (Ef & Eb & _).
      rewrite Ef in IH1. rewrite Eb in IH2. rewrite length_app in IH1, IH2.
      cbn [length] in *. destruct (Dcm2niix.bids_format inp);
        cbn [length] in *; lia.
    * now rewrite (niix_convert_raises cwd inp st l Hs Hc Hm).
  + rewrite (niix_other_line cwd inp st l Hs Hc). intros [= <-].
    destruct (gradient_marker l); [destruct st|]; cbn in *; lia.
Qed.

(** X8. When [Dcm2niix._parse_stdout] returns, it has recorded exactly one
    converted file per line that starts with ["Convert "], in any position,
    and one sidecar per such line when BIDS sidecars are on (none
    otherwise). *)
Theorem X8_dcm2niix_one_file_per_convert_line :
  forall (cwd : string) (inp : Dcm2niix.inputs) (stdout : string)
         (out : Dcm2niix.outputs),
    Dcm2niix._parse_stdout cwd inp stdout = Ok out ->
    length (out_files out) = count_convert (PyStr.split Re.newline stdout)
    /\ length (out_bids out)
       = (if Dcm2niix.bids_format inp
          then count_convert (PyStr.split Re.newline stdout) else 0).
Proof.
intros cwd inp stdout out Hret.
apply niix_parse_ok in Hret. destruct Hret as (st & Hrun & ->).
destruct (returned_lists st) as (-> & _ & _ & ->).
exact (niix_run_counts cwd inp _ Dcm2niix.init st eq_refl Hrun).
Qed.

Lemma X8_witness :
  Dcm2niix._parse_stdout "/work" (Dcm2niix.Inputs None Dcm2niix.Ci true)
    ("Convert 2 DICOM as a/b" ++ nl ++ "note" ++ nl ++ "Convert 3 DICOM as a/c")
  = Ok (Dcm2niix.Tuple4 ["/work/a/b.nii.gz"; "/work/a/c.nii.gz"] [] []
          ["/work/a/b.json"; "/work/a/c.json"])
  /\ length ["/work/a/b.nii.gz"; "/work/a/c.nii.gz"]
     = count_convert
         (PyStr.split Re.newline
            ("Convert 2 DICOM as a/b" ++ nl ++ "note" ++ nl
               ++ "Convert 3 DICOM as a/c")).
Proof.
split; [reflexivity|].
exact (proj1 (X8_dcm2niix_one_file_per_convert_line "/work"
                (Dcm2niix.Inputs None Dcm2niix.Ci true)
                ("Convert 2 DICOM as a/b" ++ nl ++ "note" ++ nl
                   ++ "Convert 3 DICOM as a/c")
                (Dcm2niix.Tuple4 ["/work/a/b.nii.gz"; "/work/a/c.nii.gz"] [] []
                   ["/work/a/b.json"; "/work/a/c.json"]) eq_refl)).
Defined.

(** X9. In what [Dcm2niix._parse_stdout] returns, the gradient lists are in
    lockstep and tied to converted files: there is one list of resolved
    names whose [.bvec] paths are the gradient vectors and whose [.bval]
    paths are the gradient values, in the same order, and each of these
    names has its converted file in the returned files.  So there are as
    many gradient vectors as gradient values and no more than converted
    files. *)
Theorem X9_dcm2niix_gradients_follow_files :
  forall (cwd : string) (inp : Dcm2niix.inputs) (stdout : string)
         (out : Dcm2niix.outputs),
    Dcm2niix._parse_stdout cwd inp stdout = Ok out ->
    (exists stems : list string,
        out_bvecs out = map (fun o => o ++ ".bvec") stems
        /\ out_bvals out = map (fun o => o ++ ".bval") stems
        /\ forall o, In o stems ->
                     In (o ++ nii_ext (Dcm2niix.compress inp)) (out_files out))
    /\ length (out_bvecs out) = length (out_bvals out)
    /\ length (out_bvecs out) <= length (out_files out).
Proof.
intros cwd inp stdout out Hret.
apply niix_parse_ok in Hret. destruct Hret as (st & Hrun & ->).
destruct (returned_lists st) as (-> & -> & -> & _).
assert (HP : niix_gradients_paired inp st
             /\ length (Dcm2niix.bvecs st) <= length (Dcm2niix.files st)).
{ apply (niix_run_invariant cwd inp
           (fun s => niix_gradients_paired inp s
                     /\ length (Dcm2niix.bvecs s) <= length (Dcm2niix.files s)))
    with (lines := PyStr.split Re.newline stdout) (st := Dcm2niix.init);
    try exact Hrun; try reflexivity.
  - intros s fname [(stems & A & B & C) L] _.
    destruct (niix_converted_fields cwd inp s fname) as (Ef & _ & Ev & El).
    cbv zeta in Ef, Ev, El. split.
    + destruct (Dcm2niix.find_b s).
      * exists (stems ++ [resolved cwd inp fname])%list.
        rewrite Ev, El, Ef, A, B, !map_app. cbn [map]. repeat split.
        intros o Ho. apply in_app_or in Ho. apply in_or_app.
        destruct Ho as [Ho|[<-|[]]]; [left; now apply C|right; now left].
      * exists stems. rewrite Ev, El, Ef, !app_nil_r. repeat split; trivial.
        intros o Ho. apply in_or_app. left. now apply C.
    + rewrite Ev, Ef, !length_app. destruct (Dcm2niix.find_b s); cbn; lia.
  - intros s [(stems & A & B & C) L]. split; [now exists stems|exact L].
  - split; [exists []; repeat split; intros o []|cbn; lia]. }
destruct HP as [(stems & A & B & C) L].
split; [now exists stems|]. split; [|exact L].
now rewrite A, B, !length_map.
Qed.

Lemma X9_witness :
  Dcm2niix._parse_stdout "/work" (Dcm2niix.Inputs None Dcm2niix.Cn false)
    ("Convert a/t1" ++ nl ++ "DTI gradients" ++ nl ++ "Convert a/dwi")
  = Ok (Dcm2niix.Tuple3 ["/work/a/t1.nii"; "/work/a/dwi.nii"]
          ["/work/a/dwi.bvec"] ["/work/a/dwi.bval"])
  /\ length ["/work/a/dwi.bvec"] <= length ["/work/a/t1.nii"; "/work/a/dwi.nii"].
Proof.
split; [reflexivity|].
exact (proj2 (proj2 (X9_dcm2niix_gradients_follow_files "/work"
                (Dcm2niix.Inputs None Dcm2niix.Cn false)
                ("Convert a/t1" ++ nl ++ "DTI gradients" ++ nl ++ "Convert a/dwi")
                (Dcm2niix.Tuple3 ["/work/a/t1.nii"; "/work/a/dwi.nii"]
                   ["/work/a/dwi.bvec"] ["/work/a/dwi.bval"]) eq_refl))).
Defined.

Lemma isabs_append (o e : string) :
  PosixPath.isabs o = true -> PosixPath.isabs (o ++ e) = true.
Proof.
unfold PosixPath.isabs. destruct o as [|c o]; [discriminate|].
cbn [append PyStr.startswith]. auto.
Qed.

(** X10. With an absolute working directory, every path that
    [Dcm2niix._parse_stdout] returns is absolute: the converted files, the
    gradient files and the sidecars, whether the output directory is
    defined, relative, or undefined. *)
Theorem X10_dcm2niix_paths_absolute :
  forall (cwd : string) (inp : Dcm2niix.inputs) (stdout : string)
         (out : Dcm2niix.outputs),
    PosixPath.isabs cwd = true ->
    Dcm2niix._parse_stdout cwd inp stdout = Ok out ->
    forall p,
      In p (out_files out ++ out_bvecs out ++ out_bvals out ++ out_bids out)%list ->
      PosixPath.isabs p = true.
Proof.
intros cwd inp stdout out Hcwd Hret.
apply niix_parse_ok in Hret. destruct Hret as (st & Hrun & ->).
destruct (returned_lists st) as (-> & -> & -> & ->).
assert (HP : niix_absolute st).
{ apply (niix_run_invariant cwd inp niix_absolute)
    with (lines := PyStr.split Re.newline stdout) (st := Dcm2niix.init);
    try exact Hrun; try reflexivity.
  - intros s fname HP _. unfold niix_absolute in *.
    destruct (niix_converted_fields cwd inp s fname) as (Ef & Eb & Ev & El).
    cbv zeta in Ef, Eb, Ev, El. rewrite Ef, Eb, Ev, El.
    rewrite !Forall_app in *. destruct HP as (A & B & C & D).
    assert (Ho : forall e, PosixPath.isabs (resolved cwd inp fname ++ e) = true).
    { intros e. apply isabs_append. unfold resolved.
      now apply abspath_isabs. }
    repeat split; try assumption;
      try (destruct (Dcm2niix.find_b s));
      try (destruct (Dcm2niix.bids_format inp));
      repeat constructor; apply Ho.
  - intros s HP. exact HP.
  - constructor. }
intros p Hp. unfold niix_absolute in HP. rewrite Forall_forall in HP.
now apply HP.
Qed.

Lemma X10_witness :
  PosixPath.isabs "/work" = true
  /\ Dcm2niix._parse_stdout "/work"
       (Dcm2niix.Inputs (Some "out/../nii") Dcm2niix.Ci true)
       ("DTI gradients" ++ nl ++ "Convert a/dwi")
     = Ok (Dcm2niix.Tuple4 ["/work/nii/a/dwi.nii.gz"] ["/work/nii/a/dwi.bvec"]
             ["/work/nii/a/dwi.bval"] ["/work/nii/a/dwi.json"])
  /\ PosixPath.isabs "/work/nii/a/dwi.json" = true.
Proof.
split; [reflexivity|]. split; [reflexivity|].
apply (X10_dcm2niix_paths_absolute "/work"
         (Dcm2niix.Inputs (Some "out/../nii") Dcm2niix.Ci true)
         ("DTI gradients" ++ nl ++ "Convert a/dwi")
         (Dcm2niix.Tuple4 ["/work/nii/a/dwi.nii.gz"] ["/work/nii/a/dwi.bvec"]
            ["/work/nii/a/dwi.bval"] ["/work/nii/a/dwi.json"])
         eq_refl eq_refl).
cbn. auto 10.
Defined.

Lemma niix_filter_run (cwd : string) (inp : Dcm2niix.inputs)
      (lines : list string) (st sf st' : Dcm2niix.state) :
  Dcm2niix.skip st = false -> Dcm2niix.skip sf = false ->
  Dcm2niix.files sf = Dcm2niix.files st ->
  Dcm2niix.bids sf = Dcm2niix.bids st ->
  Dcm2niix.loop cwd inp st lines = Ok st' ->
  exists sf',
    Dcm2niix.loop cwd inp sf (filter (PyStr.startswith "Convert ") lines)
    = Ok sf'
    /\ Dcm2niix.files sf' = Dcm2niix.files st'
    /\ Dcm2niix.bids sf' = Dcm2niix.bids st'.
Proof.
revert st sf. induction lines as [|l lines IH]; intros st sf Hs Hsf Ef Eb;
  cbn [Dcm2niix.loop filter].
- intros [= <-]. now exists sf.
- destruct (Dcm2niix.loop_body cwd inp st l) as [st1|e] eqn:E; cbn [bind];
    [|discriminate].
  intros H. pose proof (niix_body_skip cwd inp st st1 l Hs E) as Hs1.
  revert E. destruct (PyStr.startswith "Convert " l) eqn:Hc.
  + destruct (Re.search Dcm2niix.re_path l) as [m|] eqn:Hm.
    * rewrite (niix_convert_line cwd inp st l m Hs Hc Hm). intros [= E1].
      cbn [Dcm2niix.loop].
      rewrite (niix_convert_line cwd inp sf l m Hsf Hc Hm). cbn [bind].
      apply (IH st1); try assumption.
      -- exact (niix_body_skip cwd inp sf _ l Hsf
                  (niix_convert_line cwd inp sf l m Hsf Hc Hm)).
      -- subst st1.
         destruct (niix_converted_fields cwd inp st (Re.group0 m)) as (A & _).
         destruct (niix_converted_fields cwd inp sf (Re.group0 m)) as (A' & _).
         cbv zeta in A, A'. now rewrite A, A', Ef.
      -- subst st1.
         destruct (niix_converted_fields cwd inp st (Re.group0 m))
           as (_ & B & _).
         destruct (niix_converted_fields cwd inp sf (Re.group0 m))
           as (_ & B' & _).
         cbv zeta in B, B'. now rewrite B, B', Eb.
    * now rewrite (niix_convert_raises cwd inp st l Hs Hc Hm).
  + rewrite (niix_other_line cwd inp st l Hs Hc). intros [= E1].
    apply (IH st1); try assumption; subst st1;
      destruct (gradient_marker l); try destruct st; assumption.
Qed.

(** X11. The converted files and the sidecars that
    [Dcm2niix._parse_stdout] returns depend on the lines that start with
    ["Convert "] only: a stdout whose lines are those lines alone, in the
    same order, gives the same converted files and the same sidecars
    (gradient markers and any other text change neither). *)
Theorem X11_dcm2niix_files_from_convert_lines_only :
  forall (cwd : string) (inp : Dcm2niix.inputs) (stdout stdout' : string)
         (out : Dcm2niix.outputs),
    PyStr.split Re.newline stdout'
    = filter (PyStr.startswith "Convert ") (PyStr.split Re.newline stdout) ->
    Dcm2niix._parse_stdout cwd inp stdout = Ok out ->
    exists out',
      Dcm2niix._parse_stdout cwd inp stdout' = Ok out'
      /\ out_files out' = out_files out
      /\ out_bids out' = out_bids out.
Proof.
intros cwd inp stdout stdout' out Hsplit Hret.
apply niix_parse_ok in Hret. destruct Hret as (st & Hrun & ->).
destruct (niix_filter_run cwd inp _ Dcm2niix.init Dcm2niix.init st
            eq_refl eq_refl eq_refl eq_refl Hrun) as (sf & Hf & Ef & Eb).
exists (Dcm2niix.returned sf). unfold Dcm2niix._parse_stdout.
rewrite Hsplit, Hf. cbn [bind]. split; [reflexivity|].
destruct (returned_lists st) as (-> & _ & _ & ->).
destruct (returned_lists sf) as (-> & _ & _ & ->). now split.
Qed.

Lemma X11_witness :
  PyStr.split Re.newline ("Convert a/t1" ++ nl ++ "Convert a/dwi")
  = filter (PyStr.startswith "Convert ")
      (PyStr.split Re.newline
         ("Convert a/t1" ++ nl ++ "DTI gradients" ++ nl ++ "Convert a/dwi"))
  /\ exists out',
       Dcm2niix._parse_stdout "/work" (Dcm2niix.Inputs None Dcm2niix.Cn true)
         ("Convert a/t1" ++ nl ++ "Convert a/dwi") = Ok out'
       /\ out_files out' = ["/work/a/t1.nii"; "/work/a/dwi.nii"]
       /\ out_bids out' = ["/work/a/t1.json"; "/work/a/dwi.json"].
Proof.
split; [reflexivity|].
exact (X11_dcm2niix_files_from_convert_lines_only "/work"
         (Dcm2niix.Inputs None Dcm2niix.Cn true)
         ("Convert a/t1" ++ nl ++ "DTI gradients" ++ nl ++ "Convert a/dwi")
         ("Convert a/t1" ++ nl ++ "Convert a/dwi")
         (Dcm2niix.Tuple4 ["/work/a/t1.nii"; "/work/a/dwi.nii"]
            ["/work/a/dwi.bvec"] ["/work/a/dwi.bval"]
            ["/work/a/t1.json"; "/work/a/dwi.json"])
         eq_refl eq_refl).
Defined.

Lemma niix_run_total (cwd : string) (inp : Dcm2niix.inputs)
      (lines : list string) (st : Dcm2niix.state) :
  Dcm2niix.skip st = false ->
  (forall l, In l lines -> PyStr.startswith "Convert " l = true ->
             Re.search Dcm2niix.re_path l <> None) ->
  exists st', Dcm2niix.loop cwd inp st lines = Ok st'.
Proof.
revert st. induction lines as [|l lines IH]; intros st Hs Hall;
  cbn [Dcm2niix.loop].
- now exists st.
- assert (Hb : exists st1, Dcm2niix.loop_body cwd inp st l = Ok st1).
  { destruct (PyStr.startswith "Convert " l) eqn:Hc.
    - destruct (Re.search Dcm2niix.re_path l) as [m|] eqn:Hm.
      + eexists. exact (niix_convert_line cwd inp st l m Hs Hc Hm).
      + destruct (Hall l (or_introl eq_refl) Hc Hm).
    - eexists. exact (niix_other_line cwd inp st l Hs Hc). }
  destruct Hb as [st1 Hb]. rewrite Hb. cbn [bind].
  apply IH; [exact (niix_body_skip cwd inp st st1 l Hs Hb)|].
  intros l' Hin. apply Hall. now right.
Qed.

(** X12. [Dcm2niix._parse_stdout] raises exactly when some line of stdout
    starts with ["Convert "] and has no path fragment for the pattern to
    find, and then it raises [AttributeError]; on every other stdout it
    returns. *)
Theorem X12_dcm2niix_raises_iff_convert_without_path :
  forall (cwd : string) (inp : Dcm2niix.inputs) (stdout : string) (e : exn),
    Dcm2niix._parse_stdout cwd inp stdout = Raise e
    <-> (e = AttributeError
         /\ exists line,
              In line (PyStr.split Re.newline stdout)
              /\ PyStr.startswith "Convert " line = true
              /\ Re.search Dcm2niix.re_path line = None).
Proof.
intros cwd inp stdout e. unfold Dcm2niix._parse_stdout. split.
- destruct (Dcm2niix.loop cwd inp Dcm2niix.init (PyStr.split Re.newline stdout))
    as [st|e1] eqn:E; cbn [bind]; [discriminate|].
  intros [= <-]. split; [exact (niix_run_raises cwd inp _ _ _ E)|].
  assert (Hex : ~ (forall l, In l (PyStr.split Re.newline stdout) ->
                     PyStr.startswith "Convert " l = true ->
                     Re.search Dcm2niix.re_path l <> None)).
  { intros Hall.
    destruct (niix_run_total cwd inp _ Dcm2niix.init eq_refl Hall) as [st Hst].
    rewrite Hst in E. discriminate E. }
  clear E. induction (PyStr.split Re.newline stdout) as [|l lines IH].
  + exfalso. apply Hex. intros l [].
  + destruct (PyStr.startswith "Convert " l) eqn:Hc.
    * destruct (Re.search Dcm2niix.re_path l) as [m|] eqn:Hm.
      -- destruct IH as (line & Hin & H1 & H2).
         { intros Hall. apply Hex. intros l' [<-|Hin] Hc'.
           - rewrite Hm. discriminate.
           - now apply Hall. }
         exists line. split; [now right|now split].
      -- exists l. split; [now left|now split].
    * destruct IH as (line & Hin & H1 & H2).
      { intros Hall. apply Hex. intros l' [<-|Hin] Hc'.
        - rewrite Hc in Hc'. discriminate Hc'.
        - now apply Hall. }
      exists line. split; [now right|now split].
- intros (-> & line & Hin & Hc & Hm).
  apply in_split in Hin. destruct Hin as (l1 & l2 & ->).
  rewrite niix_loop_app.
  destruct (Dcm2niix.loop cwd inp Dcm2niix.init l1) as [st1|e] eqn:E1;
    cbn [bind Dcm2niix.loop].
  + pose proof (niix_run_skip _ _ l1 Dcm2niix.init _ eq_refl E1) as Hs1.
    now rewrite (niix_convert_raises _ _ _ _ Hs1 Hc Hm).
  + apply niix_run_raises in E1. now subst e.
Qed.

Lemma X12_witness :
  In ("Convert " ++ unit_separator ++ "/" ++ unit_separator)
     (PyStr.split Re.newline
        ("Convert a/t1" ++ nl
           ++ "Convert " ++ unit_separator ++ "/" ++ unit_separator))
  /\ Re.search Dcm2niix.re_path
       ("Convert " ++ unit_separator ++ "/" ++ unit_separator) = None
  /\ Dcm2niix._parse_stdout "/work" (Dcm2niix.Inputs None Dcm2niix.Ci false)
       ("Convert a/t1" ++ nl
          ++ "Convert " ++ unit_separator ++ "/" ++ unit_separator)
     = Raise AttributeError.
Proof.
split; [right; left; reflexivity|]. split; [reflexivity|].
apply (proj2 (X12_dcm2niix_raises_iff_convert_without_path "/work"
                (Dcm2niix.Inputs None Dcm2niix.Ci false)
                ("Convert a/t1" ++ nl
                   ++ "Convert " ++ unit_separator ++ "/" ++ unit_separator)
                AttributeError)).
split; [reflexivity|].
exists ("Convert " ++ unit_separator ++ "/" ++ unit_separator).
split; [right; left; reflexivity|]. split; reflexivity.
Defined.

(** X13. [Dcm2niix._run_interface] followed by [Dcm2niix._list_outputs],
    once [_parse_stdout] has returned.  With BIDS sidecars off the
    unpacking never fails, no [bids] attribute is assigned and the outputs
    are the three lists under [converted_files], [bvecs], [bvals].  With
    BIDS sidecars on and a line starting with ["Convert "], the unpacking
    succeeds and the outputs have a fourth entry [bids] with as many paths
    as [converted_files]. *)
Theorem X13_dcm2niix_run_then_list_outputs :
  forall (cwd : string) (inp : Dcm2niix.inputs) (stdout : string)
         (out : Dcm2niix.outputs),
    Dcm2niix._parse_stdout cwd inp stdout = Ok out ->
    (Dcm2niix.bids_format inp = false ->
     exists a,
       Dcm2niix._run_interface cwd inp stdout = Ok a
       /\ Dcm2niix.a_bids a = None
       /\ Dcm2niix._list_outputs inp a
          = Ok [("converted_files", out_files out);
                ("bvecs", out_bvecs out);
                ("bvals", out_bvals out)])
    /\ (Dcm2niix.bids_format inp = true ->
        existsb (PyStr.startswith "Convert ") (PyStr.split Re.newline stdout)
        = true ->
        exists a b,
          Dcm2niix._run_interface cwd inp stdout = Ok a
          /\ Dcm2niix.a_bids a = Some b
          /\ length b = length (out_files out)
          /\ Dcm2niix._list_outputs inp a
             = Ok [("converted_files", out_files out);
                   ("bvecs", out_bvecs out);
                   ("bvals", out_bvals out);
                   ("bids", b)]).
Proof.
intros cwd inp stdout out Hret.
pose proof (X := niix_parse_ok cwd inp stdout out Hret).
destruct X as (st & Hrun & Eout).
destruct (niix_run_counts cwd inp _ Dcm2niix.init st eq_refl Hrun) as [Cf Cb].
cbn [Dcm2niix.init Dcm2niix.files Dcm2niix.bids length Nat.add] in Cf, Cb.
unfold Dcm2niix._run_interface, Dcm2niix._list_outputs. rewrite Hret.
cbn [bind]. split.
- intros Hb. rewrite Hb in *.
  assert (Hnil : Dcm2niix.bids st = [])
    by (destruct (Dcm2niix.bids st); [reflexivity|discriminate Cb]).
  subst out. unfold Dcm2niix.returned. rewrite Hnil. cbn [PyStr.is_nil].
  eexists. split; [reflexivity|]. split; reflexivity.
- intros Hb Hex. rewrite Hb in *.
  assert (Hpos : 0 < count_convert (PyStr.split Re.newline stdout)).
  { unfold count_convert. apply existsb_exists in Hex.
    destruct Hex as (l & Hin & Hc).
    assert (Hf : In l (filter (PyStr.startswith "Convert ")
                          (PyStr.split Re.newline stdout)))
      by (apply filter_In; now split).
    destruct (filter _ _); [destruct Hf|cbn; lia]. }
  subst out. unfold Dcm2niix.returned.
  destruct (Dcm2niix.bids st) as [|b0 bs] eqn:Eb; [cbn in Cb; lia|].
  cbn [PyStr.is_nil out_files out_bvecs out_bvals].
  exists (Dcm2niix.Attrs (Dcm2niix.files st) (Dcm2niix.bvecs st)
            (Dcm2niix.bvals st) (Some (b0 :: bs))), (b0 :: bs).
  split; [reflexivity|]. split; [reflexivity|]. split; [lia|reflexivity].
Qed.

Lemma X13_witness :
  Dcm2niix._parse_stdout "/work" (Dcm2niix.Inputs None Dcm2niix.Cn true)
    "Convert a/t1"
  = Ok (Dcm2niix.Tuple4 ["/work/a/t1.nii"] [] [] ["/work/a/t1.json"])
  /\ exists a b,
       Dcm2niix._run_interface "/work" (Dcm2niix.Inputs None Dcm2niix.Cn true)
         "Convert a/t1" = Ok a
       /\ Dcm2niix.a_bids a = Some b
       /\ length b = 1
       /\ Dcm2niix._list_outputs (Dcm2niix.Inputs None Dcm2niix.Cn true) a
          = Ok [("converted_files", ["/work/a/t1.nii"]); ("bvecs", []);
                ("bvals", []); ("bids", b)].
Proof.
split; [reflexivity|].
exact (proj2 (X13_dcm2niix_run_then_list_outputs "/work"
                (Dcm2niix.Inputs None Dcm2niix.Cn true) "Convert a/t1"
                (Dcm2niix.Tuple4 ["/work/a/t1.nii"] [] [] ["/work/a/t1.json"])
                eq_refl) eq_refl eq_refl).
Defined.

(** X15. [Dcm2niix._format_arg] passes only the first of [source_names] to
    the command: with the declared template the formatted argument is the
    first name, whatever names follow it; an empty list raises
    [IndexError]. *)
Theorem X15_dcm2niix_first_source_name_only :
  forall (spec : Base.trait_spec) (v0 : string) (rest : list string),
    Dcm2niix.input_spec "source_names" = Some spec ->
    Dcm2niix._format_arg "source_names" spec (Base.VList (v0 :: rest))
    = Ok (Some v0)
    /\ Dcm2niix._format_arg "source_names" spec (Base.VList [])
       = Raise IndexError.
Proof.
intros spec v0 rest Hspec. injection Hspec as <-. split; [|reflexivity].
unfold Dcm2niix._format_arg.
cbn [PyStr.mem Dcm2niix.yn_fields existsb String.eqb Ascii.eqb Bool.eqb orb
     Base.argstr PyStr.percent_s PyStr.startswith andb PyStr.drop].
now rewrite append_nil_r.
Qed.

Lemma X15_witness :
  Dcm2niix.input_spec "source_names" = Some (Base.TraitSpec "%s" false)
  /\ Dcm2niix._format_arg "source_names" (Base.TraitSpec "%s" false)
       (Base.VList ["functional_1.dcm"; "functional_2.dcm"])
     = Ok (Some "functional_1.dcm").
Proof.
split; [reflexivity|].
exact (proj1 (X15_dcm2niix_first_source_name_only (Base.TraitSpec "%s" false)
                "functional_1.dcm" ["functional_2.dcm"] eq_refl)).
Defined.

Lemma take_add (n j : nat) (s : string) :
  PyStr.take (n + j) s = PyStr.take n s ++ PyStr.take j (PyStr.drop n s).
Proof.
revert s. induction n as [|n IH]; intros s; [reflexivity|].
destruct s as [|c s].
- cbn [Nat.add PyStr.take PyStr.drop append]. now destruct j.
- cbn [Nat.add PyStr.take PyStr.drop append]. now rewrite IH.
Qed.

Lemma all_match_app (a : Re.atom) (u v : string) :
  all_match a (u ++ v) = all_match a u && all_match a v.
Proof.
induction u as [|c u IH]; [reflexivity|].
cbn [append all_match]. now rewrite IH, andb_assoc.
Qed.

(** What a greedy repetition consumed matches the atom, and the rest of
    the pattern matched behind it. *)
Lemma star_greedy_inv (a : Re.atom) (k : string -> option Re.hit)
      (s : string) (m : Re.hit) :
  Re.star_greedy a k s = Some m ->
  exists n m',
    all_match a (PyStr.take n s) = true
    /\ k (PyStr.drop n s) = Some m'
    /\ fst m = n + fst m'.
Proof.
revert m. induction s as [|c s IH]; intros m; cbn [Re.star_greedy].
- intros H. now exists 0, m.
- destruct (Re.atom_matches a c) eqn:Ec; [|intros H; now exists 0, m].
  destruct (Re.star_greedy a k s) as [m1|] eqn:E1; [|intros H; now exists 0, m].
  intros [= <-]. destruct (IH m1 eq_refl) as (n & m' & Ha & Hk & Hf).
  exists (S n), m'. cbn [PyStr.take PyStr.drop all_match Re.shift fst].
  rewrite Ec, Ha. repeat split; [exact Hk|lia].
Qed.

(** What the path pattern consumes at the head of a string: characters that
    are not whitespace, with a slash strictly inside. *)
Lemma match_here_path (s : string) (m : Re.hit) :
  Re.match_here Dcm2niix.re_path s = Some m ->
  all_match Re.NonSpace (PyStr.take (fst m) s) = true
  /\ exists u v, PyStr.take (fst m) s = u ++ "/" ++ v
                 /\ PyStr.truthy u = true /\ PyStr.truthy v = true.
Proof.
unfold Dcm2niix.re_path. cbn [Re.match_here].
destruct s as [|c s]; [discriminate|].
destruct (Re.atom_matches Re.NonSpace c) eqn:Ec; [|discriminate].
destruct (Re.star_greedy _ _ s) as [m1|] eqn:E1; [|discriminate].
cbn [option_map]. intros [= <-].
apply star_greedy_inv in E1. destruct E1 as (n1 & m2 & Ha1 & Hk & Hf1).
revert Hk. destruct (PyStr.drop n1 s) as [|d t] eqn:Ed; [discriminate|].
destruct (Re.atom_matches (Re.Chr "/") d) eqn:Esl; [|discriminate].
cbn [Re.atom_matches] in Esl. apply Ascii.eqb_eq in Esl. subst d.
destruct t as [|x t]; [discriminate|].
destruct (Re.atom_matches Re.NonSpace x) eqn:Ex; [|discriminate].
destruct (Re.star_greedy _ _ t) as [m3|] eqn:E3; [|discriminate].
cbn [option_map]. intros [= <-].
apply star_greedy_inv in E3. destruct E3 as (n3 & m4 & Ha3 & Hk3 & Hf3).
injection Hk3 as <-. cbn [fst] in Hf3.
cbn [Re.shift fst] in *.
assert (Hlen : S (fst m1) = S n1 + (2 + n3)) by lia.
rewrite Hlen. cbn [Nat.add PyStr.take]. rewrite take_add, Ed.
cbn [Nat.add PyStr.take]. split.
- cbn [all_match]. rewrite Ec, all_match_app, Ha1.
  cbn [all_match]. rewrite Ex, Ha3. reflexivity.
- exists (String c (PyStr.take n1 s)), (String x (PyStr.take n3 t)).
  now repeat split.
Qed.

Lemma search_from_some (r : Re.regex) (s : string) (i : nat) (m : Re.hit) :
  Re.search_from r s = Some (i, m) ->
  Re.match_here r (PyStr.drop i s) = Some m.
Proof.
revert i. induction s as [|c s IH]; intros i; cbn [Re.search_from].
- destruct (Re.match_here r "") eqn:E; [|discriminate].
  now intros [= <- <-].
- destruct (Re.match_here r (String c s)) eqn:E; [now intros [= <- <-]|].
  destruct (Re.search_from r s) as [[j m1]|] eqn:Es; [|discriminate].
  cbn [option_map fst snd]. intros [= <- <-]. now apply IH.
Qed.

Lemma all_match_nonspace (s : string) :
  all_match Re.NonSpace s = true ->
  forall c, In c (list_ascii_of_string s) ->
            ~ In (nat_of_ascii c) Re.whitespace_codes.
Proof.
induction s as [|a s IH]; cbn [all_match list_ascii_of_string];
  [intros _ c []|].
intros H. apply andb_true_iff in H. destruct H as [Ha Hs].
intros c [<-|Hin]; [|now apply IH].
cbn [Re.atom_matches] in Ha. apply negb_true_iff in Ha.
unfold Re.is_space in Ha. intros Hc.
assert (E : existsb (Nat.eqb (nat_of_ascii a)) Re.whitespace_codes = true).
{ apply existsb_exists. exists (nat_of_ascii a).
  split; [exact Hc|apply Nat.eqb_refl]. }
rewrite E in Ha. discriminate Ha.
Qed.

(** X14. The name that a ["Convert "] line contributes, the first match of
    the path pattern, is a piece of the line that contains no whitespace
    (no character with code point 9 to 13, 28 to 32, 133 or 160) and has a
    slash with at least one character on each side: a path with a blank or
    a separator character in it is cut there, and a bare file name without
    a directory is never taken. *)
Theorem X14_dcm2niix_extracted_name :
  forall (line : string) (m : Re.match_obj),
    Re.search Dcm2niix.re_path line = Some m ->
    all_match Re.NonSpace (Re.group0 m) = true
    /\ (forall c, In c (list_ascii_of_string (Re.group0 m)) ->
                  ~ In (nat_of_ascii c)
                       [9; 10; 11; 12; 13; 28; 29; 30; 31; 32; 133; 160])
    /\ (exists u v, Re.group0 m = u ++ "/" ++ v
                    /\ PyStr.truthy u = true /\ PyStr.truthy v = true)
    /\ (exists before after, line = before ++ Re.group0 m ++ after).
Proof.
intros line m. unfold Re.search.
destruct (Re.search_from Dcm2niix.re_path line) as [[i h]|] eqn:E;
  [|discriminate].
cbn [option_map fst snd]. intros [= <-].
apply search_from_some in E.
destruct (match_here_path _ _ E) as [Ha Hu].
unfold Re.group0. cbn [Re.m_hit Re.m_start Re.m_string].
split; [exact Ha|]. split; [exact (all_match_nonspace _ Ha)|].
split; [exact Hu|].
exists (PyStr.take i line), (PyStr.drop (fst h) (PyStr.drop i line)).
now rewrite take_drop, take_drop.
Qed.

Lemma X14_witness :
  (Re.search Dcm2niix.re_path "Convert 3 DICOM as /data/my dir/img (64x64)"
   = Some (Re.MatchObj "Convert 3 DICOM as /data/my dir/img (64x64)" 19
             (8, []))
   /\ Re.group0 (Re.MatchObj "Convert 3 DICOM as /data/my dir/img (64x64)" 19
                   (8, [])) = "/data/my")
  /\ (Re.search Dcm2niix.re_path ("Convert a" ++ file_separator ++ "b/c")
      = Some (Re.MatchObj ("Convert a" ++ file_separator ++ "b/c") 10 (3, []))
      /\ Re.group0 (Re.MatchObj ("Convert a" ++ file_separator ++ "b/c") 10
                      (3, [])) = "b/c")
  /\ all_match Re.NonSpace
       (Re.group0 (Re.MatchObj "Convert 3 DICOM as /data/my dir/img (64x64)"
                     19 (8, []))) = true
  /\ all_match Re.NonSpace
       (Re.group0 (Re.MatchObj ("Convert a" ++ file_separator ++ "b/c") 10
                     (3, []))) = true.
Proof.
split; [split; reflexivity|]. split; [split; reflexivity|]. split.
- exact (proj1 (X14_dcm2niix_extracted_name
                  "Convert 3 DICOM as /data/my dir/img (64x64)"
                  (Re.MatchObj "Convert 3 DICOM as /data/my dir/img (64x64)"
                     19 (8, [])) eq_refl)).
- exact (proj1 (X14_dcm2niix_extracted_name
                  ("Convert a" ++ file_separator ++ "b/c")
                  (Re.MatchObj ("Convert a" ++ file_separator ++ "b/c") 10
                     (3, [])) eq_refl)).
Defined.

(** ** Further properties: secondary outputs and the working directory *)

Lemma gen_fname_placed (cs : list string) (f suffix : string) :
  forallb simple cs = true -> f <> "" ->
  PyStr.truthy suffix = true ->
  PyStr.contains "/" suffix = false ->
  Mrtrix._gen_fname (canonical cs) f None (Some suffix) true ".mif"
  = Ok (canonical (cs ++ [Mrtrix.name_of f ++ (suffix ++ ".mif")])).
Proof.
intros Hcs Hf Ht Hs. unfold Mrtrix._gen_fname.
destruct (String.eqb f "") eqn:E; [apply String.eqb_eq in E; contradiction|].
cbn [PyStr.truthy_opt]. rewrite Ht. f_equal.
unfold Filemanip.fname_presuffix. pose proof (name_of_free f) as Hn.
unfold Mrtrix.name_of in *.
destruct (Filemanip.split_filename f) as [[pth name] ext].
cbn [PyStr.truthy canonical append].
assert (Hcwd : PosixPath.abspath (canonical cs) (canonical cs) = canonical cs).
{ unfold PosixPath.abspath. rewrite canonical_isabs.
  now apply canonical_normpath. }
change (String "/" (String.concat "/" cs)) with (canonical cs).
rewrite Hcwd, append_nil_r. apply canonical_join; [exact Hcs|].
apply simple_app; [exact Hn| |].
- rewrite contains1_app, Hs. reflexivity.
- rewrite length_append. cbn. lia.
Qed.

(** X6. The secondary outputs of [DWIDenoise] and [DWIBiasCorrect].  The
    noise map (the bias field) is listed exactly when the input
    [out_noisemap] ([out_bias]) is defined and not empty; the listed path
    does not depend on the value given: in a canonical working directory it
    is the name of the input file with [_noisemap.mif] ([_biasfield.mif])
    right below the working directory. *)
Theorem X6_mrtrix_secondary_outputs :
  forall (cs : list string) (f : string) (inp : Mrtrix.inputs),
    forallb simple cs = true ->
    f <> "" ->
    Mrtrix.in_file inp = Some f ->
    (forall given : string,
        PyStr.truthy given = true ->
        Mrtrix.DWIDenoise._list_outputs_out_noisemap (canonical cs) inp
          (Some given)
        = Ok (Some (canonical (cs ++ [Mrtrix.name_of f ++ "_noisemap.mif"])))
        /\ Mrtrix.DWIBiasCorrect._list_outputs_out_bias (canonical cs) inp
             (Some given)
           = Ok (Some (canonical (cs ++ [Mrtrix.name_of f ++ "_biasfield.mif"]))))
    /\ (forall given : option string,
           given = None \/ given = Some "" ->
           Mrtrix.DWIDenoise._list_outputs_out_noisemap (canonical cs) inp given
           = Ok None
           /\ Mrtrix.DWIBiasCorrect._list_outputs_out_bias (canonical cs) inp
                given = Ok None).
Proof.
intros cs f inp Hcs Hf Hin. split.
- intros given Hg.
  unfold Mrtrix.DWIDenoise._list_outputs_out_noisemap,
    Mrtrix.DWIBiasCorrect._list_outputs_out_bias, Mrtrix.the_in_file.
  cbn [PyStr.truthy_opt]. rewrite Hg, Hin. cbn [bind].
  rewrite (gen_fname_placed cs f "_noisemap" Hcs Hf eq_refl eq_refl).
  rewrite (gen_fname_placed cs f "_biasfield" Hcs Hf eq_refl eq_refl).
  split; reflexivity.
- intros given [->| ->]; split; reflexivity.
Qed.

Lemma X6_witness :
  forallb simple ["work"] = true
  /\ "/data/dwi.mif" <> ""
  /\ Mrtrix.DWIDenoise._list_outputs_out_noisemap (canonical ["work"])
       (Mrtrix.Inputs (Some "/data/dwi.mif") [] None Mrtrix.Emif)
       (Some "/elsewhere/noise.mif")
     = Ok (Some "/work/dwi_noisemap.mif").
Proof.
assert (Hne : "/data/dwi.mif" <> "") by discriminate.
split; [reflexivity|]. split; [exact Hne|].
exact (proj1 (proj1 (X6_mrtrix_secondary_outputs ["work"] "/data/dwi.mif"
                (Mrtrix.Inputs (Some "/data/dwi.mif") [] None Mrtrix.Emif)
                eq_refl Hne eq_refl) "/elsewhere/noise.mif" eq_refl)).
Defined.

Lemma nii_body_cwd_free (cwd cwd' : string) (od od' : option string)
      (st : Dcm2nii.state) (line : string) :
  PyStr.startswith "GZip..." line = false ->
  Dcm2nii.loop_body cwd od st line = Dcm2nii.loop_body cwd' od' st line.
Proof.
intros H. unfold Dcm2nii.loop_body, Dcm2nii.classify. rewrite H.
reflexivity.
Qed.

(** X19. Only ["GZip..."] lines make [Dcm2nii._parse_stdout] consult the
    output directory and the working directory: on a stdout without a line
    that starts with ["GZip..."], the outcome (the five lists, or the
    exception) is the same for every working directory and every setting of
    the output directory. *)
Theorem X19_dcm2nii_directories_only_for_gzip :
  forall (cwd cwd' : string) (output_dir output_dir' : option string)
         (stdout : string),
    forallb (fun l => negb (PyStr.startswith "GZip..." l))
      (PyStr.split Re.newline stdout) = true ->
    Dcm2nii._parse_stdout cwd output_dir stdout
    = Dcm2nii._parse_stdout cwd' output_dir' stdout.
Proof.
intros cwd cwd' od od' stdout H. unfold Dcm2nii._parse_stdout. f_equal.
generalize Dcm2nii.init.
induction (PyStr.split Re.newline stdout) as [|l lines IH]; intros st;
  [reflexivity|].
cbn [forallb] in H. apply andb_true_iff in H. destruct H as [Hl Hr].
apply negb_true_iff in Hl. cbn [Dcm2nii.loop].
rewrite (nii_body_cwd_free cwd cwd' od od' st l Hl).
destruct (Dcm2nii.loop_body cwd' od' st l); cbn [bind]; [now apply IH|].
reflexivity.
Qed.

Lemma X19_witness :
  forallb (fun l => negb (PyStr.startswith "GZip..." l))
    (PyStr.split Re.newline ("Saving a.nii" ++ nl ++ directions_line)) = true
  /\ Dcm2nii._parse_stdout "/work" None ("Saving a.nii" ++ nl ++ directions_line)
     = Dcm2nii._parse_stdout "/elsewhere" (Some "/out")
         ("Saving a.nii" ++ nl ++ directions_line).
Proof.
split; [reflexivity|].
exact (X19_dcm2nii_directories_only_for_gzip "/work" "/elsewhere" None
         (Some "/out") ("Saving a.nii" ++ nl ++ directions_line) eq_refl).
Defined.
